(** * The JWT authentication middleware of the HTTP edge service (package [myjwt])

    A shallow embedding of [GinJWTMiddleware]: credential location,
    token parsing, the request-interception decision with its path
    exemption list, initialisation, login and refresh.

    Conventions of the embedding
    - a Go [string] is a Rocq [string] (a byte sequence); [TrimSpace]
      reads it as UTF-8, as the language does;
    - [time.Time] and [time.Duration] are integers counting nanoseconds
      (since the Unix epoch for a [Time]), without the bounds of [int64];
      [Unix] floors to seconds;
    - an [interface{}] claim value is a [Value]; a finite [float64] is the
      rational it denotes, and [int64(f)] truncates towards zero within
      the range of [int64] and gives the smallest [int64] outside it, as
      on amd64;
    - a Go map that is only read is its finite map, and a nil map reads
      like the empty one; the claim maps of tokens, which the issuer
      writes to, live in a heap of maps;
    - the request is the five name-to-value tables the middleware reads
      and the path; a header is looked up under the name as the lookup
      entry writes it, and the table is taken to hold it under that name
      (net/http keeps and looks up header names in one canonical
      spelling, which is not modelled);
    - a run-time panic (unchecked type assertion, index out of range,
      call of a nil function) is the outcome [Panicked];
    - the collaborators that are not part of the package (golang-jwt,
      the clock, the file system, PEM decoding) are the fields of a
      [Library] record; a callback of the configuration is a function,
      [None] when the field is nil. *)

From Stdlib Require Import ZArith QArith String Ascii List Lia.
From stdpp Require Import base option gmap strings list fin_maps.

#[local] Set Warnings "-register-all".

Local Open Scope Z_scope.
Local Open Scope string_scope.

(** ** Package [strings] *)

Module strings.

(** [strings.HasPrefix] *)
Definition HasPrefix (s p : string) : bool := String.prefix p s.

(** [strings.Index]: byte offset of the first occurrence of [sep]. *)
Fixpoint Index (s sep : string) : option nat :=
  if String.prefix sep s then Some O
  else match s with
       | EmptyString => None
       | String _ s' => S <$> Index s' sep
       end.

(** [s[i:]] *)
Fixpoint drop (i : nat) (s : string) : string :=
  match i, s with
  | O, _ => s
  | S i', String _ s' => drop i' s'
  | S _, EmptyString => EmptyString
  end.

(** [s[:i]] *)
Fixpoint take (i : nat) (s : string) : string :=
  match i, s with
  | O, _ => EmptyString
  | S i', String a s' => String a (take i' s')
  | S _, EmptyString => EmptyString
  end.

(** [genSplit] for a non-empty separator: cut at each occurrence of
    [sep] until [n] pieces have been produced; the last piece is the
    unsplit remainder.  [fuel] bounds the number of cuts. *)
Fixpoint genSplit (fuel : nat) (s sep : string) (n : nat) : list string :=
  match fuel with
  | O => [s]
  | S fuel' =>
      if (n <=? 1)%nat then [s]
      else match Index s sep with
           | None => [s]
           | Some i =>
               take i s :: genSplit fuel' (drop (i + String.length sep) s) sep (n - 1)
           end
  end.

(** [strings.SplitN(s, sep, n)] for [n > 0] and a non-empty separator. *)
Definition SplitN (s sep : string) (n : nat) : list string :=
  genSplit (String.length s) s sep n.

(** [strings.Split(s, sep)]: no bound on the number of pieces. *)
Definition Split (s sep : string) : list string :=
  genSplit (String.length s) s sep (S (String.length s)).

(** ASCII white space, as [unicode.IsSpace] has it below 0x80. *)
Definition isSpace (a : ascii) : bool :=
  let n := nat_of_ascii a in
  ((n =? 32) || ((9 <=? n) && (n <=? 13)))%nat.

(** The white space beyond ASCII, by its UTF-8 encoding: U+0085 and
    U+00A0 in two bytes; U+1680, U+2000 to U+200A, U+2028, U+2029,
    U+202F, U+205F and U+3000 in three. *)
Definition isSpace2 (a b : ascii) : bool :=
  let a := nat_of_ascii a in
  let b := nat_of_ascii b in
  ((a =? 194) && ((b =? 133) || (b =? 160)))%nat.

Definition isSpace3 (a b c : ascii) : bool :=
  let a := nat_of_ascii a in
  let b := nat_of_ascii b in
  let c := nat_of_ascii c in
  (((a =? 225) && (b =? 154) && (c =? 128))
   || ((a =? 226) && (b =? 128)
       && (((128 <=? c) && (c <=? 138)) || (c =? 168) || (c =? 169) || (c =? 175)))
   || ((a =? 226) && (b =? 129) && (c =? 159))
   || ((a =? 227) && (b =? 128) && (c =? 128)))%nat.

(** [strings.TrimLeftFunc(s, unicode.IsSpace)]: the leading white-space
    runes are dropped; a byte that does not begin a well-formed rune
    decodes to U+FFFD, which is not white space. *)
Fixpoint TrimLeft (s : string) : string :=
  match s with
  | EmptyString => EmptyString
  | String a s1 =>
      if isSpace a then TrimLeft s1
      else
        match s1 with
        | EmptyString => s
        | String b s2 =>
            if isSpace2 a b then TrimLeft s2
            else
              match s2 with
              | EmptyString => s
              | String c s3 => if isSpace3 a b c then TrimLeft s3 else s
              end
        end
  end.

(** The string is one white-space rune. *)
Definition isSpaceRune (s : string) : bool :=
  match s with
  | String a EmptyString => isSpace a
  | String a (String b EmptyString) => isSpace2 a b
  | String a (String b (String c EmptyString)) => isSpace3 a b c
  | _ => false
  end.

(** [strings.TrimRightFunc(s, unicode.IsSpace)]: once what follows a
    byte has been trimmed, the byte goes as well when it is, with what
    is left after it, one white-space rune. *)
Fixpoint TrimRight (s : string) : string :=
  match s with
  | EmptyString => EmptyString
  | String a s' =>
      let t := String a (TrimRight s') in
      if isSpaceRune t then EmptyString else t
  end.

(** [strings.TrimSpace] *)
Definition TrimSpace (s : string) : string := TrimRight (TrimLeft s).

End strings.

(** ** Dynamically typed values ([interface{}]) *)

(** The values a claim can hold: what the JSON decoder of the token
    library produces for scalars ([nil], [float64], [string], [bool]) and
    the [int64] that the issuer itself stores under [exp] and
    [orig_iat]. *)
Inductive Value : Type :=
| VNil
| VFloat (f : Q)
| VInt (i : Z)
| VString (s : string)
| VBool (b : bool).

(** The bounds of [int64]. *)
Module math.
Definition MinInt64 : Z := - 2 ^ 63.
Definition MaxInt64 : Z := 2 ^ 63 - 1.
End math.

(** [int64(f)]: the fractional part is discarded.  For a value that is
    outside the range of [int64] the result of the conversion depends on
    the implementation; it is the smallest [int64] on amd64, which the
    model follows. *)
Definition int64_of_float64 (f : Q) : Z :=
  let i := Z.quot (Qnum f) (Z.pos (Qden f)) in
  if (math.MinInt64 <=? i)%Z && (i <=? math.MaxInt64)%Z then i else math.MinInt64.

(** [m[k]] on a Go map: the zero value for a missing key (and for every
    key of a nil map, which is read like the empty map). *)
Definition index (m : gmap string Value) (k : string) : Value :=
  default VNil (m !! k).

Definition is_nil (v : Value) : bool :=
  match v with VNil => true | _ => false end.

(** [_, ok := v.(float64)] *)
Definition is_float64 (v : Value) : bool :=
  match v with VFloat _ => true | _ => false end.

(** ** Time *)

Module time.
Definition Time := Z.
Definition Duration := Z.
Definition Second : Duration := 1000000000.
Definition Hour : Duration := 3600 * Second.
Definition Add (t : Time) (d : Duration) : Time := t + d.
Definition Unix (t : Time) : Z := t `div` Second.
(** [time.Time{}], January 1 of year 1. *)
Definition Zero : Time := -62135596800 * Second.
End time.

(** ** Errors *)

(** An [error] is either made by [errors.New] or is a
    [*jwt.ValidationError] with its [Inner] error, its [Errors] bit field
    and its private [text]. *)
Inductive error : Type :=
| errors_New (msg : string)
| ValidationError (Inner : option error) (Errors : Z) (text : string).

(** The method [Error()]. *)
Fixpoint Error (e : error) : string :=
  match e with
  | errors_New msg => msg
  | ValidationError (Some inner) _ _ => Error inner
  | ValidationError None _ text =>
      if String.eqb text "" then "token is invalid" else text
  end.

Module http.
Definition StatusOK : Z := 200.
Definition StatusBadRequest : Z := 400.
Definition StatusUnauthorized : Z := 401.
Definition StatusForbidden : Z := 403.
Definition StatusInternalServerError : Z := 500.
End http.

Definition ErrMissingSecretKey := errors_New "secret key is required".
Definition ErrForbidden := errors_New "you don't have permission to access this resource".
Definition ErrMissingAuthenticatorFunc := errors_New "ginJWTMiddleware.Authenticator func is undefined".
Definition ErrMissingLoginValues := errors_New "missing Username or Password".
Definition ErrFailedAuthentication := errors_New "incorrect Username or Password".
Definition ErrFailedTokenCreation := errors_New "failed to create JWT Token".
Definition ErrExpiredToken := errors_New "token is expired".
Definition ErrEmptyAuthHeader := errors_New "auth header is empty".
Definition ErrMissingExpField := errors_New "missing exp field".
Definition ErrWrongFormatOfExp := errors_New "exp must be float64 format".
Definition ErrInvalidAuthHeader := errors_New "auth header is invalid".
Definition ErrEmptyQueryToken := errors_New "query token is empty".
Definition ErrEmptyCookieToken := errors_New "cookie token is empty".
Definition ErrEmptyParamToken := errors_New "parameter token is empty".
Definition ErrEmptyPostFormToken := errors_New "form post token is empty".
Definition ErrInvalidSigningAlgorithm := errors_New "invalid signing algorithm".
Definition ErrNoPrivKeyFile := errors_New "private key file unreadable".
Definition ErrNoPubKeyFile := errors_New "public key file unreadable".
Definition ErrInvalidPrivKey := errors_New "private key invalid".
Definition ErrInvalidPubKey := errors_New "public key invalid".

(** The package-level default [IdentityKey]. *)
Definition default_IdentityKey : string := "identity".

(** ** Outcomes *)

(** A Go call either returns or panics. *)
Inductive Result (A : Type) : Type :=
| Ok (a : A)
| Panicked (reason : string).
Arguments Ok {A} a.
Arguments Panicked {A} reason.

(** ** The token library: data *)

Module jwt.

(** A registered signing method, identified by its [Alg()] name. *)
Inductive SigningMethod : Type := Method (alg : string).

Definition Alg (m : SigningMethod) : string := let 'Method a := m in a.

Inductive rsa_PrivateKey : Type := PrivateKey (pem : list Byte.byte) (passphrase : string).
Inductive rsa_PublicKey : Type := PublicKey (pem : list Byte.byte).

(** What a key function hands to the verifier, what [SignedString]
    receives: the [[]byte] secret (possibly nil) or an RSA key pointer
    (possibly nil). *)
Inductive KeyMaterial : Type :=
| SecretKey (k : option (list Byte.byte))
| PublicKeyPtr (k : option rsa_PublicKey)
| PrivateKeyPtr (k : option rsa_PrivateKey).

(** The bits of [ValidationError.Errors]. *)
Definition ValidationErrorMalformed : Z := 1.
Definition ValidationErrorUnverifiable : Z := 2.
Definition ValidationErrorSignatureInvalid : Z := 4.
Definition ValidationErrorExpired : Z := 16.

(** A location of the heap of claim maps. *)
Definition loc := positive.

(** [jwt.Token]; [Claims] points to a [jwt.MapClaims]. *)
Record Token : Type := {
  Method_ : SigningMethod;
  Claims : loc;
  Valid : bool
}.

(** The decoded, not yet verified, content of a compact token. *)
Record Decoded : Type := {
  dMethod : SigningMethod;
  dClaims : gmap string Value
}.

End jwt.

Global Instance SigningMethod_eq_dec : EqDecision jwt.SigningMethod.
Proof. solve_decision. Defined.

(** ** The collaborators outside the package *)

Record Library : Type := {
  (** the names for which [jwt.GetSigningMethod] finds a method *)
  registered : string -> bool;
  (** [Parser.ParseUnverified]: split the compact form and decode the
      header and claim segments *)
  decode : string -> jwt.Decoded + error;
  (** the checks [jwt.Parse] runs once it has the key: the signature over
      the raw token and the library's own validation of the claims at the
      given time; [None] when the token is valid *)
  verify : string -> jwt.Decoded -> jwt.KeyMaterial -> time.Time -> option error;
  (** [Token.SignedString] on the method, the claims and the key *)
  sign : jwt.SigningMethod -> gmap string Value -> jwt.KeyMaterial -> string + error;
  ParseRSAPrivateKeyFromPEM : list Byte.byte -> option jwt.rsa_PrivateKey;
  ParseRSAPrivateKeyFromPEMWithPassword :
    list Byte.byte -> string -> option jwt.rsa_PrivateKey;
  ParseRSAPublicKeyFromPEM : list Byte.byte -> option jwt.rsa_PublicKey;
  (** [ioutil.ReadFile] *)
  ReadFile : string -> option (list Byte.byte);
  (** [time.Now()], as a function of the number of clock readings made
      so far *)
  time_Now : nat -> time.Time;
  (** [Time.Format(time.RFC3339)] *)
  Format_RFC3339 : time.Time -> string
}.

(** ** The request context of the HTTP framework *)

Module gin.

(** The parts of the request the middleware reads, each by name; a
    missing name reads as the empty string. *)
Record Request : Type := {
  Header : gmap string string;
  Query : gmap string string;
  Cookie : gmap string string;
  Param : gmap string string;
  PostForm : gmap string string;
  Path : string
}.

(** What [c.Set] stores. *)
Inductive Any : Type :=
| AString (s : string)
| AClaims (m : gmap string Value)
| AValue (v : Value).

(** [v.(string)] on a stored value: a string is a string whether the
    raw token or an identity was stored. *)
Definition as_string (v : Any) : option string :=
  match v with
  | AString s => Some s
  | AValue (VString s) => Some s
  | _ => None
  end.

Record SetCookie_ : Type := {
  ck_name : string; ck_value : string; ck_maxAge : Z; ck_path : string;
  ck_domain : string; ck_secure : bool; ck_httpOnly : bool
}.

Record Context : Type := {
  request : Request;
  Keys : gmap string Any;
  (** response headers set by [c.Header] *)
  header : gmap string string;
  cookies : list SetCookie_;
  sameSite : Z;
  (** [c.Abort()] has been called *)
  aborted : bool;
  (** the JSON bodies written by [c.JSON], latest first *)
  written : list (Z * list (string * Value));
  (** [c.Next()] has been called.  The framework also runs the handlers
      that follow when a handler returns without [c.Abort()]. *)
  next : bool
}.

Definition Set_ (key : string) (v : Any) (c : Context) : Context :=
  {| request := request c; Keys := <[key := v]> (Keys c); header := header c;
     cookies := cookies c; sameSite := sameSite c; aborted := aborted c;
     written := written c; next := next c |}.

Definition Header_ (key value : string) (c : Context) : Context :=
  {| request := request c; Keys := Keys c; header := <[key := value]> (header c);
     cookies := cookies c; sameSite := sameSite c; aborted := aborted c;
     written := written c; next := next c |}.

Definition Abort (c : Context) : Context :=
  {| request := request c; Keys := Keys c; header := header c;
     cookies := cookies c; sameSite := sameSite c; aborted := true;
     written := written c; next := next c |}.

Definition Next (c : Context) : Context :=
  {| request := request c; Keys := Keys c; header := header c;
     cookies := cookies c; sameSite := sameSite c; aborted := aborted c;
     written := written c; next := true |}.

Definition JSON (code : Z) (obj : list (string * Value)) (c : Context) : Context :=
  {| request := request c; Keys := Keys c; header := header c;
     cookies := cookies c; sameSite := sameSite c; aborted := aborted c;
     written := (code, obj) :: written c; next := next c |}.

Definition SetSameSite (s : Z) (c : Context) : Context :=
  {| request := request c; Keys := Keys c; header := header c;
     cookies := cookies c; sameSite := s; aborted := aborted c;
     written := written c; next := next c |}.

Definition SetCookie (ck : SetCookie_) (c : Context) : Context :=
  {| request := request c; Keys := Keys c; header := header c;
     cookies := ck :: cookies c; sameSite := sameSite c; aborted := aborted c;
     written := written c; next := next c |}.

Definition get (m : gmap string string) (key : string) : string :=
  default "" (m !! key).

End gin.

(** ** The middleware configuration *)

Record GinJWTMiddleware : Type := {
  Realm : string;
  SigningAlgorithm : string;
  Key : option (list Byte.byte);
  (** the key function receives the method and the claims of the token *)
  KeyFunc : option (jwt.SigningMethod -> gmap string Value -> jwt.KeyMaterial + error);
  Timeout : time.Duration;
  MaxRefresh : time.Duration;
  Authenticator : option (gin.Context -> Value * option error);
  Authorizator : option (Value -> gin.Context -> bool);
  PayloadFunc : option (Value -> gmap string Value);
  Unauthorized : option (gin.Context -> Z -> string -> gin.Context);
  LoginResponse : option (gin.Context -> Z -> string -> time.Time -> gin.Context);
  LogoutResponse : option (gin.Context -> Z -> gin.Context);
  RefreshResponse : option (gin.Context -> Z -> string -> time.Time -> gin.Context);
  IdentityHandler : option (gin.Context -> Result Value);
  IdentityKey : string;
  TokenLookup : string;
  TokenHeadName : string;
  (** a configured time source, as a function of the number of clock
      readings made so far *)
  TimeFunc : option (nat -> time.Time);
  HTTPStatusMessageFunc : option (error -> gin.Context -> string);
  PrivKeyFile : string;
  PrivKeyBytes : list Byte.byte;
  PubKeyFile : string;
  PrivateKeyPassphrase : string;
  PubKeyBytes : list Byte.byte;
  privKey : option jwt.rsa_PrivateKey;
  pubKey : option jwt.rsa_PublicKey;
  SendCookie : bool;
  CookieMaxAge : time.Duration;
  SecureCookie : bool;
  CookieHTTPOnly : bool;
  CookieDomain : string;
  SendAuthorization : bool;
  DisabledAbort : bool;
  CookieName : string;
  CookieSameSite : Z;
  FilteredURL : string
}.

(** ** The state a request handler runs in *)

Record World : Type := {
  ctx : gin.Context;
  (** the claim maps of the tokens *)
  heap : gmap jwt.loc (gmap string Value);
  (** the number of clock readings made so far *)
  ticks : nat
}.

Definition M (A : Type) : Type := World -> Result (A * World).

Global Instance M_ret : MRet M := fun A a w => Ok (a, w).
Global Instance M_bind : MBind M := fun A B f m w =>
  match m w with
  | Ok (a, w') => f a w'
  | Panicked r => Panicked r
  end.

Definition panic {A} (reason : string) : M A := fun _ => Panicked reason.

(** Run a pure computation that may panic. *)
Definition lift {A} (r : Result A) : M A := fun w =>
  match r with Ok a => Ok (a, w) | Panicked s => Panicked s end.

Definition get_c : M gin.Context := fun w => Ok (ctx w, w).

Definition modify_c (f : gin.Context -> gin.Context) : M unit := fun w =>
  Ok (tt, {| ctx := f (ctx w); heap := heap w; ticks := ticks w |}).

(** One reading of a clock. *)
Definition read_clock (clock : nat -> time.Time) : M time.Time := fun w =>
  Ok (clock (ticks w), {| ctx := ctx w; heap := heap w; ticks := S (ticks w) |}).

(** Allocation of a claim map with the content [m]. *)
Definition new_claims (m : gmap string Value) : M jwt.loc := fun w =>
  let l := fresh (dom (heap w)) in
  Ok (l, {| ctx := ctx w; heap := <[l := m]> (heap w); ticks := ticks w |}).

(** The claim map a token points to. *)
Definition claims_at (l : jwt.loc) : M (gmap string Value) := fun w =>
  match heap w !! l with
  | Some m => Ok (m, w)
  | None => Panicked "invalid memory address or nil pointer dereference"
  end.

(** [claims[key] = value] on the map at [l]. *)
Definition store_claim (l : jwt.loc) (key : string) (value : Value) : M unit := fun w =>
  match heap w !! l with
  | Some m =>
      Ok (tt, {| ctx := ctx w; heap := <[l := <[key := value]> m]> (heap w);
                 ticks := ticks w |})
  | None => Panicked "assignment to entry in nil map"
  end.

(** [for key := range src { dst[key] = src[key] }] on the heap: the keys
    are those [src] has when the loop starts, each value is read when its
    key is reached. *)
Definition copy_claims (src dst : jwt.loc) : M unit :=
  keys ← claims_at src;
  map_fold (fun key _ (k : M unit) =>
              _ ← k; m ← claims_at src; store_claim dst key (index m key))
           (mret tt) keys.

(** Call of a function-typed field, which panics when the field is nil. *)
Definition call {F} (f : option F) : M F :=
  match f with
  | Some g => mret g
  | None => panic "invalid memory address or nil pointer dereference"
  end.

(** ** The middleware *)

Section Middleware.

Variable lib : Library.

(** [jwt.GetSigningMethod] *)
Definition GetSigningMethod (alg : string) : option jwt.SigningMethod :=
  if registered lib alg then Some (jwt.Method alg) else None.

(** [jwt.New(method)]: a token with an empty claim map.  The header is
    built from [method.Alg()], so a nil method panics. *)
Definition jwt_New (method : option jwt.SigningMethod) : M jwt.Token :=
  match method with
  | None => panic "invalid memory address or nil pointer dereference"
  | Some m =>
      l ← new_claims ∅;
      mret {| jwt.Method_ := m; jwt.Claims := l; jwt.Valid := false |}
  end.

(** Modelled from the spec: [jwt.Parse] of the token library, whose
    source is not part of the repository (section 4.2: decode the
    segments, ask the key function for the key, verify).  An error of
    the key function that is not already a [*ValidationError] is wrapped
    in one, as [Inner], with the bit [ValidationErrorUnverifiable]. *)
Definition jwt_Parse (tokenString : string)
    (keyFunc : jwt.Token -> M (jwt.KeyMaterial + error))
    : M (option jwt.Token * option error) :=
  match decode lib tokenString with
  | inr e => mret (None, Some e)
  | inl d =>
      l ← new_claims (jwt.dClaims d);
      let token := {| jwt.Method_ := jwt.dMethod d; jwt.Claims := l;
                      jwt.Valid := false |} in
      r ← keyFunc token;
      match r with
      | inr (ValidationError inner errs text) =>
          mret (Some token, Some (ValidationError inner errs text))
      | inr e =>
          mret (Some token,
                Some (ValidationError (Some e) jwt.ValidationErrorUnverifiable ""))
      | inl key =>
          now ← read_clock (time_Now lib);
          match verify lib tokenString d key now with
          | Some e => mret (Some token, Some e)
          | None =>
              mret (Some {| jwt.Method_ := jwt.dMethod d; jwt.Claims := l;
                            jwt.Valid := true |}, None)
          end
      end
  end.

Section Methods.

Variable mw : GinJWTMiddleware.

Definition usingPublicKeyAlgo : bool :=
  String.eqb (SigningAlgorithm mw) "RS256"
  || String.eqb (SigningAlgorithm mw) "RS512"
  || String.eqb (SigningAlgorithm mw) "RS384".

(** [mw.TimeFunc()] *)
Definition now : M time.Time :=
  f ← call (TimeFunc mw); read_clock f.

(** [mw.HTTPStatusMessageFunc(e, c)] *)
Definition message (e : error) : M string :=
  f ← call (HTTPStatusMessageFunc mw); cx ← get_c; mret (f e cx).

Definition unauthorized (code : Z) (msg : string) : M unit :=
  _ ← modify_c (gin.Header_ "WWW-Authenticate" ("JWT realm=" ++ Realm mw));
  _ ← (if negb (DisabledAbort mw) then modify_c gin.Abort else mret tt);
  f ← call (Unauthorized mw);
  modify_c (fun cx => f cx code msg).

(** [mw.unauthorized(c, code, mw.HTTPStatusMessageFunc(err, c))]: the
    message is computed first. *)
Definition reject (code : Z) (err : error) : M unit :=
  msg ← message err; unauthorized code msg.

Definition jwtFromHeader (cx : gin.Context) (key : string) : string * option error :=
  let authHeader := gin.get (gin.Header (gin.request cx)) key in
  if String.eqb authHeader "" then ("", Some ErrEmptyAuthHeader)
  else
    let parts := strings.SplitN authHeader " " 2 in
    match parts with
    | [p0; p1] =>
        if String.eqb p0 (TokenHeadName mw) then (p1, None)
        else ("", Some ErrInvalidAuthHeader)
    | _ => ("", Some ErrInvalidAuthHeader)
    end.

Definition jwtFromQuery (cx : gin.Context) (key : string) : string * option error :=
  let token := gin.get (gin.Query (gin.request cx)) key in
  if String.eqb token "" then ("", Some ErrEmptyQueryToken) else (token, None).

Definition jwtFromCookie (cx : gin.Context) (key : string) : string * option error :=
  let cookie := gin.get (gin.Cookie (gin.request cx)) key in
  if String.eqb cookie "" then ("", Some ErrEmptyCookieToken) else (cookie, None).

Definition jwtFromParam (cx : gin.Context) (key : string) : string * option error :=
  let token := gin.get (gin.Param (gin.request cx)) key in
  if String.eqb token "" then ("", Some ErrEmptyParamToken) else (token, None).

Definition jwtFromPostForm (cx : gin.Context) (key : string) : string * option error :=
  let token := gin.get (gin.PostForm (gin.request cx)) key in
  if String.eqb token "" then ("", Some ErrEmptyPostFormToken) else (token, None).

(** The loop of [ParseToken] over the lookup methods, from the current
    [token] and [err].  [parts[1]] panics on a method without a colon. *)
Fixpoint locate (cx : gin.Context) (methods : list string)
    (token : string) (err : option error) : Result (string * option error) :=
  match methods with
  | [] => Ok (token, err)
  | method :: rest =>
      if (0 <? String.length token)%nat then Ok (token, err)
      else
        match strings.Split (strings.TrimSpace method) ":" with
        | p0 :: p1 :: _ =>
            let k := strings.TrimSpace p0 in
            let v := strings.TrimSpace p1 in
            let '(token', err') :=
              if String.eqb k "header" then jwtFromHeader cx v
              else if String.eqb k "query" then jwtFromQuery cx v
              else if String.eqb k "cookie" then jwtFromCookie cx v
              else if String.eqb k "param" then jwtFromParam cx v
              else if String.eqb k "postform" then jwtFromPostForm cx v
              else (token, err) in
            locate cx rest token' err'
        | _ => Panicked "index out of range [1] with length 1"
        end
  end.

(** The key function [ParseToken] passes to [jwt.Parse] when no
    [KeyFunc] is configured. *)
Definition keyFunc (token : string) (t : jwt.Token) : M (jwt.KeyMaterial + error) :=
  if negb (bool_decide (GetSigningMethod (SigningAlgorithm mw) = Some (jwt.Method_ t)))
  then mret (inr ErrInvalidSigningAlgorithm)
  else if usingPublicKeyAlgo then mret (inl (jwt.PublicKeyPtr (pubKey mw)))
  else
    _ ← modify_c (gin.Set_ "JWT_TOKEN" (gin.AString token));
    mret (inl (jwt.SecretKey (Key mw))).

(** A configured [KeyFunc], called on the token. *)
Definition customKeyFunc
    (f : jwt.SigningMethod -> gmap string Value -> jwt.KeyMaterial + error)
    (t : jwt.Token) : M (jwt.KeyMaterial + error) :=
  m ← claims_at (jwt.Claims t); mret (f (jwt.Method_ t) m).

Definition ParseToken : M (option jwt.Token * option error) :=
  cx ← get_c;
  '(token, err) ← lift (locate cx (strings.Split (TokenLookup mw) ",") "" None);
  match err with
  | Some e => mret (None, Some e)
  | None =>
      match KeyFunc mw with
      | Some f => jwt_Parse token (customKeyFunc f)
      | None => jwt_Parse token (keyFunc token)
      end
  end.

Definition ParseTokenString (token : string) : M (option jwt.Token * option error) :=
  match KeyFunc mw with
  | Some f => jwt_Parse token (customKeyFunc f)
  | None =>
      jwt_Parse token (fun t =>
        if negb (bool_decide (GetSigningMethod (SigningAlgorithm mw) = Some (jwt.Method_ t)))
        then mret (inr ErrInvalidSigningAlgorithm)
        else if usingPublicKeyAlgo then mret (inl (jwt.PublicKeyPtr (pubKey mw)))
        else mret (inl (jwt.SecretKey (Key mw))))
  end.

(** [GetClaimsFromJWT]: the claims of the token of the request, copied
    into a [MapClaims] of the package (nil, read as empty, on error). *)
Definition GetClaimsFromJWT : M (gmap string Value * option error) :=
  '(token, err) ← ParseToken;
  match err with
  | Some e => mret (∅, Some e)
  | None =>
      _ ← (if SendAuthorization mw then
             cx ← get_c;
             match gin.Keys cx !! "JWT_TOKEN" with
             | Some stored =>
                 match gin.as_string stored with
                 | Some v =>
                     modify_c (gin.Header_ "Authorization"
                                 (TokenHeadName mw ++ " " ++ v))
                 | None => panic "interface conversion: interface {} is not string"
                 end
             | None => mret tt
             end
           else mret tt);
      match token with
      | None => panic "invalid memory address or nil pointer dereference"
      | Some t => claims ← claims_at (jwt.Claims t); mret (claims, None)
      end
  end.

(** The exemption test of [middlewareImpl]: the path starts with one of
    the trimmed, comma-separated entries of [FilteredURL]. *)
Definition filtered (path : string) : bool :=
  existsb (fun FilteredURL => strings.HasPrefix path (strings.TrimSpace FilteredURL))
          (strings.Split (FilteredURL mw) ",").

Definition middlewareImpl : M unit :=
  '(claims, err) ← GetClaimsFromJWT;
  cx ← get_c;
  let flag := filtered (gin.Path (gin.request cx)) in
  let fatal :=
    match err with
    | Some e =>
        if negb (String.eqb (Error e) "form post token is empty") then Some e
        else if negb flag then Some e
        else None
    | None => None
    end in
  match fatal with
  | Some e => reject http.StatusUnauthorized e
  | None =>
  if is_nil (index claims "exp") && negb flag then
    reject http.StatusBadRequest ErrMissingExpField
  else
  if negb (is_float64 (index claims "exp")) && negb flag then
    reject http.StatusBadRequest ErrWrongFormatOfExp
  else
  expired ←
    match index claims "exp" with
    | VNil => mret false
    | VFloat f => t ← now; mret (Z.ltb (int64_of_float64 f) (time.Unix t))
    | _ => panic "interface conversion: interface {} is not float64"
    end;
  if (expired : bool) then
    reject http.StatusUnauthorized ErrExpiredToken
  else
  _ ← modify_c (gin.Set_ "JWT_PAYLOAD" (gin.AClaims claims));
  h ← call (IdentityHandler mw);
  cx ← get_c;
  identity ← lift (h cx);
  _ ← (if negb (is_nil identity)
       then modify_c (gin.Set_ (IdentityKey mw) (gin.AValue identity))
       else mret tt);
  a ← call (Authorizator mw);
  cx ← get_c;
  if negb (a identity cx) && negb flag then
    reject http.StatusForbidden ErrForbidden
  else
  modify_c gin.Next
  end.


(** [token.SignedString(key)] with the key [signedString] selects; the
    claims are those the token points to when it is signed. *)
Definition signedString (token : jwt.Token) : M (string * option error) :=
  claims ← claims_at (jwt.Claims token);
  let key := if usingPublicKeyAlgo then jwt.PrivateKeyPtr (privKey mw)
             else jwt.SecretKey (Key mw) in
  match sign lib (jwt.Method_ token) claims key with
  | inl tokenString => mret (tokenString, None)
  | inr e => mret ("", Some e)
  end.

(** [for key, value := range payload { claims[key] = value }] *)
Definition store_payload (payload : gmap string Value) (dst : jwt.loc) : M unit :=
  map_fold (fun key value (k : M unit) => _ ← k; store_claim dst key value)
           (mret tt) payload.

(** The cookie both [LoginHandler] and [RefreshToken] emit. *)
Definition send_cookie (tokenString : string) (maxage : Z) : M unit :=
  _ ← (if negb (CookieSameSite mw =? 0)%Z
       then modify_c (gin.SetSameSite (CookieSameSite mw)) else mret tt);
  modify_c (gin.SetCookie
    {| gin.ck_name := CookieName mw; gin.ck_value := tokenString;
       gin.ck_maxAge := maxage; gin.ck_path := "/";
       gin.ck_domain := CookieDomain mw; gin.ck_secure := SecureCookie mw;
       gin.ck_httpOnly := CookieHTTPOnly mw |}).

Definition LoginHandler : M unit :=
  match Authenticator mw with
  | None =>
      reject http.StatusInternalServerError ErrMissingAuthenticatorFunc
  | Some authenticator =>
      cx ← get_c;
      match authenticator cx with
      | (_, Some err) => reject http.StatusUnauthorized err
      | (data, None) =>
          token ← jwt_New (GetSigningMethod (SigningAlgorithm mw));
          let claims := jwt.Claims token in
          _ ← match PayloadFunc mw with
              | Some f => store_payload (f data) claims
              | None => mret tt
              end;
          t ← now;
          let expire := time.Add t (Timeout mw) in
          _ ← store_claim claims "exp" (VInt (time.Unix expire));
          t' ← now;
          _ ← store_claim claims "orig_iat" (VInt (time.Unix t'));
          '(tokenString, err) ← signedString token;
          match err with
          | Some _ =>
              reject http.StatusUnauthorized ErrFailedTokenCreation
          | None =>
              _ ← (if SendCookie mw then
                     t1 ← now;
                     let expireCookie := time.Add t1 (CookieMaxAge mw) in
                     t2 ← now;
                     send_cookie tokenString (time.Unix expireCookie - time.Unix t2)
                   else mret tt);
              f ← call (LoginResponse mw);
              modify_c (fun cx => f cx http.StatusOK tokenString expire)
          end
      end
  end.

Definition LogoutHandler : M unit :=
  _ ← (if SendCookie mw then send_cookie "" (-1) else mret tt);
  f ← call (LogoutResponse mw);
  modify_c (fun cx => f cx http.StatusOK).

(** The error is a [jwt.ValidationError] pointer and its [Errors] are
    exactly [ValidationErrorExpired]. *)
Definition only_expired (err : error) : bool :=
  match err with
  | ValidationError _ errs _ => (errs =? jwt.ValidationErrorExpired)%Z
  | errors_New _ => false
  end.

Definition CheckIfTokenExpire : M (option jwt.loc * option error) :=
  '(token, err) ← ParseToken;
  match (match err with
         | Some e => if negb (only_expired e) then Some e else None
         | None => None
         end) with
  | Some e => mret (None, Some e)
  | None =>
      match token with
      | None => panic "invalid memory address or nil pointer dereference"
      | Some t =>
          let claims := jwt.Claims t in
          m ← claims_at claims;
          match index m "orig_iat" with
          | VFloat f =>
              let origIat := int64_of_float64 f in
              t0 ← now;
              if (origIat <? time.Unix (time.Add t0 (- MaxRefresh mw)))%Z
              then mret (None, Some ErrExpiredToken)
              else mret (Some claims, None)
          | _ => panic "interface conversion: interface {} is not float64"
          end
      end
  end.

Definition RefreshToken : M (string * time.Time * option error) :=
  '(claims, err) ← CheckIfTokenExpire;
  match err with
  | Some e => t ← read_clock (time_Now lib); mret ("", t, Some e)
  | None =>
      newToken ← jwt_New (GetSigningMethod (SigningAlgorithm mw));
      let newClaims := jwt.Claims newToken in
      _ ← match claims with
          | Some claims => copy_claims claims newClaims
          | None => mret tt
          end;
      t ← now;
      let expire := time.Add t (Timeout mw) in
      _ ← store_claim newClaims "exp" (VInt (time.Unix expire));
      t' ← now;
      _ ← store_claim newClaims "orig_iat" (VInt (time.Unix t'));
      '(tokenString, err) ← signedString newToken;
      match err with
      | Some e => t ← read_clock (time_Now lib); mret ("", t, Some e)
      | None =>
          _ ← (if SendCookie mw then
                 t1 ← now;
                 let expireCookie := time.Add t1 (CookieMaxAge mw) in
                 t2 ← read_clock (time_Now lib);
                 send_cookie tokenString (time.Unix expireCookie - time.Unix t2)
               else mret tt);
          mret (tokenString, expire, None)
      end
  end.

Definition RefreshHandler : M unit :=
  '(tokenString, expire, err) ← RefreshToken;
  match err with
  | Some e => reject http.StatusUnauthorized e
  | None =>
      f ← call (RefreshResponse mw);
      modify_c (fun cx => f cx http.StatusOK tokenString expire)
  end.

Definition TokenGenerator (data : Value) : M (string * time.Time * option error) :=
  token ← jwt_New (GetSigningMethod (SigningAlgorithm mw));
  let claims := jwt.Claims token in
  _ ← match PayloadFunc mw with
      | Some f => store_payload (f data) claims
      | None => mret tt
      end;
  t ← now;
  let expire := time.Add t (Timeout mw) in
  _ ← store_claim claims "exp" (VInt (time.Unix expire));
  t' ← now;
  _ ← store_claim claims "orig_iat" (VInt (time.Unix t'));
  '(tokenString, err) ← signedString token;
  match err with
  | Some e => mret ("", time.Zero, Some e)
  | None => mret (tokenString, expire, None)
  end.

End Methods.

(** *** Initialisation *)

Definition with_keys (mw : GinJWTMiddleware)
    (priv : option jwt.rsa_PrivateKey) (pub : option jwt.rsa_PublicKey)
    : GinJWTMiddleware :=
  {| Realm := Realm mw; SigningAlgorithm := SigningAlgorithm mw; Key := Key mw;
     KeyFunc := KeyFunc mw; Timeout := Timeout mw; MaxRefresh := MaxRefresh mw;
     Authenticator := Authenticator mw; Authorizator := Authorizator mw;
     PayloadFunc := PayloadFunc mw; Unauthorized := Unauthorized mw;
     LoginResponse := LoginResponse mw; LogoutResponse := LogoutResponse mw;
     RefreshResponse := RefreshResponse mw; IdentityHandler := IdentityHandler mw;
     IdentityKey := IdentityKey mw; TokenLookup := TokenLookup mw;
     TokenHeadName := TokenHeadName mw; TimeFunc := TimeFunc mw;
     HTTPStatusMessageFunc := HTTPStatusMessageFunc mw;
     PrivKeyFile := PrivKeyFile mw; PrivKeyBytes := PrivKeyBytes mw;
     PubKeyFile := PubKeyFile mw; PrivateKeyPassphrase := PrivateKeyPassphrase mw;
     PubKeyBytes := PubKeyBytes mw; privKey := priv; pubKey := pub;
     SendCookie := SendCookie mw; CookieMaxAge := CookieMaxAge mw;
     SecureCookie := SecureCookie mw; CookieHTTPOnly := CookieHTTPOnly mw;
     CookieDomain := CookieDomain mw; SendAuthorization := SendAuthorization mw;
     DisabledAbort := DisabledAbort mw; CookieName := CookieName mw;
     CookieSameSite := CookieSameSite mw; FilteredURL := FilteredURL mw |}.

Definition privateKey (mw : GinJWTMiddleware) : GinJWTMiddleware * option error :=
  match (if String.eqb (PrivKeyFile mw) "" then Some (PrivKeyBytes mw)
         else ReadFile lib (PrivKeyFile mw)) with
  | None => (mw, Some ErrNoPrivKeyFile)
  | Some keyData =>
      if negb (String.eqb (PrivateKeyPassphrase mw) "") then
        match ParseRSAPrivateKeyFromPEMWithPassword lib keyData (PrivateKeyPassphrase mw) with
        | None => (mw, Some ErrInvalidPrivKey)
        | Some key => (with_keys mw (Some key) (pubKey mw), None)
        end
      else
        match ParseRSAPrivateKeyFromPEM lib keyData with
        | None => (mw, Some ErrInvalidPrivKey)
        | Some key => (with_keys mw (Some key) (pubKey mw), None)
        end
  end.

Definition publicKey (mw : GinJWTMiddleware) : GinJWTMiddleware * option error :=
  match (if String.eqb (PubKeyFile mw) "" then Some (PubKeyBytes mw)
         else ReadFile lib (PubKeyFile mw)) with
  | None => (mw, Some ErrNoPubKeyFile)
  | Some keyData =>
      match ParseRSAPublicKeyFromPEM lib keyData with
      | None => (mw, Some ErrInvalidPubKey)
      | Some key => (with_keys mw (privKey mw) (Some key), None)
      end
  end.

Definition readKeys (mw : GinJWTMiddleware) : GinJWTMiddleware * option error :=
  match privateKey mw with
  | (mw', Some err) => (mw', Some err)
  | (mw', None) => publicKey mw'
  end.

(** [ExtractClaims] *)
Definition ExtractClaims (cx : gin.Context) : Result (gmap string Value) :=
  match gin.Keys cx !! "JWT_PAYLOAD" with
  | None => Ok ∅
  | Some (gin.AClaims claims) => Ok claims
  | Some _ => Panicked "interface conversion: interface {} is not myjwt.MapClaims"
  end.

(** [ExtractClaimsFromToken] *)
Definition ExtractClaimsFromToken (token : option jwt.Token) : M (gmap string Value) :=
match token with
| None => mret ∅
| Some t => claims_at (jwt.Claims t)
end.

(** [GetToken] *)
Definition GetToken (cx : gin.Context) : Result string :=
  match gin.Keys cx !! "JWT_TOKEN" with
  | None => Ok ""
  | Some token =>
      match gin.as_string token with
      | Some token => Ok token
      | None => Panicked "interface conversion: interface {} is not string"
      end
  end.

(** The callbacks [MiddlewareInit] installs for the fields left nil. *)
Definition default_Authorizator : Value -> gin.Context -> bool :=
  fun _ _ => true.

Definition default_Unauthorized : gin.Context -> Z -> string -> gin.Context :=
  fun cx code msg => gin.JSON code [("code", VInt code); ("message", VString msg)] cx.

Definition default_LoginResponse : gin.Context -> Z -> string -> time.Time -> gin.Context :=
  fun cx _ token expire =>
    gin.JSON http.StatusOK
      [("code", VInt http.StatusOK); ("token", VString token);
       ("expire", VString (Format_RFC3339 lib expire))] cx.

Definition default_RefreshResponse : gin.Context -> Z -> string -> time.Time -> gin.Context :=
  fun cx _ token expire =>
    gin.JSON http.StatusOK
      [("code", VInt http.StatusOK); ("token", VString token);
       ("expire", VString (Format_RFC3339 lib expire))] cx.

Definition default_LogoutResponse : gin.Context -> Z -> gin.Context :=
  fun cx _ => gin.JSON http.StatusOK [("code", VInt http.StatusOK)] cx.

Definition default_IdentityHandler (identityKey : string) : gin.Context -> Result Value :=
  fun cx =>
    match ExtractClaims cx with
    | Ok claims => Ok (index claims identityKey)
    | Panicked r => Panicked r
    end.

Definition default_HTTPStatusMessageFunc : error -> gin.Context -> string :=
  fun e _ => Error e.

Definition or_default {A} (o : option A) (d : A) : option A :=
  match o with Some a => Some a | None => Some d end.

Definition or_string (s d : string) : string :=
  if String.eqb s "" then d else s.

(** The defaults of [MiddlewareInit], in one record. *)
Definition defaults (mw : GinJWTMiddleware) : GinJWTMiddleware :=
  let timeout := if (Timeout mw =? 0)%Z then time.Hour else Timeout mw in
  let identityKey := or_string (IdentityKey mw) default_IdentityKey in
  {| Realm := or_string (Realm mw) "gin jwt";
     SigningAlgorithm := or_string (SigningAlgorithm mw) "HS256";
     Key := Key mw;
     KeyFunc := KeyFunc mw;
     Timeout := timeout;
     MaxRefresh := MaxRefresh mw;
     Authenticator := Authenticator mw;
     Authorizator := or_default (Authorizator mw) default_Authorizator;
     PayloadFunc := PayloadFunc mw;
     Unauthorized := or_default (Unauthorized mw) default_Unauthorized;
     LoginResponse := or_default (LoginResponse mw) default_LoginResponse;
     LogoutResponse := or_default (LogoutResponse mw) default_LogoutResponse;
     RefreshResponse := or_default (RefreshResponse mw) default_RefreshResponse;
     IdentityHandler :=
       or_default (IdentityHandler mw) (default_IdentityHandler identityKey);
     IdentityKey := identityKey;
     TokenLookup := or_string (TokenLookup mw) "header:Authorization";
     TokenHeadName := or_string (strings.TrimSpace (TokenHeadName mw)) "Bearer";
     TimeFunc := or_default (TimeFunc mw) (time_Now lib);
     HTTPStatusMessageFunc :=
       or_default (HTTPStatusMessageFunc mw) default_HTTPStatusMessageFunc;
     PrivKeyFile := PrivKeyFile mw; PrivKeyBytes := PrivKeyBytes mw;
     PubKeyFile := PubKeyFile mw; PrivateKeyPassphrase := PrivateKeyPassphrase mw;
     PubKeyBytes := PubKeyBytes mw; privKey := privKey mw; pubKey := pubKey mw;
     SendCookie := SendCookie mw;
     CookieMaxAge := if (CookieMaxAge mw =? 0)%Z then timeout else CookieMaxAge mw;
     SecureCookie := SecureCookie mw; CookieHTTPOnly := CookieHTTPOnly mw;
     CookieDomain := CookieDomain mw; SendAuthorization := SendAuthorization mw;
     DisabledAbort := DisabledAbort mw;
     CookieName := or_string (CookieName mw) "jwt";
     CookieSameSite := CookieSameSite mw;
     FilteredURL := or_string (FilteredURL mw) "/douyin/test" |}.

(** [MiddlewareInit]: the configuration as initialised, and the error. *)
Definition MiddlewareInit (mw : GinJWTMiddleware) : GinJWTMiddleware * option error :=
  let mw := defaults mw in
  match KeyFunc mw with
  | Some _ => (mw, None)
  | None =>
      if usingPublicKeyAlgo mw then readKeys mw
      else match Key mw with
           | None => (mw, Some ErrMissingSecretKey)
           | Some _ => (mw, None)
           end
  end.

(** [New] *)
Definition New (m : GinJWTMiddleware) : option GinJWTMiddleware * option error :=
  match MiddlewareInit m with
  | (_, Some err) => (None, Some err)
  | (m', None) => (Some m', None)
  end.

End Middleware.

(** ** Notions the statements are phrased in *)

(** The header value [h] is [p0], one space, [p1], and that space is the
    first space of [h]: [h] splits on its first space into the two parts
    [p0] and [p1]. *)
Definition cut_at_first_space (h p0 p1 : string) : Prop :=
  h = p0 ++ " " ++ p1 /\ forall a b, p0 <> a ++ " " ++ b.

(** The errors credential location can end with. *)
Definition locator_errors : list error :=
  [ErrEmptyAuthHeader; ErrInvalidAuthHeader; ErrEmptyQueryToken;
   ErrEmptyCookieToken; ErrEmptyParamToken; ErrEmptyPostFormToken].

(** The state after one more clock reading. *)
Definition tick (w : World) : World :=
  {| ctx := ctx w; heap := heap w; ticks := S (ticks w) |}.

Definition set_heap (w : World) (h : gmap jwt.loc (gmap string Value)) : World :=
  {| ctx := ctx w; heap := h; ticks := ticks w |}.

(** What [middlewareImpl] does with an identity: publish it unless nil. *)
Definition publish (mw : GinJWTMiddleware) (identity : Value) (cx : gin.Context)
    : gin.Context :=
  if negb (is_nil identity) then gin.Set_ (IdentityKey mw) (gin.AValue identity) cx
  else cx.

(** The state in which [middlewareImpl] hands the request to the next
    handler: the claims are in the context, and the identity unless nil. *)
Definition passed_on (mw : GinJWTMiddleware) (claims : gmap string Value)
    (identity : Value) (w : World) : World :=
  {| ctx := gin.Next (publish mw identity
                        (gin.Set_ "JWT_PAYLOAD" (gin.AClaims claims) (ctx w)));
     heap := heap w; ticks := ticks w |}.

(** The state after the request has been refused with [code] and the
    error [e]: the message is what [g], the [HTTPStatusMessageFunc], makes
    of the error and of the context as it was; the challenge header names
    the realm; the request is aborted unless [DisabledAbort] is set; and
    [u], the [Unauthorized] callback, is called with the code and the
    message. *)
Definition refused (mw : GinJWTMiddleware) (g : error -> gin.Context -> string)
    (u : gin.Context -> Z -> string -> gin.Context)
    (code : Z) (e : error) (w : World) : World :=
  let cx := gin.Header_ "WWW-Authenticate" ("JWT realm=" ++ Realm mw) (ctx w) in
  {| ctx := u (if DisabledAbort mw then cx else gin.Abort cx) code (g e (ctx w));
     heap := heap w; ticks := ticks w |}.

(** The handlers after the middleware run: the middleware has called
    [c.Next()], or it returns without having called [c.Abort()]. *)
Definition reaches_next_handler (cx : gin.Context) : bool :=
  gin.next cx || negb (gin.aborted cx).

(** [CheckIfTokenExpire] goes on with this error of [ParseToken]. *)
Definition tolerated (err : option error) : bool :=
  match err with None => true | Some e => only_expired e end.

(** The claim map [RefreshToken] signs. *)
Definition refreshed (m : gmap string Value) (exp orig_iat : Z) : gmap string Value :=
  <["orig_iat" := VInt orig_iat]> (<["exp" := VInt exp]> m).

(** The key [signedString] selects. *)
Definition signing_key (mw : GinJWTMiddleware) : jwt.KeyMaterial :=
  if usingPublicKeyAlgo mw then jwt.PrivateKeyPtr (privKey mw)
  else jwt.SecretKey (Key mw).

(** What [jwt.Parse] returns when the key function failed with
    [ErrInvalidSigningAlgorithm]. *)
Definition invalid_signing_algorithm : error :=
  ValidationError (Some ErrInvalidSigningAlgorithm) jwt.ValidationErrorUnverifiable "".

(** ** Concrete configurations, requests and tokens *)

Module Fixtures.

(** The shared secret of the examples. *)
Definition secret : option (list Byte.byte) := Some [Byte.x73; Byte.x33].

(** PEM text begins with five dashes and [BEGIN]; the two keys of the
    examples. *)
Definition pem_begin : list Byte.byte :=
  [Byte.x2d; Byte.x2d; Byte.x2d; Byte.x2d; Byte.x2d;
   Byte.x42; Byte.x45; Byte.x47; Byte.x49; Byte.x4e].

Definition same_bytes (a b : list Byte.byte) : bool :=
  (length a =? length b)%nat
  && forallb (fun p => Byte.eqb (fst p) (snd p)) (combine a b).

Definition is_pem (data : list Byte.byte) : bool :=
  same_bytes (firstn 10 data) pem_begin.

Definition private_pem : list Byte.byte := (pem_begin ++ [Byte.x20; Byte.x31])%list.
Definition public_pem : list Byte.byte := (pem_begin ++ [Byte.x20; Byte.x32])%list.

(** What the library reports for a token it cannot split, and for a
    token whose [exp] is past. *)
Definition malformed : error :=
  ValidationError None jwt.ValidationErrorMalformed
    "token contains an invalid number of segments".

Definition expired : error :=
  ValidationError None jwt.ValidationErrorExpired "Token is expired".

(** The validation of [MapClaims]: an [exp] that is absent or zero is not
    looked at, a number must not be below the current second, and
    anything else does not count as a time and is reported as expired. *)
Definition claims_error (claims : gmap string Value) (t : time.Time) : option error :=
  match claims !! "exp" with
  | None => None
  | Some (VFloat f) =>
      if Qeq_bool f 0 then None
      else if Z.ltb (int64_of_float64 f) (time.Unix t) then Some expired
      else None
  | Some _ => Some expired
  end.

(** The signature check: the tokens of the table stand for tokens signed
    with [secret] (the HMAC methods) or with the private key of the
    examples (the RSA methods); they verify under that secret, or under
    the public key of the examples, and under nothing else. *)
Definition signature_error (m : jwt.SigningMethod) (key : jwt.KeyMaterial) : option error :=
  if String.prefix "HS" (jwt.Alg m) then
    match key with
    | jwt.SecretKey k =>
        if same_bytes (default [] k) (default [] secret) then None
        else Some (errors_New "signature is invalid")
    | _ => Some (errors_New "key is of invalid type")
    end
  else
    match key with
    | jwt.PublicKeyPtr (Some (jwt.PublicKey pem)) =>
        if same_bytes pem public_pem then None
        else Some (errors_New "crypto/rsa: verification error")
    | _ => Some (errors_New "key is of invalid type")
    end.

(** A token library over a table of known token strings, which behaves
    as the token library does in what the examples exercise: a string
    that is not in the table is malformed; the claims are validated, then
    the signature, and a failed signature check is reported in [Inner]
    with its bit added; signing needs a key of the kind of the method;
    the PEM parsers accept only what begins like PEM text. *)
Definition library (tokens : list (string * jwt.Decoded)) (clock : nat -> time.Time) : Library :=
  {| registered := fun alg =>
       existsb (String.eqb alg) ["HS256"; "HS384"; "HS512"; "RS256"; "RS384"; "RS512"];
     decode := fun s =>
       match List.find (fun p => String.eqb (fst p) s) tokens with
       | Some (_, d) => inl d
       | None => inr malformed
       end;
     verify := fun _ d key t =>
       match claims_error (jwt.dClaims d) t, signature_error (jwt.dMethod d) key with
       | e, None => e
       | None, Some s =>
           Some (ValidationError (Some s) jwt.ValidationErrorSignatureInvalid "")
       | Some _, Some s =>
           Some (ValidationError (Some s)
                   (Z.lor jwt.ValidationErrorExpired jwt.ValidationErrorSignatureInvalid) "")
       end;
     sign := fun m _ key =>
       match key with
       | jwt.SecretKey _ =>
           if String.prefix "HS" (jwt.Alg m) then inl ("signed." ++ jwt.Alg m)
           else inr (errors_New "key is of invalid type")
       | jwt.PrivateKeyPtr (Some _) =>
           if String.prefix "HS" (jwt.Alg m) then inr (errors_New "key is of invalid type")
           else inl ("signed." ++ jwt.Alg m)
       | _ => inr (errors_New "key is of invalid type")
       end;
     ParseRSAPrivateKeyFromPEM := fun pem =>
       if is_pem pem then Some (jwt.PrivateKey pem "") else None;
     ParseRSAPrivateKeyFromPEMWithPassword := fun pem p =>
       if is_pem pem then Some (jwt.PrivateKey pem p) else None;
     ParseRSAPublicKeyFromPEM := fun pem =>
       if is_pem pem then Some (jwt.PublicKey pem) else None;
     ReadFile := fun _ => None;
     time_Now := clock;
     Format_RFC3339 := fun _ => "" |}.

(** A configuration literal: the listed fields, every other field zero. *)
Definition config (alg : string) (key : option (list Byte.byte))
    (keyFunc : option (jwt.SigningMethod -> gmap string Value -> jwt.KeyMaterial + error))
    (maxRefresh : time.Duration) (lookup : string)
    (authorizator : option (Value -> gin.Context -> bool)) : GinJWTMiddleware :=
  {| Realm := ""; SigningAlgorithm := alg; Key := key; KeyFunc := keyFunc;
     Timeout := 0; MaxRefresh := maxRefresh;
     Authenticator := None; Authorizator := authorizator; PayloadFunc := None;
     Unauthorized := None; LoginResponse := None; LogoutResponse := None;
     RefreshResponse := None; IdentityHandler := None; IdentityKey := "";
     TokenLookup := lookup; TokenHeadName := ""; TimeFunc := None;
     HTTPStatusMessageFunc := None; PrivKeyFile := ""; PrivKeyBytes := [];
     PubKeyFile := ""; PrivateKeyPassphrase := ""; PubKeyBytes := [];
     privKey := None; pubKey := None; SendCookie := false; CookieMaxAge := 0;
     SecureCookie := false; CookieHTTPOnly := false; CookieDomain := "";
     SendAuthorization := false; DisabledAbort := false; CookieName := "";
     CookieSameSite := 0; FilteredURL := "" |}.

(** A request with the given [Authorization] header (none when empty). *)
Definition request (path authorization : string) : gin.Request :=
  {| gin.Header := if String.eqb authorization "" then ∅
                   else {["Authorization" := authorization]};
     gin.Query := ∅; gin.Cookie := ∅; gin.Param := ∅; gin.PostForm := ∅;
     gin.Path := path |}.

Definition start (req : gin.Request) : World :=
  {| ctx := {| gin.request := req; gin.Keys := ∅; gin.header := ∅; gin.cookies := [];
               gin.sameSite := 0; gin.aborted := false; gin.written := [];
               gin.next := false |};
     heap := ∅; ticks := 0 |}.

(** What the client and the next handler see of a run. *)
Definition observe {A} (r : Result (A * World))
    : option (bool * bool * list (Z * list (string * Value))) :=
  match r with
  | Ok (_, w) => Some (gin.next (ctx w), gin.aborted (ctx w), gin.written (ctx w))
  | Panicked _ => None
  end.

Definition returned {A} (r : Result (A * World)) : option A :=
  match r with Ok (a, _) => Some a | Panicked _ => None end.

Definition claims_of (l : list (string * Value)) : gmap string Value := list_to_map l.

(** The claim sets of the tokens of the examples; the clock of the
    examples stands at 10 s. *)
Definition claims_fresh : gmap string Value :=
  claims_of [("exp", VFloat 20); ("orig_iat", VFloat 9); ("identity", VString "alice")].

Definition claims_old : gmap string Value :=
  claims_of [("exp", VFloat 9); ("orig_iat", VFloat 8); ("identity", VString "alice")].

Definition claims_noexp : gmap string Value :=
  claims_of [("identity", VString "alice")].

Definition claims_noiat : gmap string Value :=
  claims_of [("exp", VFloat 20)].

Definition claims_textexp : gmap string Value :=
  claims_of [("exp", VString "tomorrow"); ("identity", VString "alice")].

Definition claims_rsa : gmap string Value :=
  claims_of [("exp", VFloat 20); ("orig_iat", VFloat 9)].

Definition decoded_rsa : jwt.Decoded :=
  {| jwt.dMethod := jwt.Method "RS256"; jwt.dClaims := claims_rsa |}.

Definition tokens : list (string * jwt.Decoded) :=
  [("fresh", {| jwt.dMethod := jwt.Method "HS256"; jwt.dClaims := claims_fresh |});
   ("old", {| jwt.dMethod := jwt.Method "HS256"; jwt.dClaims := claims_old |});
   ("noexp", {| jwt.dMethod := jwt.Method "HS256"; jwt.dClaims := claims_noexp |});
   ("noiat", {| jwt.dMethod := jwt.Method "HS256"; jwt.dClaims := claims_noiat |});
   ("textexp", {| jwt.dMethod := jwt.Method "HS256"; jwt.dClaims := claims_textexp |});
   ("rsa", decoded_rsa);
   ("hs384", {| jwt.dMethod := jwt.Method "HS384"; jwt.dClaims := claims_fresh |})].

(** The token [jwt.Parse] makes of a decoded HS256 token in the first
    request of a process, and the state it leaves: the claims at the
    first location, the raw token in the context, one clock reading. *)
Definition parsed_token (valid : bool) : jwt.Token :=
  {| jwt.Method_ := jwt.Method "HS256"; jwt.Claims := 1%positive; jwt.Valid := valid |}.

Definition parsed (req : gin.Request) (raw : string) (claims : gmap string Value) : World :=
  {| ctx := gin.Set_ "JWT_TOKEN" (gin.AString raw) (ctx (start req));
     heap := {[1%positive := claims]}; ticks := 1 |}.

Definition lib : Library := library tokens (fun _ => 10 * time.Second).

(** The default configuration with a shared secret, as initialised. *)
Definition mw_default : GinJWTMiddleware :=
  fst (MiddlewareInit lib (config "" secret None 0 "" None)).

(** Header lookup first, form field last. *)
Definition mw_form : GinJWTMiddleware :=
  fst (MiddlewareInit lib
         (config "" secret None 0 "header:Authorization,postform:token" None)).

(** A refresh window of one second and a half. *)
Definition mw_refresh : GinJWTMiddleware :=
  fst (MiddlewareInit lib (config "" secret None 1500000000 "" None)).

(** An [Authorizator] that rejects every identity. *)
Definition mw_strict : GinJWTMiddleware :=
  fst (MiddlewareInit lib (config "" secret None 0 "" (Some (fun _ _ => false)))).

(** A [KeyFunc] that hands out the shared secret for every token. *)
Definition mw_keyfunc : GinJWTMiddleware :=
  fst (MiddlewareInit lib
         (config "" None (Some (fun _ _ => inl (jwt.SecretKey secret))) 0 "" None)).

(** A clock that stands at 10 s when the library validates the token and
    at 30 s afterwards. *)
Definition lib_late : Library :=
  library tokens (fun n => match n with O => 10 * time.Second | _ => 30 * time.Second end).

Definition mw_late : GinJWTMiddleware :=
  fst (MiddlewareInit lib_late (config "" secret None 0 "" None)).

(** A [KeyFunc] and an algorithm name the library does not know. *)
Definition mw_unknown_alg : GinJWTMiddleware :=
  fst (MiddlewareInit lib
         (config "XS256" None (Some (fun _ _ => inl (jwt.SecretKey secret)))
                 (3600 * time.Second) "" None)).

End Fixtures.

(** ** Notions of the further properties *)

Section LocatorDefs.
Variable mw : GinJWTMiddleware.

(** One source, as the switch of [ParseToken] selects it. *)
Definition source (cx : gin.Context) (k v : string) (token : string) (err : option error)
    : string * option error :=
  if String.eqb k "header" then jwtFromHeader mw cx v
  else if String.eqb k "query" then jwtFromQuery cx v
  else if String.eqb k "cookie" then jwtFromCookie cx v
  else if String.eqb k "param" then jwtFromParam cx v
  else if String.eqb k "postform" then jwtFromPostForm cx v
  else (token, err).

End LocatorDefs.

(** The context [ParseToken] leaves when the token [token] decoded to
    [d]: only the default key function of the symmetric algorithms stores
    the raw token, and only for a token of the configured algorithm. *)
Definition raw_token_context (lib : Library) (mw : GinJWTMiddleware)
    (token : string) (d : jwt.Decoded) (cx : gin.Context) : gin.Context :=
  match KeyFunc mw with
  | Some _ => cx
  | None =>
      if bool_decide (GetSigningMethod lib (SigningAlgorithm mw) = Some (jwt.dMethod d))
         && negb (usingPublicKeyAlgo mw)
      then gin.Set_ "JWT_TOKEN" (gin.AString token) cx
      else cx
  end.

(** The claims [payload] that [TokenGenerator] and [LoginHandler] start
    from. *)
Definition payload_of (mw : GinJWTMiddleware) (data : Value) : gmap string Value :=
  match PayloadFunc mw with
  | Some f => f data
  | None => ∅
  end.

(** What [LoginHandler] does once the token is signed. *)
Definition login_response (mw : GinJWTMiddleware) (clock : nat -> time.Time)
    (tokenString : string) (expire : time.Time) (w : World) : World :=
  let cx :=
    if SendCookie mw then
      gin.SetCookie
        {| gin.ck_name := CookieName mw; gin.ck_value := tokenString;
           gin.ck_maxAge := time.Unix (time.Add (clock (ticks w)) (CookieMaxAge mw))
                            - time.Unix (clock (S (ticks w)));
           gin.ck_path := "/"; gin.ck_domain := CookieDomain mw;
           gin.ck_secure := SecureCookie mw; gin.ck_httpOnly := CookieHTTPOnly mw |}
        (if negb (CookieSameSite mw =? 0)%Z
         then gin.SetSameSite (CookieSameSite mw) (ctx w) else ctx w)
    else ctx w in
  {| ctx := cx; heap := heap w;
     ticks := if SendCookie mw then S (S (ticks w)) else ticks w |}.

(** Modelled from the spec: what signing and decoding make of a claim in
    the token library, whose source is not part of the repository
    (section 8: the claims come back unchanged, except that the decoder
    gives every number as a [float64]). *)
Definition json_roundtrip (v : Value) : Value :=
  match v with
  | VInt i => VFloat (inject_Z i)
  | _ => v
  end.

(** The string begins with a white-space rune. *)
Definition leading_space (s : string) : bool :=
  match s with
  | EmptyString => false
  | String a s1 =>
      strings.isSpace a
      || match s1 with
         | EmptyString => false
         | String b s2 =>
             strings.isSpace2 a b
             || match s2 with
                | EmptyString => false
                | String c _ => strings.isSpace3 a b c
                end
         end
  end.

(** Every field [MiddlewareInit] gives a default to has a value. *)
Definition initialised (mw : GinJWTMiddleware) : Prop :=
  Realm mw <> "" /\ SigningAlgorithm mw <> "" /\ IdentityKey mw <> "" /\
  TokenLookup mw <> "" /\ TokenHeadName mw <> "" /\ CookieName mw <> "" /\
  FilteredURL mw <> "" /\ Timeout mw <> 0 /\ CookieMaxAge mw <> 0 /\
  is_Some (Authorizator mw) /\ is_Some (Unauthorized mw) /\
  is_Some (LoginResponse mw) /\ is_Some (LogoutResponse mw) /\
  is_Some (RefreshResponse mw) /\ is_Some (IdentityHandler mw) /\
  is_Some (TimeFunc mw) /\ is_Some (HTTPStatusMessageFunc mw).

(** * The handlers of the API gateway and the video service *)

(** The generated types the handlers build, with the fields they use. *)
Module video.

Record Video : Type := {
  Id : Z;
  AuthorId : Z;
  PlayUrl : string;
  CoverUrl : string;
  FavoriteCount : Z;
  CommentCount : Z;
  IsFavorite : bool;
  Title : string
}.

Record FavoriteActionRequest : Type := {
  UserId : Z;
  VideoId : Z;
  ActionType : Z
}.

End video.

Module user.

Record MGetUserRequest : Type := {
  UserId : Z;
  ToUserId : Z;
  ActionType : Z
}.

End user.

(** What the handlers call outside the files at hand: the packages [vo],
    [rpc], [errno] and [constants] of the repository, [strconv],
    [filepath] and [fmt], the upload functions of the framework and the
    [ExtractClaims] of the token package the upload handler imports (the
    upstream package, not [myjwt]).  The payloads of the
    responses ([BaseResp], [Videos], [Users]) and the uploaded file
    ([FileHeader]) are opaque. *)
Record Collaborators (BaseResp Videos Users FileHeader : Type) : Type := {
  vo_GetUserIdFromToken : gin.Context -> Z;
  (** [strconv.ParseInt(s, 10, 64)] *)
  strconv_ParseInt : string -> Z * option error;
  errno_Success : error;
  errno_ParamErr : error;
  errno_IdNotEqualErr : error;
  errno_ConvertErr : error -> error;
  constants_IdentityKey : string;
  constants_PlayURL : string;
  constants_CoverURL : string;
  constants_QueryFollowList : Z;
  constants_QueryFollowerList : Z;
  jwt_ExtractClaims : gin.Context -> Result (gmap string Value);
  c_FormFile : gin.Context -> string -> FileHeader + error;
  Filename : FileHeader -> string;
  filepath_Base : string -> string;
  (** [fmt.Sprintf(format)] without arguments *)
  fmt_Sprintf : string -> string;
  filepath_Join : string -> string -> string;
  c_SaveUploadedFile : FileHeader -> string -> option error;
  rpc_FavoriteByUser : video.FavoriteActionRequest -> option BaseResp * option error;
  rpc_CreateVideo : video.Video -> option error;
  rpc_GetPublishVideoList : Z -> option Videos * option error;
  rpc_GetVideosFeed : Z -> option Videos * Z * option error;
  rpc_MGetUser : user.MGetUserRequest -> option Users * option error;
  (** [time.Now()], as a function of the number of clock readings made
      so far *)
  handlers_time_Now : nat -> time.Time
}.

Arguments vo_GetUserIdFromToken {_ _ _ _} _.
Arguments strconv_ParseInt {_ _ _ _} _.
Arguments errno_Success {_ _ _ _} _.
Arguments errno_ParamErr {_ _ _ _} _.
Arguments errno_IdNotEqualErr {_ _ _ _} _.
Arguments errno_ConvertErr {_ _ _ _} _.
Arguments constants_IdentityKey {_ _ _ _} _.
Arguments constants_PlayURL {_ _ _ _} _.
Arguments constants_CoverURL {_ _ _ _} _.
Arguments constants_QueryFollowList {_ _ _ _} _.
Arguments constants_QueryFollowerList {_ _ _ _} _.
Arguments jwt_ExtractClaims {_ _ _ _} _.
Arguments c_FormFile {_ _ _ _} _.
Arguments Filename {_ _ _ _} _.
Arguments filepath_Base {_ _ _ _} _.
Arguments fmt_Sprintf {_ _ _ _} _.
Arguments filepath_Join {_ _ _ _} _.
Arguments c_SaveUploadedFile {_ _ _ _} _.
Arguments rpc_FavoriteByUser {_ _ _ _} _.
Arguments rpc_CreateVideo {_ _ _ _} _.
Arguments rpc_GetPublishVideoList {_ _ _ _} _.
Arguments rpc_GetVideosFeed {_ _ _ _} _.
Arguments rpc_MGetUser {_ _ _ _} _.
Arguments handlers_time_Now {_ _ _ _} _.

(** What a handler does to the outside, in the order it does it: the
    remote calls, the file it stores and the responses it sends. *)
Inductive Event (BaseResp Videos Users FileHeader : Type) : Type :=
| FavoriteByUser_called (request : video.FavoriteActionRequest)
| CreateVideo_called (v : video.Video)
| GetPublishVideoList_called (userId : Z)
| GetVideosFeed_called (lastTime : Z)
| MGetUser_called (req : user.MGetUserRequest)
| SaveUploadedFile_called (file : FileHeader) (dst : string)
| SendResponse (err : error) (data : option BaseResp)
| SendCreateVideoResponse (err : error)
| SendQueryByUserIdResponse (err : error) (videos : option Videos)
| SendQueryByLastTimeResponse (err : error) (videos : option Videos) (nextTime : Z)
| SendUserListResponse (err : error) (users : option Users).

Arguments FavoriteByUser_called {_ _ _ _} _.
Arguments CreateVideo_called {_ _ _ _} _.
Arguments GetPublishVideoList_called {_ _ _ _} _.
Arguments GetVideosFeed_called {_ _ _ _} _.
Arguments MGetUser_called {_ _ _ _} _.
Arguments SaveUploadedFile_called {_ _ _ _} _ _.
Arguments SendResponse {_ _ _ _} _ _.
Arguments SendCreateVideoResponse {_ _ _ _} _.
Arguments SendQueryByUserIdResponse {_ _ _ _} _ _.
Arguments SendQueryByLastTimeResponse {_ _ _ _} _ _ _.
Arguments SendUserListResponse {_ _ _ _} _ _.

Module handlers.

Section Handlers.

Context {BaseResp Videos Users FileHeader : Type}.
Variable env : Collaborators BaseResp Videos Users FileHeader.

Let Trace : Type := list (Event BaseResp Videos Users FileHeader).

(** [c.Query(key)] *)
Definition Query (c : gin.Context) (key : string) : string :=
  gin.get (gin.Query (gin.request c)) key.

Definition FavoriteByUser (c : gin.Context) : Trace :=
  let tokenId := vo_GetUserIdFromToken env c in
  let userIdStr := Query c "user_id" in
  let videoIdStr := Query c "video_id" in
  let actionTypeStr := Query c "action_type" in
  if (tokenId =? -1)%Z || String.eqb videoIdStr "" || String.eqb actionTypeStr "" then
    [SendResponse (errno_ParamErr env) None]
  else
  match (if negb (String.eqb userIdStr "") then
           match strconv_ParseInt env userIdStr with
           | (_, Some err) => Some err
           | (userId, None) =>
               if negb (userId =? tokenId)%Z then Some (errno_IdNotEqualErr env)
               else None
           end
         else None) with
  | Some err => [SendResponse err None]
  | None =>
  match strconv_ParseInt env videoIdStr with
  | (_, Some err) => [SendResponse err None]
  | (videoId, None) =>
  match strconv_ParseInt env actionTypeStr with
  | (_, Some err) => [SendResponse err None]
  | (actionType, None) =>
      let request := {| video.UserId := tokenId; video.VideoId := videoId;
                        video.ActionType := actionType |} in
      match rpc_FavoriteByUser env request with
      | (_, Some err) =>
          [FavoriteByUser_called request; SendResponse (errno_ConvertErr env err) None]
      | (resp, None) =>
          [FavoriteByUser_called request; SendResponse (errno_Success env) resp]
      end
  end
  end
  end.

(** The upload handler.  After a failed [rpc.CreateVideo] the error is
    sent and the handler goes on. *)
Definition PublishVideo (c : gin.Context) : Result Trace :=
  match jwt_ExtractClaims env c with
  | Panicked r => Panicked r
  | Ok claims =>
  match index claims (constants_IdentityKey env) with
  | VFloat f =>
      let userID := int64_of_float64 f in
      let titleStr := Query c "title" in
      if String.eqb titleStr "" then Ok [SendCreateVideoResponse (errno_ParamErr env)]
      else
      match c_FormFile env c "data" with
      | inr err => Ok [SendCreateVideoResponse err]
      | inl data =>
          let filename := filepath_Base env (Filename env data) in
          let finalName := fmt_Sprintf env filename in
          let saveFile := filepath_Join env "./cmd/api/static/videos/" finalName in
          match c_SaveUploadedFile env data saveFile with
          | Some err =>
              Ok [SaveUploadedFile_called data saveFile; SendCreateVideoResponse err]
          | None =>
              let newVideo :=
                {| video.Id := 0; video.AuthorId := userID;
                   video.PlayUrl := constants_PlayURL env ++ filename;
                   video.CoverUrl := constants_CoverURL env;
                   video.FavoriteCount := 0; video.CommentCount := 0;
                   video.IsFavorite := false; video.Title := titleStr |} in
              Ok ([SaveUploadedFile_called data saveFile; CreateVideo_called newVideo]
                  ++ match rpc_CreateVideo env newVideo with
                     | Some err => [SendCreateVideoResponse err]
                     | None => []
                     end
                  ++ [SendCreateVideoResponse (errno_Success env)])%list
          end
      end
  | _ => Panicked "interface conversion: interface {} is not float64"
  end
  end.

(** The error of [strconv.ParseInt] is overwritten by the one of the
    remote call before it is looked at. *)
Definition GetMyPublishVideoList (c : gin.Context) : Trace :=
  let token := Query c "token" in
  let userIdStr := Query c "user_id" in
  if String.eqb token "" || String.eqb userIdStr "" then
    [SendQueryByUserIdResponse (errno_ParamErr env) None]
  else
    let '(userId, _) := strconv_ParseInt env userIdStr in
    match rpc_GetPublishVideoList env userId with
    | (_, Some err) =>
        [GetPublishVideoList_called userId;
         SendQueryByUserIdResponse (errno_ConvertErr env err) None]
    | (videos, None) =>
        [GetPublishVideoList_called userId;
         SendQueryByUserIdResponse (errno_Success env) videos]
    end.

(** [n] clock readings have been made when the handler starts. *)
Definition GetVideoFeed (n : nat) (c : gin.Context) : Trace :=
  let lastTimeStr := Query c "latest_time" in
  let lastTime := time.Unix (handlers_time_Now env n) in
  match (if negb (String.eqb lastTimeStr "") then
           match strconv_ParseInt env lastTimeStr with
           | (_, Some err) => inr err
           | (t, None) => inl (if negb (t =? 0)%Z then t else lastTime)
           end
         else inl lastTime) with
  | inr err =>
      [SendQueryByLastTimeResponse (errno_ConvertErr env err) None
         (time.Unix (handlers_time_Now env (S n)))]
  | inl lastTime =>
      match rpc_GetVideosFeed env lastTime with
      | (_, nextTime, Some err) =>
          [GetVideosFeed_called lastTime; SendQueryByLastTimeResponse err None nextTime]
      | (videos, nextTime, None) =>
          [GetVideosFeed_called lastTime;
           SendQueryByLastTimeResponse (errno_Success env) videos nextTime]
      end
  end.

(** [GetFollowList] and [GetFollowerList] differ in the action type.
    Neither looks at the error of [strconv.ParseInt] or at the id of the
    token; what they print on the standard output is left out. *)
Definition follow_list (actionType : Z) (c : gin.Context) : Trace :=
  let tokenId := vo_GetUserIdFromToken env c in
  let toUserIDString := Query c "user_id" in
  let '(toUserID, _) := strconv_ParseInt env toUserIDString in
  let req := {| user.UserId := tokenId; user.ToUserId := toUserID;
                user.ActionType := actionType |} in
  match rpc_MGetUser env req with
  | (_, Some err) => [MGetUser_called req; SendResponse (errno_ConvertErr env err) None]
  | (users, None) => [MGetUser_called req; SendUserListResponse (errno_Success env) users]
  end.

Definition GetFollowList (c : gin.Context) : Trace :=
  follow_list (constants_QueryFollowList env) c.

Definition GetFollowerList (c : gin.Context) : Trace :=
  follow_list (constants_QueryFollowerList env) c.

End Handlers.

End handlers.

(** A response is one of the five [Send...] events. *)
Definition is_response {BaseResp Videos Users FileHeader : Type}
    (e : Event BaseResp Videos Users FileHeader) : bool :=
  match e with
  | SendResponse _ _ | SendCreateVideoResponse _ | SendQueryByUserIdResponse _ _
  | SendQueryByLastTimeResponse _ _ _ | SendUserListResponse _ _ => true
  | _ => false
  end.

(** ** The video service *)

Module videoservice.

(** The responses the service fills; [new(...)] leaves every field nil. *)
Record PublishListResponse (BaseResp Videos : Type) : Type := {
  pl_BaseResp : option BaseResp;
  pl_VideoList : option Videos
}.

Record VideoFeedResponse (BaseResp Videos : Type) : Type := {
  vf_BaseResp : option BaseResp;
  vf_VideoList : option Videos;
  vf_NextTime : option Z
}.

Arguments pl_BaseResp {_ _} _.
Arguments pl_VideoList {_ _} _.
Arguments vf_BaseResp {_ _} _.
Arguments vf_VideoList {_ _} _.
Arguments vf_NextTime {_ _} _.

(** The packages [service], [pack] and [errno] the methods call. *)
Record Layer (BaseResp Videos : Type) : Type := {
  pack_BuildBaseResp : error -> BaseResp;
  Success : error;
  ParamErr : error;
  ServiceErr : error;
  service_GetPublishList : Z -> option Videos * option error;
  service_GetVideoFeed : Z -> option Videos * time.Time * option error;
  service_CreateVideo : video.Video -> option error
}.

Arguments pack_BuildBaseResp {_ _} _.
Arguments Success {_ _} _.
Arguments ParamErr {_ _} _.
Arguments ServiceErr {_ _} _.
Arguments service_GetPublishList {_ _} _.
Arguments service_GetVideoFeed {_ _} _.
Arguments service_CreateVideo {_ _} _.

Section Methods.

Context {BaseResp Videos : Type}.
Variable layer : Layer BaseResp Videos.

Definition GetPublishListByUser (userId : Z)
    : PublishListResponse BaseResp Videos * option error :=
  if (userId <? 0)%Z then
    ({| pl_BaseResp := Some (pack_BuildBaseResp layer (ParamErr layer));
        pl_VideoList := None |}, None)
  else
    match service_GetPublishList layer userId with
    | (_, Some err) =>
        ({| pl_BaseResp := Some (pack_BuildBaseResp layer err);
            pl_VideoList := None |}, None)
    | (videos, None) =>
        ({| pl_BaseResp := Some (pack_BuildBaseResp layer (Success layer));
            pl_VideoList := videos |}, None)
    end.

Definition GetVideosByLastTime (lastTime : Z)
    : VideoFeedResponse BaseResp Videos * option error :=
  if (lastTime <? 0)%Z then
    ({| vf_BaseResp := Some (pack_BuildBaseResp layer (ParamErr layer));
        vf_VideoList := None; vf_NextTime := None |}, None)
  else
    match service_GetVideoFeed layer lastTime with
    | (_, _, Some err) =>
        ({| vf_BaseResp := Some (pack_BuildBaseResp layer err);
            vf_VideoList := None; vf_NextTime := None |}, None)
    | (videos, next_time, None) =>
        ({| vf_BaseResp := Some (pack_BuildBaseResp layer (Success layer));
            vf_VideoList := videos;
            vf_NextTime := Some (time.Unix next_time) |}, None)
    end.

Definition PublishVideo (publishedVideo : video.Video) : BaseResp * option error :=
  if negb (video.Id publishedVideo =? 0)%Z then
    (pack_BuildBaseResp layer (ParamErr layer), None)
  else
    match service_CreateVideo layer publishedVideo with
    | Some _ => (pack_BuildBaseResp layer (ServiceErr layer), None)
    | None => (pack_BuildBaseResp layer (Success layer), None)
    end.

End Methods.

End videoservice.

(** ** The user service *)

Module userservice.

Section MGetUser.

Context {DbUsers Users : Type}.
(** [db.MGetUsers], [db.QueryFollowRelation] and [pack.Users] *)
Variable db_MGetUsers : user.MGetUserRequest -> option DbUsers * option error.
Variable db_QueryFollowRelation : option DbUsers -> Z -> list bool * option error.
Variable pack_Users : option DbUsers -> list bool -> option Users.

Definition MGetUser (req : user.MGetUserRequest) : option Users * option error :=
  match db_MGetUsers req with
  | (_, Some err) => (None, Some err)
  | (Users, None) =>
      match db_QueryFollowRelation Users (user.UserId req) with
      | (_, Some err1) => (None, Some err1)
      | (isFollowList, None) => (pack_Users Users isFollowList, None)
      end
  end.

End MGetUser.

End userservice.

(** ** Further configurations, requests and collaborators *)

Global Instance Q_eq_dec : EqDecision Q.
Proof. solve_decision. Defined.

Global Instance Value_eq_dec : EqDecision Value.
Proof. solve_decision. Defined.

Module Cases.

(** The configuration [mw] with six of its fields replaced. *)
Definition configure (mw : GinJWTMiddleware) (head : string) (sendAuthorization : bool)
    (authenticator : option (gin.Context -> Value * option error))
    (payloadFunc : option (Value -> gmap string Value))
    (sendCookie : bool) (filteredURL : string) : GinJWTMiddleware :=
  {| Realm := Realm mw; SigningAlgorithm := SigningAlgorithm mw; Key := Key mw;
     KeyFunc := KeyFunc mw; Timeout := Timeout mw; MaxRefresh := MaxRefresh mw;
     Authenticator := authenticator; Authorizator := Authorizator mw;
     PayloadFunc := payloadFunc; Unauthorized := Unauthorized mw;
     LoginResponse := LoginResponse mw; LogoutResponse := LogoutResponse mw;
     RefreshResponse := RefreshResponse mw; IdentityHandler := IdentityHandler mw;
     IdentityKey := IdentityKey mw; TokenLookup := TokenLookup mw;
     TokenHeadName := head; TimeFunc := TimeFunc mw;
     HTTPStatusMessageFunc := HTTPStatusMessageFunc mw;
     PrivKeyFile := PrivKeyFile mw; PrivKeyBytes := PrivKeyBytes mw;
     PubKeyFile := PubKeyFile mw; PrivateKeyPassphrase := PrivateKeyPassphrase mw;
     PubKeyBytes := PubKeyBytes mw; privKey := privKey mw; pubKey := pubKey mw;
     SendCookie := sendCookie; CookieMaxAge := CookieMaxAge mw;
     SecureCookie := SecureCookie mw; CookieHTTPOnly := CookieHTTPOnly mw;
     CookieDomain := CookieDomain mw; SendAuthorization := sendAuthorization;
     DisabledAbort := DisabledAbort mw; CookieName := CookieName mw;
     CookieSameSite := CookieSameSite mw; FilteredURL := filteredURL |}.

(** A head name of two words. *)
Definition mw_spaced : GinJWTMiddleware :=
  configure Fixtures.mw_default "Bearer Token" false None None false "/douyin/test".

(** The token is echoed in the response. *)
Definition mw_echo : GinJWTMiddleware :=
  configure Fixtures.mw_default "Bearer" true None None false "/douyin/test".

(** A list of exempt paths that ends with a comma. *)
Definition mw_blank : GinJWTMiddleware :=
  configure Fixtures.mw_default "Bearer" false None None false "/douyin/test,".

(** Every login succeeds as alice; the payload is the identity. *)
Definition authenticator : gin.Context -> Value * option error :=
  fun _ => (VString "alice", None).

Definition payloadFunc : Value -> gmap string Value :=
  fun data => {["identity" := data]}.

Definition mw_login : GinJWTMiddleware :=
  configure Fixtures.mw_default "Bearer" false (Some authenticator) (Some payloadFunc)
    true "/douyin/test".

(** The configuration [mw] with the two RSA keys given as bytes. *)
Definition with_key_bytes (mw : GinJWTMiddleware) (priv pub : list Byte.byte)
    : GinJWTMiddleware :=
  {| Realm := Realm mw; SigningAlgorithm := SigningAlgorithm mw; Key := Key mw;
     KeyFunc := KeyFunc mw; Timeout := Timeout mw; MaxRefresh := MaxRefresh mw;
     Authenticator := Authenticator mw; Authorizator := Authorizator mw;
     PayloadFunc := PayloadFunc mw; Unauthorized := Unauthorized mw;
     LoginResponse := LoginResponse mw; LogoutResponse := LogoutResponse mw;
     RefreshResponse := RefreshResponse mw; IdentityHandler := IdentityHandler mw;
     IdentityKey := IdentityKey mw; TokenLookup := TokenLookup mw;
     TokenHeadName := TokenHeadName mw; TimeFunc := TimeFunc mw;
     HTTPStatusMessageFunc := HTTPStatusMessageFunc mw;
     PrivKeyFile := PrivKeyFile mw; PrivKeyBytes := priv;
     PubKeyFile := PubKeyFile mw; PrivateKeyPassphrase := PrivateKeyPassphrase mw;
     PubKeyBytes := pub; privKey := privKey mw; pubKey := pubKey mw;
     SendCookie := SendCookie mw; CookieMaxAge := CookieMaxAge mw;
     SecureCookie := SecureCookie mw; CookieHTTPOnly := CookieHTTPOnly mw;
     CookieDomain := CookieDomain mw; SendAuthorization := SendAuthorization mw;
     DisabledAbort := DisabledAbort mw; CookieName := CookieName mw;
     CookieSameSite := CookieSameSite mw; FilteredURL := FilteredURL mw |}.

(** An RSA configuration with both keys given as bytes, and one whose
    key bytes were left empty. *)
Definition mw_rsa : GinJWTMiddleware :=
  with_key_bytes (Fixtures.config "RS256" None None 0 "" None)
    Fixtures.private_pem Fixtures.public_pem.

Definition mw_rsa_without_keys : GinJWTMiddleware :=
  Fixtures.config "RS256" None None 0 "" None.

(** The claims of the token [mw_login] issues when the clock stands at
    10 s, and the state after issuing it in the first request. *)
Definition claims_issued : gmap string Value :=
  refreshed {["identity" := VString "alice"]} 3610 10.

Definition issued (req : gin.Request) : World :=
  {| ctx := ctx (Fixtures.start req); heap := {[1%positive := claims_issued]};
     ticks := 2 |}.

(** A token library whose [sign] and [decode] are inverse to each other
    on the claims [claims_issued]: it signs nothing else. *)
Definition lib_issuing : Library :=
  {| registered := registered Fixtures.lib;
     decode := fun s =>
       if String.eqb s "issued" then
         inl {| jwt.dMethod := jwt.Method "HS256";
                jwt.dClaims := json_roundtrip <$> claims_issued |}
       else inr Fixtures.malformed;
     verify := verify Fixtures.lib;
     sign := fun _ m _ =>
       if bool_decide (m = claims_issued) then inl "issued"
       else inr (errors_New "key is of invalid type");
     ParseRSAPrivateKeyFromPEM := ParseRSAPrivateKeyFromPEM Fixtures.lib;
     ParseRSAPrivateKeyFromPEMWithPassword :=
       ParseRSAPrivateKeyFromPEMWithPassword Fixtures.lib;
     ParseRSAPublicKeyFromPEM := ParseRSAPublicKeyFromPEM Fixtures.lib;
     ReadFile := ReadFile Fixtures.lib;
     time_Now := time_Now Fixtures.lib;
     Format_RFC3339 := Format_RFC3339 Fixtures.lib |}.

(** A [KeyFunc] that refuses every token with an error of its own, whose
    message happens to be the one of [ErrEmptyPostFormToken]. *)
Definition mw_keyfunc_refusing : GinJWTMiddleware :=
  fst (MiddlewareInit Fixtures.lib
         (Fixtures.config "" None
            (Some (fun _ _ => inr (errors_New "form post token is empty"))) 0 "" None)).

(** What [jwt.Parse] makes of that error. *)
Definition refusal : error :=
  ValidationError (Some (errors_New "form post token is empty"))
    jwt.ValidationErrorUnverifiable "".

(** The state [jwt.Parse] leaves when the key function failed: the
    claims at the first location, no clock reading. *)
Definition unverified (req : gin.Request) (claims : gmap string Value) : World :=
  {| ctx := ctx (Fixtures.start req); heap := {[1%positive := claims]}; ticks := 0 |}.

(** A clock that stands at 20.5 s. *)
Definition lib_half : Library :=
  Fixtures.library Fixtures.tokens (fun _ => 20500000000).

Definition mw_half : GinJWTMiddleware :=
  fst (MiddlewareInit lib_half (Fixtures.config "" Fixtures.secret None 0 "" None)).

(** A token whose [orig_iat] is beyond the range of [int64]. *)
Definition claims_far : gmap string Value :=
  Fixtures.claims_of
    [("exp", VFloat 20); ("orig_iat", VFloat (10 ^ 30 # 1)); ("identity", VString "alice")].

Definition lib_far : Library :=
  Fixtures.library
    [("far", {| jwt.dMethod := jwt.Method "HS256"; jwt.dClaims := claims_far |})]
    (fun _ => 10 * time.Second).

(** The configuration [mw] with [DisabledAbort] set. *)
Definition without_abort (mw : GinJWTMiddleware) : GinJWTMiddleware :=
  {| Realm := Realm mw; SigningAlgorithm := SigningAlgorithm mw; Key := Key mw;
     KeyFunc := KeyFunc mw; Timeout := Timeout mw; MaxRefresh := MaxRefresh mw;
     Authenticator := Authenticator mw; Authorizator := Authorizator mw;
     PayloadFunc := PayloadFunc mw; Unauthorized := Unauthorized mw;
     LoginResponse := LoginResponse mw; LogoutResponse := LogoutResponse mw;
     RefreshResponse := RefreshResponse mw; IdentityHandler := IdentityHandler mw;
     IdentityKey := IdentityKey mw; TokenLookup := TokenLookup mw;
     TokenHeadName := TokenHeadName mw; TimeFunc := TimeFunc mw;
     HTTPStatusMessageFunc := HTTPStatusMessageFunc mw;
     PrivKeyFile := PrivKeyFile mw; PrivKeyBytes := PrivKeyBytes mw;
     PubKeyFile := PubKeyFile mw; PrivateKeyPassphrase := PrivateKeyPassphrase mw;
     PubKeyBytes := PubKeyBytes mw; privKey := privKey mw; pubKey := pubKey mw;
     SendCookie := SendCookie mw; CookieMaxAge := CookieMaxAge mw;
     SecureCookie := SecureCookie mw; CookieHTTPOnly := CookieHTTPOnly mw;
     CookieDomain := CookieDomain mw; SendAuthorization := SendAuthorization mw;
     DisabledAbort := true; CookieName := CookieName mw;
     CookieSameSite := CookieSameSite mw; FilteredURL := FilteredURL mw |}.

Definition mw_no_abort : GinJWTMiddleware := without_abort Fixtures.mw_default.

(** A [KeyFunc], and the token is to be echoed in the response. *)
Definition mw_keyfunc_echo : GinJWTMiddleware :=
  configure Fixtures.mw_keyfunc "Bearer" true None None false "/douyin/test".

(** A request with query parameters and nothing else. *)
Definition query_request (path : string) (query : list (string * string)) : gin.Request :=
  {| gin.Header := ∅; gin.Query := list_to_map query; gin.Cookie := ∅;
     gin.Param := ∅; gin.PostForm := ∅; gin.Path := path |}.

Definition context (req : gin.Request) : gin.Context := ctx (Fixtures.start req).

(** [strconv.ParseInt] on decimal numerals without a sign. *)
Fixpoint digits (s : string) (acc : Z) : option Z :=
  match s with
  | EmptyString => Some acc
  | String a s' =>
      let n := Z.of_nat (nat_of_ascii a) in
      if (48 <=? n)%Z && (n <=? 57)%Z then digits s' (10 * acc + (n - 48)) else None
  end.

Definition ParseInt (s : string) : Z * option error :=
  match s with
  | EmptyString => (0, Some (errors_New "strconv.ParseInt: parsing : invalid syntax"))
  | _ =>
      match digits s 0 with
      | Some n => (n, None)
      | None => (0, Some (errors_New "strconv.ParseInt: invalid syntax"))
      end
  end.

(** Collaborators for a token of user [tokenId], a claim set [claims] in
    the context and a remote [CreateVideo] that answers [create]. *)
Definition env (tokenId : Z) (claims : gmap string Value) (create : option error)
    : Collaborators string (list string) (list string) string :=
  {| vo_GetUserIdFromToken := fun _ => tokenId;
     strconv_ParseInt := ParseInt;
     errno_Success := errors_New "Success";
     errno_ParamErr := errors_New "Wrong Parameter has been given";
     errno_IdNotEqualErr := errors_New "id is not equal";
     errno_ConvertErr := fun e => e;
     constants_IdentityKey := "id";
     constants_PlayURL := "http://localhost/static/videos/";
     constants_CoverURL := "http://localhost/static/cover.png";
     constants_QueryFollowList := 1;
     constants_QueryFollowerList := 2;
     jwt_ExtractClaims := fun _ => Ok claims;
     c_FormFile := fun _ name => inl "clip.mp4";
     Filename := fun f => f;
     filepath_Base := fun p => p;
     fmt_Sprintf := fun f => f;
     filepath_Join := fun d f => d ++ f;
     c_SaveUploadedFile := fun _ _ => None;
     rpc_FavoriteByUser := fun _ => (Some "ok", None);
     rpc_CreateVideo := fun _ => create;
     rpc_GetPublishVideoList := fun _ => (Some [], None);
     rpc_GetVideosFeed := fun t => (Some [], t, None);
     rpc_MGetUser := fun _ => (Some [], None);
     handlers_time_Now := fun _ => 10 * time.Second |}.

End Cases.

(** * Properties *)

(** ** Running a handler symbolically *)

Lemma bind_eq {A B} (m : M A) (f : A -> M B) (w : World) :
  (m ≫= f) w = match m w with Ok (a, w') => f a w' | Panicked r => Panicked r end.
Proof. reflexivity. Qed.

Ltac run :=
  repeat first
    [ rewrite bind_eq
    | progress cbn [get_c modify_c call mret M_ret lift read_clock panic new_claims
                    negb andb orb is_nil is_float64 ctx heap ticks] ].

(** ** Package [strings] on examples *)

Example Split_commas : strings.Split "a, b,c" "," = ["a"; " b"; "c"].
Proof. reflexivity. Qed.

Example Split_lookup : strings.Split "header:Authorization" ":" = ["header"; "Authorization"].
Proof. reflexivity. Qed.

Example Split_empty : strings.Split "" "," = [""].
Proof. reflexivity. Qed.

Example Split_trailing : strings.Split "a," "," = ["a"; ""].
Proof. reflexivity. Qed.

Example SplitN_bearer : strings.SplitN "Bearer a b" " " 2 = ["Bearer"; "a b"].
Proof. reflexivity. Qed.

Example SplitN_no_space : strings.SplitN "Bearer" " " 2 = ["Bearer"].
Proof. reflexivity. Qed.

Example TrimSpace_unicode :
  let nbsp := String (ascii_of_nat 194) (String (ascii_of_nat 160) "") in
  let em_space :=
    String (ascii_of_nat 226) (String (ascii_of_nat 128) (String (ascii_of_nat 131) "")) in
  strings.TrimSpace (nbsp ++ " /feed" ++ em_space ++ nbsp) = "/feed" /\
  strings.TrimSpace (String (ascii_of_nat 226) (String (ascii_of_nat 128) " "))
  = String (ascii_of_nat 226) (String (ascii_of_nat 128) "").
Proof. vm_compute. split; reflexivity. Qed.

Example TrimSpace_both : strings.TrimSpace "  a b  " = "a b".
Proof. reflexivity. Qed.

Example Unix_floors : time.Unix 8500000000 = 8.
Proof. reflexivity. Qed.

Example int64_truncates : int64_of_float64 (-3 # 2) = -1.
Proof. reflexivity. Qed.

Example int64_out_of_range :
  int64_of_float64 (10 ^ 30 # 1) = math.MinInt64 /\
  int64_of_float64 (2 ^ 63 # 1) = math.MinInt64 /\
  int64_of_float64 (2 ^ 63 - 1024 # 1) = 2 ^ 63 - 1024.
Proof. vm_compute. repeat split; reflexivity. Qed.

(** ** The header source *)

Lemma append_cons a (s t : string) : String a s ++ t = String a (s ++ t).
Proof. reflexivity. Qed.

Lemma append_nil (t : string) : "" ++ t = t.
Proof. reflexivity. Qed.

Lemma Index_space_cons a s :
  strings.Index (String a s) " " =
  if Ascii.eqb a " " then Some O else S <$> strings.Index s " ".
Proof.
  cbn [strings.Index String.prefix].
  destruct (ascii_dec " " a) as [<-|Hne].
  - now destruct s.
  - destruct (Ascii.eqb_spec a " ") as [->|_]; [congruence | reflexivity].
Qed.

Lemma SplitN_space_2 s :
  strings.SplitN s " " 2 =
  match strings.Index s " " with
  | None => [s]
  | Some i => [strings.take i s; strings.drop (i + 1) s]
  end.
Proof.
  unfold strings.SplitN. destruct s as [|a s]; [reflexivity|].
  cbn [String.length strings.genSplit Nat.leb].
  destruct (strings.Index (String a s) " ") as [i|]; [|reflexivity].
  cbn [Nat.sub String.length]. f_equal.
  now destruct (String.length s).
Qed.

Lemma Index_space_spec s :
  match strings.Index s " " with
  | None => forall a b, s <> a ++ " " ++ b
  | Some i => cut_at_first_space s (strings.take i s) (strings.drop (i + 1) s)
  end.
Proof.
  induction s as [|c s IH].
  - simpl. intros [|? ?] b; rewrite ?append_cons, ?append_nil; discriminate.
  - rewrite Index_space_cons. destruct (Ascii.eqb_spec c " ") as [->|Hc].
    + split; [reflexivity|].
      intros [|? ?] b; rewrite ?append_cons, ?append_nil; discriminate.
    + destruct (strings.Index s " ") as [i|]; cbn [fmap option_fmap option_map].
      * destruct IH as [Heq Hno]. split.
        -- simpl. rewrite append_cons. f_equal. exact Heq.
        -- simpl. intros [|x a] b; rewrite ?append_cons, ?append_nil;
             [intros [=]; congruence|].
           intros [= _ H]. exact (Hno _ _ H).
      * intros [|x a] b; rewrite ?append_cons, ?append_nil;
          [intros [=]; congruence|].
        intros [= _ H]. exact (IH _ _ H).
Qed.

Lemma cut_at_first_space_unique h p0 p1 q0 q1 :
  cut_at_first_space h p0 p1 -> cut_at_first_space h q0 q1 -> p0 = q0 /\ p1 = q1.
Proof.
  intros [-> Hp] [Hq Hq0]. revert q0 Hq Hq0 Hp.
  induction p0 as [|c p0 IH]; intros [|d q0] Hq Hq0 Hp;
    rewrite ?append_cons, ?append_nil in Hq.
  - injection Hq as ->. auto.
  - injection Hq as <- Hq. exfalso. apply (Hq0 "" q0). reflexivity.
  - injection Hq as -> Hq. exfalso. apply (Hp "" p0). reflexivity.
  - injection Hq as -> Hq.
    destruct (IH q0 Hq) as [-> ->]; auto.
    + intros a b ->. apply (Hq0 (String d a) b). reflexivity.
    + intros a b ->. apply (Hp (String d a) b). reflexivity.
Qed.

(** C8.  [jwtFromHeader] on the value of the header [key]: the empty
    value gives [ErrEmptyAuthHeader]; a non-empty value that splits on its
    first space into [TokenHeadName] (compared byte for byte) and a second
    part gives that second part as the token; every other non-empty value
    gives [ErrInvalidAuthHeader]. *)
Theorem jwtFromHeader_spec (mw : GinJWTMiddleware) (cx : gin.Context) (key : string) :
  let authHeader := gin.get (gin.Header (gin.request cx)) key in
  (authHeader = "" -> jwtFromHeader mw cx key = ("", Some ErrEmptyAuthHeader)) /\
  (authHeader <> "" ->
     (forall token, cut_at_first_space authHeader (TokenHeadName mw) token ->
        jwtFromHeader mw cx key = (token, None)) /\
     ((forall token, ~ cut_at_first_space authHeader (TokenHeadName mw) token) ->
        jwtFromHeader mw cx key = ("", Some ErrInvalidAuthHeader))).
Proof.
  intros h. unfold jwtFromHeader. fold h. split.
  - intros ->. reflexivity.
  - intros Hne. destruct (String.eqb_spec h "") as [|_]; [contradiction|].
    rewrite SplitN_space_2. pose proof (Index_space_spec h) as Hs.
    destruct (strings.Index h " ") as [i|].
    + split.
      * intros token Hcut.
        destruct (cut_at_first_space_unique _ _ _ _ _ Hs Hcut) as [-> ->].
        now rewrite String.eqb_refl.
      * intros Hno.
        destruct (String.eqb_spec (strings.take i h) (TokenHeadName mw)) as [E|];
          [|reflexivity].
        exfalso. apply (Hno (strings.drop (i + 1) h)). now rewrite <- E.
    + split; [|reflexivity].
      intros token [E _]. exfalso. exact (Hs _ _ E).
Qed.

Example jwtFromHeader_bearer :
  jwtFromHeader Fixtures.mw_default
    (ctx (Fixtures.start (Fixtures.request "/" "Bearer abc.def.ghi"))) "Authorization"
  = ("abc.def.ghi", None).
Proof. reflexivity. Qed.

Example jwtFromHeader_lower_case :
  jwtFromHeader Fixtures.mw_default
    (ctx (Fixtures.start (Fixtures.request "/" "bearer abc.def.ghi"))) "Authorization"
  = ("", Some ErrInvalidAuthHeader).
Proof. reflexivity. Qed.

Example jwtFromHeader_absent :
  jwtFromHeader Fixtures.mw_default
    (ctx (Fixtures.start (Fixtures.request "/" ""))) "Authorization"
  = ("", Some ErrEmptyAuthHeader).
Proof. reflexivity. Qed.

(** ** The monad *)

Lemma bind_Ok {A B} (m : M A) (f : A -> M B) (w w' : World) (a : A) :
  m w = Ok (a, w') -> (m ≫= f) w = f a w'.
Proof. intros H. rewrite bind_eq, H. reflexivity. Qed.

Lemma bind_Panicked {A B} (m : M A) (f : A -> M B) (w : World) r :
  m w = Panicked r -> (m ≫= f) w = Panicked r.
Proof. intros H. rewrite bind_eq, H. reflexivity. Qed.

Lemma set_heap_id w : set_heap w (heap w) = w.
Proof. now destruct w. Qed.

Lemma index_lookup (m : gmap string Value) k v : m !! k = Some v -> index m k = v.
Proof. unfold index. now intros ->. Qed.

Lemma store_claim_eq l key value w m :
  heap w !! l = Some m ->
  store_claim l key value w = Ok (tt, set_heap w (<[l := <[key := value]> m]> (heap w))).
Proof. unfold store_claim. now intros ->. Qed.

Lemma claims_at_eq l w m : heap w !! l = Some m -> claims_at l w = Ok (m, w).
Proof. unfold claims_at. now intros ->. Qed.

(** The copy loop writes every claim of the source into the destination
    and leaves the rest of the heap alone. *)
Lemma copy_claims_eq src dst w (m d : gmap string Value) :
  src <> dst -> heap w !! src = Some m -> heap w !! dst = Some d ->
  copy_claims src dst w = Ok (tt, set_heap w (<[dst := m ∪ d]> (heap w))).
Proof.
  intros Hne Hsrc Hdst. unfold copy_claims.
  rewrite (bind_Ok _ _ _ _ _ (claims_at_eq _ _ _ Hsrc)).
  cut (forall keys : gmap string Value, keys ⊆ m ->
         map_fold (fun key _ (k : M unit) =>
                     _ ← k; m0 ← claims_at src; store_claim dst key (index m0 key))
                  (mret tt) keys w
         = Ok (tt, set_heap w (<[dst := keys ∪ d]> (heap w)))).
  { intros H. apply H. reflexivity. }
  intros keys.
  apply (map_fold_weak_ind (fun (r : M unit) (keys : gmap string Value) =>
           keys ⊆ m -> r w = Ok (tt, set_heap w (<[dst := keys ∪ d]> (heap w))))).
  - intros _. rewrite (left_id_L ∅ (∪)), insert_id by exact Hdst.
    now rewrite set_heap_id.
  - intros i x keys' r Hi IH Hsub.
    assert (Hm : m !! i = Some x).
    { eapply lookup_weaken; [|exact Hsub]. apply lookup_insert_eq. }
    assert (Hsub' : keys' ⊆ m).
    { transitivity (<[i:=x]> keys'); [|exact Hsub]. now apply insert_subseteq. }
    rewrite (bind_Ok _ _ _ _ _ (IH Hsub')).
    erewrite bind_Ok; cycle 1.
    { apply claims_at_eq. cbn. rewrite lookup_insert_ne by (intros ->; congruence).
      exact Hsrc. }
    erewrite store_claim_eq; cycle 1.
    { cbn. apply lookup_insert_eq. }
    unfold set_heap. cbn. rewrite insert_insert_eq, (index_lookup _ _ _ Hm).
    now rewrite insert_union_l.
Qed.

Lemma Unix_whole_seconds n : time.Unix (n * time.Second) = n.
Proof. unfold time.Unix, time.Second. apply Z.div_mul. discriminate. Qed.

Lemma locator_error_message e :
  In e locator_errors ->
  (Error e = Error ErrEmptyPostFormToken <-> e = ErrEmptyPostFormToken).
Proof.
  cbn. intros [<-|[<-|[<-|[<-|[<-|[<-|[]]]]]]]; split; intros H;
    try reflexivity; discriminate H.
Qed.

Section Properties.

Variable lib : Library.
Variable mw : GinJWTMiddleware.

(** ** Credential location *)

Lemma jwtFromHeader_err cx v tok e :
  jwtFromHeader mw cx v = (tok, Some e) -> tok = "" /\ In e locator_errors.
Proof.
  unfold jwtFromHeader.
  destruct (String.eqb _ ""); [intros [= <- <-]; cbn; auto|].
  destruct (strings.SplitN _ _ _) as [|p0 [|p1 [|? ?]]];
    try (intros [= <- <-]; cbn; auto).
  destruct (String.eqb p0 _); [discriminate|intros [= <- <-]; cbn; auto].
Qed.

(** An error the loop ends with is the one it started from or one of the
    six errors of the sources. *)
Lemma locate_err cx methods tok0 err0 tok e :
  locate mw cx methods tok0 err0 = Ok (tok, Some e) ->
  err0 = Some e \/ In e locator_errors.
Proof.
  revert tok0 err0. induction methods as [|method rest IH]; intros tok0 err0.
  - cbn. intros [= _ ->]. now left.
  - cbn [locate]. destruct (0 <? String.length tok0)%nat.
    { intros [= _ ->]. now left. }
    destruct (strings.Split _ ":") as [|p0 [|p1 ps]]; try discriminate.
    set (k := strings.TrimSpace p0). set (v := strings.TrimSpace p1).
    destruct (String.eqb k "header") eqn:?.
    { destruct (jwtFromHeader mw cx v) as [t' [e'|]] eqn:Hh; intros H;
        apply IH in H as [H|H]; auto.
      - injection H as ->. right. eapply jwtFromHeader_err, Hh.
      - discriminate. }
    destruct (String.eqb k "query").
    { unfold jwtFromQuery. destruct (String.eqb _ ""); intros H;
        apply IH in H as [H|H]; auto.
      - injection H as <-. right. cbn; auto.
      - discriminate. }
    destruct (String.eqb k "cookie").
    { unfold jwtFromCookie. destruct (String.eqb _ ""); intros H;
        apply IH in H as [H|H]; auto.
      - injection H as <-. right. cbn; auto.
      - discriminate. }
    destruct (String.eqb k "param").
    { unfold jwtFromParam. destruct (String.eqb _ ""); intros H;
        apply IH in H as [H|H]; auto.
      - injection H as <-. right. cbn; auto 10.
      - discriminate. }
    destruct (String.eqb k "postform").
    { unfold jwtFromPostForm. destruct (String.eqb _ ""); intros H;
        apply IH in H as [H|H]; auto.
      - injection H as <-. right. cbn; auto 10.
      - discriminate. }
    intros H. apply IH in H. exact H.
Qed.

Lemma ParseToken_locate_err w tok e :
  locate mw (ctx w) (strings.Split (TokenLookup mw) ",") "" None = Ok (tok, Some e) ->
  ParseToken lib mw w = Ok ((None, Some e), w).
Proof.
  intros H. unfold ParseToken. rewrite bind_eq. cbn [get_c].
  rewrite bind_eq. unfold lift. rewrite H. reflexivity.
Qed.

Lemma ParseToken_located w tok :
  locate mw (ctx w) (strings.Split (TokenLookup mw) ",") "" None = Ok (tok, None) ->
  ParseToken lib mw w =
  match KeyFunc mw with
  | Some f => jwt_Parse lib tok (customKeyFunc f) w
  | None => jwt_Parse lib tok (keyFunc lib mw tok) w
  end.
Proof.
  intros H. unfold ParseToken. run. rewrite H. run. now destruct (KeyFunc mw).
Qed.

Lemma GetClaimsFromJWT_err w w1 tok e :
  ParseToken lib mw w = Ok ((tok, Some e), w1) ->
  GetClaimsFromJWT lib mw w = Ok ((∅, Some e), w1).
Proof.
  intros H. unfold GetClaimsFromJWT. rewrite (bind_Ok _ _ _ _ _ H). reflexivity.
Qed.

Lemma GetClaimsFromJWT_locate_err w tok e :
  locate mw (ctx w) (strings.Split (TokenLookup mw) ",") "" None = Ok (tok, Some e) ->
  GetClaimsFromJWT lib mw w = Ok ((∅, Some e), w).
Proof.
  intros H. eapply GetClaimsFromJWT_err, ParseToken_locate_err, H.
Qed.

(** ** What parsing leaves behind *)

Lemma GetClaimsFromJWT_ParseToken_err w claims e w1 :
  GetClaimsFromJWT lib mw w = Ok ((claims, Some e), w1) ->
  exists tok, ParseToken lib mw w = Ok ((tok, Some e), w1).
Proof.
  unfold GetClaimsFromJWT. rewrite bind_eq.
  destruct (ParseToken lib mw w) as [[[tok [e'|]] w2]|]; [| |discriminate].
  - run. intros [= _ <- <-]. eauto.
  - cbn beta iota. destruct (SendAuthorization mw); run.
    + destruct (gin.Keys _ !! _) as [stored|];
        [destruct (gin.as_string stored)|]; run; try discriminate;
        destruct tok; run; try discriminate;
        destruct (claims_at _ _) as [[? ?]|]; discriminate.
    + destruct tok; run; try discriminate;
        destruct (claims_at _ _) as [[? ?]|]; discriminate.
Qed.

Lemma jwt_Parse_decoded tok kf d w :
  decode lib tok = inl d ->
  jwt_Parse lib tok kf w =
  let l := fresh (dom (heap w)) in
  let w1 := set_heap w (<[l := jwt.dClaims d]> (heap w)) in
  let token := {| jwt.Method_ := jwt.dMethod d; jwt.Claims := l; jwt.Valid := false |} in
  match kf token w1 with
  | Ok (inr (ValidationError inner errs text), w2) =>
      Ok ((Some token, Some (ValidationError inner errs text)), w2)
  | Ok (inr (errors_New msg), w2) =>
      Ok ((Some token,
           Some (ValidationError (Some (errors_New msg)) jwt.ValidationErrorUnverifiable "")),
          w2)
  | Ok (inl key, w2) =>
      match verify lib tok d key (time_Now lib (ticks w2)) with
      | Some e => Ok ((Some token, Some e), tick w2)
      | None => Ok ((Some {| jwt.Method_ := jwt.dMethod d; jwt.Claims := l;
                             jwt.Valid := true |}, None), tick w2)
      end
  | Panicked r => Panicked r
  end.
Proof.
  intros Hd. unfold jwt_Parse. rewrite Hd. run. cbn zeta. unfold set_heap.
  destruct (kf _ _) as [[[key|e] w2]|]; [| |reflexivity].
  - run. destruct (verify _ _ _ _ _); reflexivity.
  - destruct e; reflexivity.
Qed.

Lemma keyFunc_eq tok t w :
  keyFunc lib mw tok t w =
  if negb (bool_decide (GetSigningMethod lib (SigningAlgorithm mw) = Some (jwt.Method_ t)))
  then Ok (inr ErrInvalidSigningAlgorithm, w)
  else if usingPublicKeyAlgo mw then Ok (inl (jwt.PublicKeyPtr (pubKey mw)), w)
  else Ok (inl (jwt.SecretKey (Key mw)),
           {| ctx := gin.Set_ "JWT_TOKEN" (gin.AString tok) (ctx w);
              heap := heap w; ticks := ticks w |}).
Proof.
  unfold keyFunc. destruct (negb _); [reflexivity|].
  destruct (usingPublicKeyAlgo mw); reflexivity.
Qed.

Lemma customKeyFunc_fresh f d w :
  let l := fresh (dom (heap w)) in
  let w1 := set_heap w (<[l := jwt.dClaims d]> (heap w)) in
  customKeyFunc f {| jwt.Method_ := jwt.dMethod d; jwt.Claims := l; jwt.Valid := false |} w1
  = Ok (f (jwt.dMethod d) (jwt.dClaims d), w1).
Proof.
  intros l w1. unfold customKeyFunc. run. unfold claims_at.
  cbn [jwt.Claims w1 set_heap heap]. rewrite lookup_insert_eq. reflexivity.
Qed.

(** What a parse that got as far as decoding leaves behind. *)
Lemma ParseToken_decoded w tok d :
  locate mw (ctx w) (strings.Split (TokenLookup mw) ",") "" None = Ok (tok, None) ->
  decode lib tok = inl d ->
  exists t err n,
    ParseToken lib mw w =
    Ok ((Some t, err),
        {| ctx := raw_token_context lib mw tok d (ctx w);
           heap := <[fresh (dom (heap w)) := jwt.dClaims d]> (heap w);
           ticks := n |}) /\
    jwt.Claims t = fresh (dom (heap w)).
Proof.
  intros Hloc Hd. rewrite (ParseToken_located _ _ Hloc).
  unfold raw_token_context. destruct (KeyFunc mw) as [f|].
  - rewrite (jwt_Parse_decoded _ _ _ _ Hd). cbn zeta.
    rewrite customKeyFunc_fresh.
    destruct (f _ _) as [key|[msg|inner errs text]]; [|eauto 10..].
    destruct (verify _ _ _ _ _); eauto 10.
  - rewrite (jwt_Parse_decoded _ _ _ _ Hd). cbn zeta.
    rewrite keyFunc_eq. cbn [jwt.Method_].
    destruct (bool_decide _); cbn [negb andb]; [|eauto 10].
    destruct (usingPublicKeyAlgo mw); cbn [negb].
    + destruct (verify _ _ _ _ _); eauto 10.
    + destruct (verify _ _ _ _ _); eauto 10.
Qed.

(** [ParseToken] leaves the request and the response alone: it may only
    store the raw token. *)
Lemma ParseToken_context w r w' :
  ParseToken lib mw w = Ok (r, w') ->
  ctx w' = ctx w \/ exists tok, ctx w' = gin.Set_ "JWT_TOKEN" (gin.AString tok) (ctx w).
Proof.
  intros HP.
  destruct (locate mw (ctx w) (strings.Split (TokenLookup mw) ",") "" None)
    as [[tok [e|]]|] eqn:Hloc.
  - rewrite (ParseToken_locate_err _ _ _ Hloc) in HP. injection HP as _ <-. now left.
  - destruct (decode lib tok) as [d|e] eqn:Hd.
    + destruct (ParseToken_decoded _ _ _ Hloc Hd) as (t & err & n & H' & _).
      rewrite HP in H'. injection H' as _ ->.
      cbn [ctx]. unfold raw_token_context.
      destruct (KeyFunc mw); [now left|].
      destruct (_ && _); [right; eauto|now left].
    + rewrite (ParseToken_located _ _ Hloc) in HP. unfold jwt_Parse in HP.
      rewrite Hd in HP. destruct (KeyFunc mw); injection HP as _ <-; now left.
  - unfold ParseToken in HP. rewrite bind_eq in HP. cbn [get_c] in HP.
    rewrite bind_eq in HP. unfold lift in HP. rewrite Hloc in HP. discriminate.
Qed.

Lemma GetClaimsFromJWT_context w r w' :
  GetClaimsFromJWT lib mw w = Ok (r, w') ->
  gin.request (ctx w') = gin.request (ctx w) /\ gin.next (ctx w') = gin.next (ctx w).
Proof.
  unfold GetClaimsFromJWT. rewrite bind_eq.
  destruct (ParseToken lib mw w) as [[[t err] w1]|] eqn:HP; [|discriminate].
  assert (H1 : gin.request (ctx w1) = gin.request (ctx w) /\
               gin.next (ctx w1) = gin.next (ctx w)).
  { destruct (ParseToken_context _ _ _ HP) as [->|[tok ->]]; now split. }
  destruct err as [e|]; run; [intros [= _ <-]; exact H1|].
  cbn beta iota.
  assert (H2 : forall w2, (match t with
                 | None => panic "invalid memory address or nil pointer dereference"
                 | Some t0 => claims ← claims_at (jwt.Claims t0); mret (claims, None)
                 end : M (gmap string Value * option error)) w2 = Ok (r, w') -> w' = w2).
  { intros w2. destruct t as [t|]; [|discriminate]. run. unfold claims_at.
    destruct (heap w2 !! _); [|discriminate]. now intros [= _ <-]. }
  destruct (SendAuthorization mw); run.
  - destruct (gin.Keys (ctx w1) !! "JWT_TOKEN") as [stored|];
      [destruct (gin.as_string stored)|]; run; try discriminate.
    + intros H. apply H2 in H. subst w'. exact H1.
    + intros H. apply H2 in H. subst w'. exact H1.
  - intros H. apply H2 in H. subst w'. exact H1.
Qed.

(** ** The request-interception decision *)

Lemma reject_refused g u code e w :
  HTTPStatusMessageFunc mw = Some g -> Unauthorized mw = Some u ->
  reject mw code e w = Ok (tt, refused mw g u code e w).
Proof.
  intros Hg Hu. unfold reject, message, unauthorized, refused. rewrite Hg, Hu. run.
  destruct (DisabledAbort mw); reflexivity.
Qed.

(** An error is fatal unless it reads "form post token is empty" and the
    path is exempt. *)
Lemma middlewareImpl_err w w1 claims e :
  GetClaimsFromJWT lib mw w = Ok ((claims, Some e), w1) ->
  (String.eqb (Error e) "form post token is empty"
   && filtered mw (gin.Path (gin.request (ctx w1))) = false) ->
  middlewareImpl lib mw w = reject mw http.StatusUnauthorized e w1.
Proof.
  intros H Hc. unfold middlewareImpl. rewrite (bind_Ok _ _ _ _ _ H).
  cbn beta iota. rewrite bind_eq. cbn [get_c]. cbn beta iota zeta.
  destruct (String.eqb (Error e) _); cbn [negb]; [|reflexivity].
  cbn in Hc. rewrite Hc. reflexivity.
Qed.

Lemma middlewareImpl_expired w w1 claims err f clock :
  GetClaimsFromJWT lib mw w = Ok ((claims, err), w1) ->
  filtered mw (gin.Path (gin.request (ctx w1))) = true ->
  match err with Some e => Error e = Error ErrEmptyPostFormToken | None => True end ->
  index claims "exp" = VFloat f ->
  TimeFunc mw = Some clock ->
  int64_of_float64 f < time.Unix (clock (ticks w1)) ->
  middlewareImpl lib mw w = reject mw http.StatusUnauthorized ErrExpiredToken (tick w1).
Proof.
  intros H Hfl He Hexp Hc Hlt. unfold middlewareImpl.
  rewrite (bind_Ok _ _ _ _ _ H). cbn beta iota. run. cbn beta iota zeta.
  rewrite Hfl, Hexp. unfold now. rewrite Hc.
  assert (E : (int64_of_float64 f <? time.Unix (clock (ticks w1)))%Z = true)
    by (apply Z.ltb_lt; exact Hlt).
  destruct err as [e|].
  - cbn in He. rewrite He, String.eqb_refl. run. rewrite E. reflexivity.
  - run. rewrite E. reflexivity.
Qed.

(** On an exempt path, once the error stage and the expiry stage are
    passed, the request is let through whatever the [Authorizator] answers. *)
Lemma middlewareImpl_exempt_passes w w1 claims err h a identity :
  GetClaimsFromJWT lib mw w = Ok ((claims, err), w1) ->
  filtered mw (gin.Path (gin.request (ctx w1))) = true ->
  match err with Some e => Error e = Error ErrEmptyPostFormToken | None => True end ->
  IdentityHandler mw = Some h ->
  Authorizator mw = Some a ->
  (index claims "exp" = VNil ->
   h (gin.Set_ "JWT_PAYLOAD" (gin.AClaims claims) (ctx w1)) = Ok identity ->
   middlewareImpl lib mw w = Ok (tt, passed_on mw claims identity w1)) /\
  (forall f clock,
     index claims "exp" = VFloat f ->
     TimeFunc mw = Some clock ->
     time.Unix (clock (ticks w1)) <= int64_of_float64 f ->
     h (gin.Set_ "JWT_PAYLOAD" (gin.AClaims claims) (ctx w1)) = Ok identity ->
     middlewareImpl lib mw w = Ok (tt, passed_on mw claims identity (tick w1))).
Proof.
  intros H Hfl He Hh Ha.
  assert (Hfatal : match err with
                   | Some e =>
                       if negb (String.eqb (Error e) "form post token is empty")
                       then Some e
                       else if negb true then Some e else None
                   | None => None
                   end = None).
  { destruct err as [e|]; [|reflexivity]. cbn in He. now rewrite He, String.eqb_refl. }
  split.
  - intros Hexp Hid. unfold middlewareImpl.
    rewrite (bind_Ok _ _ _ _ _ H). cbn beta iota. run. cbn beta iota zeta.
    rewrite Hfl, Hfatal, Hexp, Hh, Ha. run. rewrite Hid. run.
    unfold passed_on, publish.
    destruct identity; run; rewrite ?andb_false_r; reflexivity.
  - intros f clock Hexp Hc Hle Hid. unfold middlewareImpl.
    rewrite (bind_Ok _ _ _ _ _ H). cbn beta iota. run. cbn beta iota zeta.
    rewrite Hfl, Hfatal, Hexp, Hh, Ha. unfold now. rewrite Hc. run.
    assert (E : (int64_of_float64 f <? time.Unix (clock (ticks w1)))%Z = false)
      by (apply Z.ltb_ge; exact Hle).
    rewrite E. run. rewrite Hid. run.
    unfold passed_on, publish, tick.
    destruct identity; run; rewrite ?andb_false_r; reflexivity.
Qed.

Lemma default_IdentityHandler_anonymous cx key :
  default_IdentityHandler key (gin.Set_ "JWT_PAYLOAD" (gin.AClaims ∅) cx) = Ok VNil.
Proof.
  unfold default_IdentityHandler, ExtractClaims. cbn [gin.Set_ gin.Keys].
  rewrite lookup_insert_eq. reflexivity.
Qed.

(** The claims are empty when [GetClaimsFromJWT] returns an error. *)
Lemma GetClaimsFromJWT_err_claims w claims e w1 :
  GetClaimsFromJWT lib mw w = Ok ((claims, Some e), w1) -> claims = ∅.
Proof.
  intros HG. destruct (GetClaimsFromJWT_ParseToken_err _ _ _ _ HG) as [tok HP].
  rewrite (GetClaimsFromJWT_err _ _ _ _ HP) in HG. now injection HG as <-.
Qed.

(** An error that is fatal is answered with 401. *)
Lemma middlewareImpl_refuses w w1 claims e g u :
  GetClaimsFromJWT lib mw w = Ok ((claims, Some e), w1) ->
  (String.eqb (Error e) "form post token is empty"
   && filtered mw (gin.Path (gin.request (ctx w))) = false) ->
  HTTPStatusMessageFunc mw = Some g -> Unauthorized mw = Some u ->
  middlewareImpl lib mw w = Ok (tt, refused mw g u http.StatusUnauthorized e w1).
Proof.
  intros HG Hc Hg Hu. destruct (GetClaimsFromJWT_context _ _ _ HG) as [Hreq _].
  rewrite (middlewareImpl_err _ _ _ _ HG) by (now rewrite Hreq).
  now apply reject_refused.
Qed.

(** An error that reads "form post token is empty" is passed over on an
    exempt path: the request goes on without claims. *)
Lemma middlewareImpl_tolerates w w1 claims e h a identity :
  GetClaimsFromJWT lib mw w = Ok ((claims, Some e), w1) ->
  Error e = Error ErrEmptyPostFormToken ->
  filtered mw (gin.Path (gin.request (ctx w))) = true ->
  IdentityHandler mw = Some h -> Authorizator mw = Some a ->
  h (gin.Set_ "JWT_PAYLOAD" (gin.AClaims ∅) (ctx w1)) = Ok identity ->
  middlewareImpl lib mw w = Ok (tt, passed_on mw ∅ identity w1).
Proof.
  intros HG He Hfl Hh Ha Hid.
  pose proof (GetClaimsFromJWT_err_claims _ _ _ _ HG) as ->.
  destruct (GetClaimsFromJWT_context _ _ _ HG) as [Hreq _].
  rewrite <- Hreq in Hfl.
  destruct (middlewareImpl_exempt_passes _ _ _ _ _ _ identity HG Hfl He Hh Ha)
    as [H1 _].
  apply H1; [reflexivity|exact Hid].
Qed.

(** C1 (as amended).  On an exempt path: when credential location ends
    with [ErrEmptyPostFormToken] the request is let through, and with the
    default identity handler nothing is stored under the identity key;
    when it ends with any other error the request is refused with 401 and
    that error; when a token is located and fails verification the request
    is refused with 401 and the verification error, unless the message of
    that error is the one of [ErrEmptyPostFormToken]: the code compares
    messages, and such an error is passed over like the empty form
    field. *)
Theorem exempt_path_credential_location w g u :
  filtered mw (gin.Path (gin.request (ctx w))) = true ->
  HTTPStatusMessageFunc mw = Some g ->
  Unauthorized mw = Some u ->
  (forall tok a,
     locate mw (ctx w) (strings.Split (TokenLookup mw) ",") "" None
       = Ok (tok, Some ErrEmptyPostFormToken) ->
     IdentityHandler mw = Some (default_IdentityHandler (IdentityKey mw)) ->
     Authorizator mw = Some a ->
     middlewareImpl lib mw w = Ok (tt, passed_on mw ∅ VNil w) /\
     gin.next (ctx (passed_on mw ∅ VNil w)) = true /\
     (IdentityKey mw <> "JWT_PAYLOAD" ->
      gin.Keys (ctx (passed_on mw ∅ VNil w)) !! IdentityKey mw
      = gin.Keys (ctx w) !! IdentityKey mw)) /\
  (forall tok e,
     locate mw (ctx w) (strings.Split (TokenLookup mw) ",") "" None = Ok (tok, Some e) ->
     e <> ErrEmptyPostFormToken ->
     middlewareImpl lib mw w
     = Ok (tt, refused mw g u http.StatusUnauthorized e w)) /\
  (forall tok claims e w1,
     locate mw (ctx w) (strings.Split (TokenLookup mw) ",") "" None = Ok (tok, None) ->
     GetClaimsFromJWT lib mw w = Ok ((claims, Some e), w1) ->
     (Error e <> Error ErrEmptyPostFormToken ->
      middlewareImpl lib mw w
      = Ok (tt, refused mw g u http.StatusUnauthorized e w1)) /\
     (Error e = Error ErrEmptyPostFormToken ->
      forall a,
        IdentityHandler mw = Some (default_IdentityHandler (IdentityKey mw)) ->
        Authorizator mw = Some a ->
        middlewareImpl lib mw w = Ok (tt, passed_on mw ∅ VNil w1))).
Proof.
  intros Hfl Hg Hu. split; [|split].
  - intros tok a Hloc Hh Ha.
    pose proof (GetClaimsFromJWT_locate_err _ _ _ Hloc) as HG.
    destruct (middlewareImpl_exempt_passes _ _ _ _ _ _ VNil HG Hfl eq_refl Hh Ha)
      as [H1 _].
    split; [|split].
    + apply H1; [reflexivity|]. apply default_IdentityHandler_anonymous.
    + reflexivity.
    + intros Hne. cbn. rewrite lookup_insert_ne by congruence. reflexivity.
  - intros tok e Hloc Hne.
    pose proof (GetClaimsFromJWT_locate_err _ _ _ Hloc) as HG.
    apply (middlewareImpl_refuses _ _ _ _ _ _ HG); [|exact Hg|exact Hu].
    destruct (String.eqb_spec (Error e) "form post token is empty") as [E|];
      [|reflexivity].
    exfalso. apply Hne, locator_error_message; [|exact E].
    apply locate_err in Hloc as [|]; [discriminate|assumption].
  - intros tok claims e w1 Hloc HG. split.
    + intros Hne. apply (middlewareImpl_refuses _ _ _ _ _ _ HG); [|exact Hg|exact Hu].
      destruct (String.eqb_spec (Error e) "form post token is empty") as [E|];
        [|reflexivity].
      contradiction.
    + intros He a Hh Ha.
      apply (middlewareImpl_tolerates _ _ _ _ _ _ _ HG He Hfl Hh Ha).
      apply default_IdentityHandler_anonymous.
Qed.

(** C2 (as amended).  When credential location fails with [e], the
    exemption list decides the outcome exactly when [e] is
    [ErrEmptyPostFormToken] (not exempt: 401; exempt: the request goes on
    and is let through); every other locator error is answered with 401
    and the error whatever the path.  A verification error is answered
    with 401 whatever the path when its message is not the one of
    [ErrEmptyPostFormToken]; when it is, the exemption list decides as for
    the locator error. *)
Theorem policy_gate_only_for_empty_postform w g u :
  HTTPStatusMessageFunc mw = Some g ->
  Unauthorized mw = Some u ->
  let flag := filtered mw (gin.Path (gin.request (ctx w))) in
  (forall tok e,
     locate mw (ctx w) (strings.Split (TokenLookup mw) ",") "" None = Ok (tok, Some e) ->
     (e = ErrEmptyPostFormToken ->
        (flag = false ->
         middlewareImpl lib mw w
         = Ok (tt, refused mw g u http.StatusUnauthorized e w)) /\
        (flag = true ->
         forall h a identity,
           IdentityHandler mw = Some h -> Authorizator mw = Some a ->
           h (gin.Set_ "JWT_PAYLOAD" (gin.AClaims ∅) (ctx w)) = Ok identity ->
           middlewareImpl lib mw w = Ok (tt, passed_on mw ∅ identity w))) /\
     (e <> ErrEmptyPostFormToken ->
        middlewareImpl lib mw w
        = Ok (tt, refused mw g u http.StatusUnauthorized e w))) /\
  (forall tok claims e w1,
     locate mw (ctx w) (strings.Split (TokenLookup mw) ",") "" None = Ok (tok, None) ->
     GetClaimsFromJWT lib mw w = Ok ((claims, Some e), w1) ->
     (Error e <> Error ErrEmptyPostFormToken ->
        middlewareImpl lib mw w
        = Ok (tt, refused mw g u http.StatusUnauthorized e w1)) /\
     (Error e = Error ErrEmptyPostFormToken ->
        (flag = false ->
         middlewareImpl lib mw w
         = Ok (tt, refused mw g u http.StatusUnauthorized e w1)) /\
        (flag = true ->
         forall h a identity,
           IdentityHandler mw = Some h -> Authorizator mw = Some a ->
           h (gin.Set_ "JWT_PAYLOAD" (gin.AClaims ∅) (ctx w1)) = Ok identity ->
           middlewareImpl lib mw w = Ok (tt, passed_on mw ∅ identity w1)))).
Proof.
  intros Hg Hu flag. split.
  - intros tok e Hloc.
    pose proof (GetClaimsFromJWT_locate_err _ _ _ Hloc) as HG. split.
    + intros ->. split.
      * intros Hfl. apply (middlewareImpl_refuses _ _ _ _ _ _ HG); [|exact Hg|exact Hu].
        fold flag. rewrite Hfl. apply andb_false_r.
      * intros Hfl h a identity Hh Ha Hid.
        exact (middlewareImpl_tolerates _ _ _ _ _ _ _ HG eq_refl Hfl Hh Ha Hid).
    + intros Hne. apply (middlewareImpl_refuses _ _ _ _ _ _ HG); [|exact Hg|exact Hu].
      destruct (String.eqb_spec (Error e) "form post token is empty") as [E|];
        [|reflexivity].
      exfalso. apply Hne, locator_error_message; [|exact E].
      apply locate_err in Hloc as [|]; [discriminate|assumption].
  - intros tok claims e w1 Hloc HG. split; [|intros He; split].
    + intros Hne. apply (middlewareImpl_refuses _ _ _ _ _ _ HG); [|exact Hg|exact Hu].
      destruct (String.eqb_spec (Error e) "form post token is empty") as [E|];
        [|reflexivity].
      contradiction.
    + intros Hfl. apply (middlewareImpl_refuses _ _ _ _ _ _ HG); [|exact Hg|exact Hu].
      fold flag. rewrite Hfl. apply andb_false_r.
    + intros Hfl h a identity Hh Ha Hid.
      exact (middlewareImpl_tolerates _ _ _ _ _ _ _ HG He Hfl Hh Ha Hid).
Qed.

(** C3 (as amended).  On an exempt path, for a credential that verifies:
    a [float64] [exp] whose [int64] value is below the Unix second of the
    clock is refused with 401 and [ErrExpiredToken]; an [exp] in the
    current second or later, a missing [exp] and the answer of the
    [Authorizator] are all passed: the request is let through with the
    claims and the identity published. *)
Theorem exempt_path_verified_credential w w1 claims h a g u :
  GetClaimsFromJWT lib mw w = Ok ((claims, None), w1) ->
  filtered mw (gin.Path (gin.request (ctx w1))) = true ->
  IdentityHandler mw = Some h ->
  Authorizator mw = Some a ->
  HTTPStatusMessageFunc mw = Some g ->
  Unauthorized mw = Some u ->
  (forall f clock,
     index claims "exp" = VFloat f -> TimeFunc mw = Some clock ->
     int64_of_float64 f < time.Unix (clock (ticks w1)) ->
     middlewareImpl lib mw w
     = Ok (tt, refused mw g u http.StatusUnauthorized ErrExpiredToken (tick w1))) /\
  (forall identity,
     index claims "exp" = VNil ->
     h (gin.Set_ "JWT_PAYLOAD" (gin.AClaims claims) (ctx w1)) = Ok identity ->
     middlewareImpl lib mw w = Ok (tt, passed_on mw claims identity w1)) /\
  (forall f clock identity,
     index claims "exp" = VFloat f -> TimeFunc mw = Some clock ->
     time.Unix (clock (ticks w1)) <= int64_of_float64 f ->
     h (gin.Set_ "JWT_PAYLOAD" (gin.AClaims claims) (ctx w1)) = Ok identity ->
     middlewareImpl lib mw w = Ok (tt, passed_on mw claims identity (tick w1))).
Proof.
  intros H Hfl Hh Ha Hg Hu. split; [|split].
  - intros f clock Hexp Hc Hlt.
    rewrite (middlewareImpl_expired _ _ _ _ _ _ H Hfl I Hexp Hc Hlt).
    now apply reject_refused.
  - intros identity Hexp Hid.
    destruct (middlewareImpl_exempt_passes _ _ _ _ _ _ identity H Hfl I Hh Ha) as [H1 _].
    auto.
  - intros f clock identity Hexp Hc Hle Hid.
    destruct (middlewareImpl_exempt_passes _ _ _ _ _ _ identity H Hfl I Hh Ha) as [_ H2].
    eauto.
Qed.

(** ** Refresh *)

Lemma CheckIfTokenExpire_abort w tok e w1 :
  ParseToken lib mw w = Ok ((tok, Some e), w1) ->
  only_expired e = false ->
  CheckIfTokenExpire lib mw w = Ok ((None, Some e), w1).
Proof.
  intros HP He. unfold CheckIfTokenExpire. rewrite (bind_Ok _ _ _ _ _ HP).
  cbn beta iota. rewrite He. reflexivity.
Qed.

Lemma CheckIfTokenExpire_tolerated w t err w1 m :
  ParseToken lib mw w = Ok ((Some t, err), w1) ->
  tolerated err = true ->
  heap w1 !! jwt.Claims t = Some m ->
  CheckIfTokenExpire lib mw w =
  match index m "orig_iat" with
  | VFloat f =>
      (t0 ← now mw;
       if (int64_of_float64 f <? time.Unix (time.Add t0 (- MaxRefresh mw)))%Z
       then mret (None, Some ErrExpiredToken)
       else mret (Some (jwt.Claims t), None)) w1
  | _ => Panicked "interface conversion: interface {} is not float64"
  end.
Proof.
  intros HP Htol Hm. unfold CheckIfTokenExpire. rewrite (bind_Ok _ _ _ _ _ HP).
  cbn beta iota.
  assert (E : match err with
              | Some e => if negb (only_expired e) then Some e else None
              | None => None
              end = None).
  { destruct err as [e|]; [|reflexivity]. cbn in Htol. now rewrite Htol. }
  rewrite E. rewrite (bind_Ok _ _ _ _ _ (claims_at_eq _ _ _ Hm)).
  destruct (index m "orig_iat"); reflexivity.
Qed.

Lemma CheckIfTokenExpire_window w t err w1 m f clock :
  ParseToken lib mw w = Ok ((Some t, err), w1) ->
  tolerated err = true ->
  heap w1 !! jwt.Claims t = Some m ->
  index m "orig_iat" = VFloat f ->
  TimeFunc mw = Some clock ->
  CheckIfTokenExpire lib mw w =
  Ok (if (int64_of_float64 f
          <? time.Unix (time.Add (clock (ticks w1)) (- MaxRefresh mw)))%Z
      then (None, Some ErrExpiredToken) else (Some (jwt.Claims t), None), tick w1).
Proof.
  intros HP Htol Hm Hf Hc.
  rewrite (CheckIfTokenExpire_tolerated _ _ _ _ _ HP Htol Hm), Hf.
  unfold now. rewrite Hc. run. destruct (_ <? _)%Z; reflexivity.
Qed.

Lemma CheckIfTokenExpire_inv w claims w2 :
  CheckIfTokenExpire lib mw w = Ok ((claims, None), w2) ->
  exists t err w1 m f clock,
    ParseToken lib mw w = Ok ((Some t, err), w1) /\
    tolerated err = true /\
    heap w1 !! jwt.Claims t = Some m /\
    index m "orig_iat" = VFloat f /\
    TimeFunc mw = Some clock /\
    (int64_of_float64 f
     <? time.Unix (time.Add (clock (ticks w1)) (- MaxRefresh mw)))%Z = false /\
    claims = Some (jwt.Claims t) /\ w2 = tick w1.
Proof.
  intros H.
  destruct (ParseToken lib mw w) as [[[tok err] w1]|r] eqn:HP; cycle 1.
  { unfold CheckIfTokenExpire in H. rewrite (bind_Panicked _ _ _ _ HP) in H.
    discriminate. }
  destruct (tolerated err) eqn:Htol; cycle 1.
  { destruct err as [e|]; [|discriminate]. cbn in Htol.
    rewrite (CheckIfTokenExpire_abort _ _ _ _ HP Htol) in H. discriminate. }
  destruct tok as [t|]; cycle 1.
  { unfold CheckIfTokenExpire in H. rewrite (bind_Ok _ _ _ _ _ HP) in H.
    cbn beta iota in H.
    destruct err as [e|]; cbn in Htol; [rewrite Htol in H|]; discriminate. }
  destruct (heap w1 !! jwt.Claims t) as [m|] eqn:Hm; cycle 1.
  { unfold CheckIfTokenExpire in H. rewrite (bind_Ok _ _ _ _ _ HP) in H.
    cbn beta iota in H. unfold claims_at in H.
    destruct err as [e|]; cbn in Htol; [rewrite Htol in H|];
      cbn [negb] in H; rewrite bind_eq, Hm in H; discriminate. }
  rewrite (CheckIfTokenExpire_tolerated _ _ _ _ _ HP Htol Hm) in H.
  destruct (index m "orig_iat") as [|f| | |] eqn:Hf; try discriminate.
  unfold now in H. destruct (TimeFunc mw) as [clock|] eqn:Hc; [|discriminate].
  revert H. run. destruct (_ <? _)%Z eqn:Hwin; [discriminate|].
  intros [= <- <-]. exists t, err, w1, m, f, clock. repeat split; auto.
Qed.

Lemma RefreshToken_abort w claims e w2 :
  CheckIfTokenExpire lib mw w = Ok ((claims, Some e), w2) ->
  RefreshToken lib mw w = Ok (("", time_Now lib (ticks w2), Some e), tick w2).
Proof.
  intros HC. unfold RefreshToken. rewrite (bind_Ok _ _ _ _ _ HC). reflexivity.
Qed.

(** A refresh inside the window, up to the signature: the new claim map
    is allocated at a new location, filled from the old one and stamped. *)
Lemma RefreshToken_signed w t err w1 m f clock method :
  ParseToken lib mw w = Ok ((Some t, err), w1) ->
  tolerated err = true ->
  heap w1 !! jwt.Claims t = Some m ->
  index m "orig_iat" = VFloat f ->
  TimeFunc mw = Some clock ->
  (int64_of_float64 f
   <? time.Unix (time.Add (clock (ticks w1)) (- MaxRefresh mw)))%Z = false ->
  GetSigningMethod lib (SigningAlgorithm mw) = Some method ->
  let n := ticks w1 in
  let expire := time.Add (clock (S n)) (Timeout mw) in
  let m' := refreshed m (time.Unix expire) (time.Unix (clock (S (S n)))) in
  let w3 := {| ctx := ctx w1; heap := <[fresh (dom (heap w1)) := m']> (heap w1);
               ticks := S (S (S n)) |} in
  RefreshToken lib mw w =
  match sign lib method m' (signing_key mw) with
  | inl tokenString =>
      (_ ← (if SendCookie mw then
              t1 ← now mw;
              let expireCookie := time.Add t1 (CookieMaxAge mw) in
              t2 ← read_clock (time_Now lib);
              send_cookie mw tokenString (time.Unix expireCookie - time.Unix t2)
            else mret tt);
       mret (tokenString, expire, None)) w3
  | inr e => Ok (("", time_Now lib (S (S (S n))), Some e), tick w3)
  end.
Proof.
  intros HP Htol Hm Hf Hc Hwin Hmeth n expire m' w3.
  unfold RefreshToken.
  rewrite (bind_Ok _ _ _ _ _ (CheckIfTokenExpire_window _ _ _ _ _ _ _ HP Htol Hm Hf Hc)).
  rewrite Hwin. cbn beta iota. rewrite Hmeth. unfold jwt_New. run.
  set (l' := fresh (dom (heap w1))).
  assert (Hfresh : heap w1 !! l' = None) by apply not_elem_of_dom, is_fresh.
  rewrite (copy_claims_eq _ _ _ m ∅); cycle 1.
  { cbn [jwt.Claims tick heap]. fold l'. congruence. }
  { cbn [jwt.Claims tick heap]. fold l'. rewrite lookup_insert_ne by congruence.
    exact Hm. }
  { cbn [jwt.Claims tick heap]. apply lookup_insert_eq. }
  cbn [jwt.Claims jwt.Method_ tick heap ctx ticks set_heap].
  unfold now. rewrite Hc. run.
  erewrite store_claim_eq by (cbn [heap]; apply lookup_insert_eq).
  cbn [set_heap heap ctx ticks]. run.
  erewrite store_claim_eq by (cbn [heap]; apply lookup_insert_eq).
  cbn [set_heap heap ctx ticks]. run.
  unfold signedString. run.
  erewrite claims_at_eq by (cbn [heap jwt.Claims]; apply lookup_insert_eq).
  cbn [jwt.Claims jwt.Method_ set_heap heap ctx ticks].
  rewrite (right_id_L ∅ (∪)), !insert_insert_eq.
  fold (signing_key mw). fold n. fold expire.
  change (<["orig_iat":=VInt (time.Unix (clock (S (S n))))]>
            (<["exp":=VInt (time.Unix expire)]> m)) with m'.
  destruct (sign lib method m' (signing_key mw)) as [s|e]; run; [|reflexivity].
  reflexivity.
Qed.

Lemma RefreshToken_in_window w t err w1 m f clock method s :
  ParseToken lib mw w = Ok ((Some t, err), w1) ->
  tolerated err = true ->
  heap w1 !! jwt.Claims t = Some m ->
  index m "orig_iat" = VFloat f ->
  TimeFunc mw = Some clock ->
  (int64_of_float64 f
   <? time.Unix (time.Add (clock (ticks w1)) (- MaxRefresh mw)))%Z = false ->
  GetSigningMethod lib (SigningAlgorithm mw) = Some method ->
  let n := ticks w1 in
  let expire := time.Add (clock (S n)) (Timeout mw) in
  let m' := refreshed m (time.Unix expire) (time.Unix (clock (S (S n)))) in
  sign lib method m' (signing_key mw) = inl s ->
  exists w', RefreshToken lib mw w = Ok ((s, expire, None), w')
             /\ heap w' = <[fresh (dom (heap w1)) := m']> (heap w1).
Proof.
  intros HP Htol Hm Hf Hc Hwin Hmeth n expire m' Hsign.
  rewrite (RefreshToken_signed _ _ _ _ _ _ _ _ HP Htol Hm Hf Hc Hwin Hmeth).
  fold n expire m'. rewrite Hsign. unfold now. rewrite Hc.
  destruct (SendCookie mw); run.
  - unfold send_cookie. destruct (negb _); run; eexists; split; reflexivity.
  - eexists; split; reflexivity.
Qed.

(** C4 (as amended).  For a presented token that verifies or is only
    expired, with a [float64] [orig_iat]: when [int64(orig_iat)] is not
    below the Unix seconds of [TimeFunc() - MaxRefresh] and signing
    succeeds, [RefreshToken] returns the signature of a claim map whose
    [exp] is the Unix seconds of [TimeFunc() + Timeout] and whose
    [orig_iat] is the Unix seconds of [TimeFunc()]; when it is below, it
    returns [ErrExpiredToken].  [int64(orig_iat)] is the conversion of
    the language: an [orig_iat] beyond the range of [int64] converts to
    the smallest [int64] and is refused.  For a clock reading and a
    [MaxRefresh] of whole seconds, "below" is exactly
    [now - int64(orig_iat) > MaxRefresh]. *)
Theorem RefreshToken_window w t err w1 m f clock :
  ParseToken lib mw w = Ok ((Some t, err), w1) ->
  tolerated err = true ->
  heap w1 !! jwt.Claims t = Some m ->
  index m "orig_iat" = VFloat f ->
  TimeFunc mw = Some clock ->
  let n := ticks w1 in
  let origIat := int64_of_float64 f in
  let limit := time.Unix (time.Add (clock n) (- MaxRefresh mw)) in
  (limit <= origIat ->
   forall method s,
     let expire := time.Add (clock (S n)) (Timeout mw) in
     let m' := refreshed m (time.Unix expire) (time.Unix (clock (S (S n)))) in
     GetSigningMethod lib (SigningAlgorithm mw) = Some method ->
     sign lib method m' (signing_key mw) = inl s ->
     exists w', RefreshToken lib mw w = Ok ((s, expire, None), w') /\
                heap w' = <[fresh (dom (heap w1)) := m']> (heap w1) /\
                m' !! "exp" = Some (VInt (time.Unix expire)) /\
                m' !! "orig_iat" = Some (VInt (time.Unix (clock (S (S n)))))) /\
  (origIat < limit ->
   RefreshToken lib mw w =
   Ok (("", time_Now lib (S n), Some ErrExpiredToken), tick (tick w1))) /\
  (forall now maxRefresh : Z,
     clock n = now * time.Second -> MaxRefresh mw = maxRefresh * time.Second ->
     (origIat < limit <-> now - origIat > maxRefresh)).
Proof.
  intros HP Htol Hm Hf Hc n origIat limit. split; [|split].
  - intros Hwin method s expire m' Hmeth Hsign.
    assert (Hw : (origIat <? limit)%Z = false) by (apply Z.ltb_ge; exact Hwin).
    destruct (RefreshToken_in_window _ _ _ _ _ _ _ _ _ HP Htol Hm Hf Hc Hw Hmeth Hsign)
      as (w' & HR & Hheap).
    exists w'. repeat split; auto.
    + unfold m', refreshed. rewrite lookup_insert_ne by discriminate.
      apply lookup_insert_eq.
    + unfold m', refreshed. apply lookup_insert_eq.
  - intros Hout.
    assert (Hw : (origIat <? limit)%Z = true) by (apply Z.ltb_lt; exact Hout).
    pose proof (CheckIfTokenExpire_window _ _ _ _ _ _ _ HP Htol Hm Hf Hc) as HC.
    fold n origIat limit in HC. rewrite Hw in HC.
    rewrite (RefreshToken_abort _ _ _ _ HC). reflexivity.
  - intros now maxRefresh Hnow Hmax. unfold limit, time.Add.
    rewrite Hnow, Hmax.
    replace (now * time.Second + - (maxRefresh * time.Second))
      with ((now - maxRefresh) * time.Second) by ring.
    rewrite Unix_whole_seconds. lia.
Qed.

(** C5.  When [ParseToken] fails with [e]: unless [e] is a
    [ValidationError] whose [Errors] are exactly [ValidationErrorExpired],
    [CheckIfTokenExpire] and [RefreshToken] return [e]; if it is, the
    token is treated as a verified one and only the refresh window
    decides. *)
Theorem CheckIfTokenExpire_tolerates_only_expired w tok e w1 :
  ParseToken lib mw w = Ok ((tok, Some e), w1) ->
  ((forall inner text, e <> ValidationError inner jwt.ValidationErrorExpired text) ->
     CheckIfTokenExpire lib mw w = Ok ((None, Some e), w1) /\
     RefreshToken lib mw w = Ok (("", time_Now lib (ticks w1), Some e), tick w1)) /\
  (forall inner text t m f clock,
     e = ValidationError inner jwt.ValidationErrorExpired text ->
     tok = Some t ->
     heap w1 !! jwt.Claims t = Some m ->
     index m "orig_iat" = VFloat f ->
     TimeFunc mw = Some clock ->
     CheckIfTokenExpire lib mw w =
     Ok (if (int64_of_float64 f
             <? time.Unix (time.Add (clock (ticks w1)) (- MaxRefresh mw)))%Z
         then (None, Some ErrExpiredToken) else (Some (jwt.Claims t), None), tick w1)).
Proof.
  intros HP. split.
  - intros Hne.
    assert (He : only_expired e = false).
    { destruct e as [|inner errs text]; [reflexivity|]. cbn.
      apply Z.eqb_neq. intros ->. now apply (Hne inner text). }
    pose proof (CheckIfTokenExpire_abort _ _ _ _ HP He) as HC.
    split; [exact HC|]. apply (RefreshToken_abort _ _ _ _ HC).
  - intros inner text t m f clock -> -> Hm Hf Hc.
    eapply CheckIfTokenExpire_window; eauto.
Qed.

(** C6.  After a successful [RefreshToken] the heap is the one
    [ParseToken] left plus one new claim map: it has every claim of the
    presented token with its value, except [exp] and [orig_iat], which
    hold the Unix seconds of the returned expiry and of the clock, and it
    is what the returned token signs; the claim map of the presented token
    is as it was. *)
Theorem RefreshToken_frame w s expire w' :
  RefreshToken lib mw w = Ok ((s, expire, None), w') ->
  exists t err w1 m l' m' clock method,
    ParseToken lib mw w = Ok ((Some t, err), w1) /\
    heap w1 !! jwt.Claims t = Some m /\
    heap w1 !! l' = None /\
    heap w' = <[l' := m']> (heap w1) /\
    (forall key, key <> "exp" -> key <> "orig_iat" -> m' !! key = m !! key) /\
    TimeFunc mw = Some clock /\
    expire = time.Add (clock (S (ticks w1))) (Timeout mw) /\
    m' !! "exp" = Some (VInt (time.Unix expire)) /\
    m' !! "orig_iat" = Some (VInt (time.Unix (clock (S (S (ticks w1)))))) /\
    heap w' !! jwt.Claims t = Some m /\
    sign lib method m' (signing_key mw) = inl s.
Proof.
  intros H.
  destruct (CheckIfTokenExpire lib mw w) as [[[claims [e|]] w2]|r] eqn:HC.
  - rewrite (RefreshToken_abort _ _ _ _ HC) in H. discriminate.
  - destruct (CheckIfTokenExpire_inv _ _ _ HC)
      as (t & err & w1 & m & f & clock & HP & Htol & Hm & Hf & Hc & Hwin & -> & ->).
    destruct (GetSigningMethod lib (SigningAlgorithm mw)) as [method|] eqn:Hmeth;
      cycle 1.
    { unfold RefreshToken in H. rewrite (bind_Ok _ _ _ _ _ HC) in H.
      cbn beta iota in H. rewrite Hmeth in H. discriminate. }
    set (n := ticks w1).
    set (exp' := time.Add (clock (S n)) (Timeout mw)).
    set (m' := refreshed m (time.Unix exp') (time.Unix (clock (S (S n))))).
    set (l' := fresh (dom (heap w1))).
    assert (Hfresh : heap w1 !! l' = None) by apply not_elem_of_dom, is_fresh.
    destruct (sign lib method m' (signing_key mw)) as [s'|e] eqn:Hsign.
    + destruct (RefreshToken_in_window _ _ _ _ _ _ _ _ _
                  HP Htol Hm Hf Hc Hwin Hmeth Hsign) as (w'' & HR & Hheap).
      rewrite HR in H. injection H as <- He <-. subst expire.
      exists t, err, w1, m, l', m', clock, method. repeat split; auto.
      * intros key H1 H2. unfold m', refreshed.
        rewrite !lookup_insert_ne by congruence. reflexivity.
      * unfold m', refreshed. rewrite lookup_insert_ne by discriminate.
        apply lookup_insert_eq.
      * unfold m', refreshed. apply lookup_insert_eq.
      * fold l' m' in Hheap. rewrite Hheap, lookup_insert_ne by congruence. exact Hm.
    + exfalso.
      rewrite (RefreshToken_signed _ _ _ _ _ _ _ _ HP Htol Hm Hf Hc Hwin Hmeth) in H.
      fold n exp' m' in H. rewrite Hsign in H. discriminate.
  - unfold RefreshToken in H. rewrite (bind_Panicked _ _ _ _ HC) in H. discriminate.
Qed.

(** C10.  When the presented token verifies or is only expired and its
    claim map has no [float64] under [orig_iat], [CheckIfTokenExpire]
    panics on the type assertion, and so does [RefreshToken]: no error is
    returned. *)
Theorem CheckIfTokenExpire_panics_without_orig_iat w t err w1 m :
  ParseToken lib mw w = Ok ((Some t, err), w1) ->
  tolerated err = true ->
  heap w1 !! jwt.Claims t = Some m ->
  is_float64 (index m "orig_iat") = false ->
  (exists reason, CheckIfTokenExpire lib mw w = Panicked reason) /\
  (exists reason, RefreshToken lib mw w = Panicked reason).
Proof.
  intros HP Htol Hm Hf.
  assert (HC : CheckIfTokenExpire lib mw w
               = Panicked "interface conversion: interface {} is not float64").
  { rewrite (CheckIfTokenExpire_tolerated _ _ _ _ _ HP Htol Hm).
    destruct (index m "orig_iat"); try reflexivity. discriminate. }
  split; eexists; [exact HC|].
  unfold RefreshToken. rewrite (bind_Panicked _ _ _ _ HC). reflexivity.
Qed.

(** ** The signing algorithm *)

(** C7.  For a located token that decodes: without a [KeyFunc], a method
    in the header other than the configured one makes [ParseToken] fail
    with [ErrInvalidSigningAlgorithm] (inside the library's
    [ValidationError]), and the middleware answers 401 with its message;
    with a [KeyFunc], [ParseToken] is [jwt.Parse] with that callback alone,
    and a token it gives a verifying key for is accepted whatever the
    configured algorithm. *)
Theorem ParseToken_signing_algorithm w tok d :
  locate mw (ctx w) (strings.Split (TokenLookup mw) ",") "" None = Ok (tok, None) ->
  decode lib tok = inl d ->
  (KeyFunc mw = None ->
   GetSigningMethod lib (SigningAlgorithm mw) <> Some (jwt.dMethod d) ->
   exists t w',
     ParseToken lib mw w = Ok ((Some t, Some invalid_signing_algorithm), w') /\
     Error invalid_signing_algorithm = Error ErrInvalidSigningAlgorithm /\
     middlewareImpl lib mw w
     = reject mw http.StatusUnauthorized invalid_signing_algorithm w') /\
  (forall f,
     KeyFunc mw = Some f ->
     ParseToken lib mw w = jwt_Parse lib tok (customKeyFunc f) w /\
     forall key,
       f (jwt.dMethod d) (jwt.dClaims d) = inl key ->
       verify lib tok d key (time_Now lib (ticks w)) = None ->
       exists t w',
         ParseToken lib mw w = Ok ((Some t, None), w') /\
         jwt.Method_ t = jwt.dMethod d /\ jwt.Valid t = true).
Proof.
  intros Hloc Hdec. split.
  - intros Hkf Hne.
    assert (HP : exists t w',
               ParseToken lib mw w = Ok ((Some t, Some invalid_signing_algorithm), w')).
    { rewrite (ParseToken_located _ _ Hloc), Hkf. unfold jwt_Parse. rewrite Hdec. run.
      unfold keyFunc. cbn [jwt.Method_].
      rewrite bool_decide_eq_false_2 by exact Hne. run. eauto. }
    destruct HP as (t & w' & HP). exists t, w'. split; [exact HP|].
    split; [reflexivity|].
    apply (middlewareImpl_err _ _ ∅).
    + eapply GetClaimsFromJWT_err, HP.
    + reflexivity.
  - intros f Hkf. rewrite (ParseToken_located _ _ Hloc), Hkf. split; [reflexivity|].
    intros key Hf Hver. unfold jwt_Parse. rewrite Hdec. run.
    unfold customKeyFunc. run.
    erewrite claims_at_eq by (cbn [heap jwt.Claims]; apply lookup_insert_eq).
    cbn [jwt.Method_]. rewrite Hf. run. rewrite Hver. run. eauto.
Qed.

End Properties.

(** ** Initialisation *)

Section Initialisation.

Variable lib : Library.

Lemma readKeys_spec mw :
  Authenticator (fst (readKeys lib mw)) = Authenticator mw /\
  snd (readKeys lib mw) <> Some ErrMissingAuthenticatorFunc.
Proof.
  unfold readKeys.
  assert (Hpriv : Authenticator (fst (privateKey lib mw)) = Authenticator mw /\
                  snd (privateKey lib mw) <> Some ErrMissingAuthenticatorFunc).
  { unfold privateKey.
    destruct (if String.eqb (PrivKeyFile mw) "" then _ else _);
      [|split; [reflexivity|discriminate]].
    destruct (negb _);
      [destruct (ParseRSAPrivateKeyFromPEMWithPassword lib _ _)
      |destruct (ParseRSAPrivateKeyFromPEM lib _)];
      split; (reflexivity || discriminate). }
  assert (Hpub : forall mw',
             Authenticator (fst (publicKey lib mw')) = Authenticator mw' /\
             snd (publicKey lib mw') <> Some ErrMissingAuthenticatorFunc).
  { intros mw'. unfold publicKey.
    destruct (if String.eqb (PubKeyFile mw') "" then _ else _);
      [|split; [reflexivity|discriminate]].
    destruct (ParseRSAPublicKeyFromPEM lib _); split; (reflexivity || discriminate). }
  destruct (privateKey lib mw) as [mw' [e|]]; [exact Hpriv|].
  destruct (Hpub mw') as [H1 H2]. destruct Hpriv as [H3 _].
  split; [|exact H2]. rewrite H1. exact H3.
Qed.

(** C9 (as amended).  A missing secret (symmetric algorithm, no
    [KeyFunc]) makes [MiddlewareInit] and [New] fail with
    [ErrMissingSecretKey].  A missing [Authenticator] does not:
    initialisation leaves the field as it is and never reports
    [ErrMissingAuthenticatorFunc]; it is [LoginHandler] that answers a
    request with status 500 and that error. *)
Theorem MiddlewareInit_configuration_errors :
  (forall mw,
     KeyFunc mw = None -> usingPublicKeyAlgo (defaults lib mw) = false ->
     Key mw = None ->
     snd (MiddlewareInit lib mw) = Some ErrMissingSecretKey /\
     New lib mw = (None, Some ErrMissingSecretKey)) /\
  (forall mw,
     Authenticator (fst (MiddlewareInit lib mw)) = Authenticator mw /\
     snd (MiddlewareInit lib mw) <> Some ErrMissingAuthenticatorFunc) /\
  (forall mw w,
     Authenticator mw = None ->
     LoginHandler lib mw w
     = reject mw http.StatusInternalServerError ErrMissingAuthenticatorFunc w).
Proof.
  split; [|split].
  - intros mw Hkf Halg Hkey. unfold New, MiddlewareInit.
    cbn [defaults KeyFunc Key]. rewrite Hkf, Halg, Hkey. split; reflexivity.
  - intros mw. unfold MiddlewareInit.
    destruct (KeyFunc (defaults lib mw)); [split; [reflexivity|discriminate]|].
    destruct (usingPublicKeyAlgo (defaults lib mw)).
    + apply (readKeys_spec (defaults lib mw)).
    + destruct (Key (defaults lib mw)); split; (reflexivity || discriminate).
  - intros mw w H. unfold LoginHandler. rewrite H. reflexivity.
Qed.

End Initialisation.

(** * The properties on concrete requests *)

(** ** Requests without a credential *)

Lemma exempt_path_credential_location_witness :
  let w := Fixtures.start (Fixtures.request "/douyin/test" "") in
  let w' := Fixtures.start (Fixtures.request "/douyin/test" "Bearer abc") in
  let w'' := Fixtures.start (Fixtures.request "/douyin/test" "Bearer fresh") in
  let w1 := Cases.unverified (Fixtures.request "/douyin/test" "Bearer fresh")
              Fixtures.claims_fresh in
  (filtered Fixtures.mw_form (gin.Path (gin.request (ctx w))) = true /\
   locate Fixtures.mw_form (ctx w) (strings.Split (TokenLookup Fixtures.mw_form) ",") "" None
   = Ok ("", Some ErrEmptyPostFormToken) /\
   middlewareImpl Fixtures.lib Fixtures.mw_form w
   = Ok (tt, passed_on Fixtures.mw_form ∅ VNil w)) /\
  (GetClaimsFromJWT Fixtures.lib Fixtures.mw_form w' = Ok ((∅, Some Fixtures.malformed), w') /\
   middlewareImpl Fixtures.lib Fixtures.mw_form w'
   = Ok (tt, refused Fixtures.mw_form default_HTTPStatusMessageFunc default_Unauthorized
               http.StatusUnauthorized Fixtures.malformed w') /\
   Fixtures.observe (middlewareImpl Fixtures.lib Fixtures.mw_form w')
   = Some (false, true,
           [(401, [("code", VInt 401);
                   ("message",
                    VString "token contains an invalid number of segments")])])) /\
  (GetClaimsFromJWT Fixtures.lib Cases.mw_keyfunc_refusing w''
   = Ok ((∅, Some Cases.refusal), w1) /\
   Error Cases.refusal = Error ErrEmptyPostFormToken /\
   middlewareImpl Fixtures.lib Cases.mw_keyfunc_refusing w''
   = Ok (tt, passed_on Cases.mw_keyfunc_refusing ∅ VNil w1)).
Proof.
  intros w w' w'' w1.
  assert (Hfl : filtered Fixtures.mw_form (gin.Path (gin.request (ctx w))) = true)
    by (vm_compute; reflexivity).
  assert (Hloc : locate Fixtures.mw_form (ctx w)
                   (strings.Split (TokenLookup Fixtures.mw_form) ",") "" None
                 = Ok ("", Some ErrEmptyPostFormToken))
    by (vm_compute; reflexivity).
  assert (Hfl' : filtered Fixtures.mw_form (gin.Path (gin.request (ctx w'))) = true)
    by (vm_compute; reflexivity).
  assert (Hloc' : locate Fixtures.mw_form (ctx w')
                    (strings.Split (TokenLookup Fixtures.mw_form) ",") "" None
                  = Ok ("abc", None))
    by (vm_compute; reflexivity).
  assert (HG' : GetClaimsFromJWT Fixtures.lib Fixtures.mw_form w'
                = Ok ((∅, Some Fixtures.malformed), w'))
    by (vm_compute; reflexivity).
  assert (Hfl'' : filtered Cases.mw_keyfunc_refusing (gin.Path (gin.request (ctx w'')))
                  = true)
    by (vm_compute; reflexivity).
  assert (Hloc'' : locate Cases.mw_keyfunc_refusing (ctx w'')
                     (strings.Split (TokenLookup Cases.mw_keyfunc_refusing) ",") "" None
                   = Ok ("fresh", None))
    by (vm_compute; reflexivity).
  assert (HG'' : GetClaimsFromJWT Fixtures.lib Cases.mw_keyfunc_refusing w''
                 = Ok ((∅, Some Cases.refusal), w1))
    by (vm_compute; reflexivity).
  split; [|split].
  - split; [exact Hfl|]. split; [exact Hloc|].
    destruct (exempt_path_credential_location Fixtures.lib Fixtures.mw_form w
                default_HTTPStatusMessageFunc default_Unauthorized Hfl eq_refl eq_refl)
      as [H _].
    destruct (H "" default_Authorizator Hloc eq_refl eq_refl) as [H1 _]. exact H1.
  - split; [exact HG'|]. split; [|vm_compute; reflexivity].
    destruct (exempt_path_credential_location Fixtures.lib Fixtures.mw_form w'
                default_HTTPStatusMessageFunc default_Unauthorized Hfl' eq_refl eq_refl)
      as (_ & _ & H).
    destruct (H "abc" ∅ Fixtures.malformed w' Hloc' HG') as [H1 _].
    apply H1. discriminate.
  - split; [exact HG''|]. split; [reflexivity|].
    destruct (exempt_path_credential_location Fixtures.lib Cases.mw_keyfunc_refusing w''
                default_HTTPStatusMessageFunc default_Unauthorized Hfl'' eq_refl eq_refl)
      as (_ & _ & H).
    destruct (H "fresh" ∅ Cases.refusal w1 Hloc'' HG'') as [_ H2].
    exact (H2 eq_refl default_Authorizator eq_refl eq_refl).
Defined.

(** The default configuration reads the [Authorization] header only: a
    request for the exempt path that carries no credential at all is
    answered with 401. *)
Lemma exempt_path_empty_header_rejected :
  let w := Fixtures.start (Fixtures.request "/douyin/test" "") in
  TokenLookup Fixtures.mw_default = "header:Authorization" /\
  FilteredURL Fixtures.mw_default = "/douyin/test" /\
  gin.Header (gin.request (ctx w)) = ∅ /\
  filtered Fixtures.mw_default (gin.Path (gin.request (ctx w))) = true /\
  Fixtures.observe (middlewareImpl Fixtures.lib Fixtures.mw_default w)
  = Some (false, true,
          [(401, [("code", VInt 401); ("message", VString "auth header is empty")])]).
Proof. vm_compute. repeat split; reflexivity. Qed.

(** With the form field as the last source, a malformed header is
    forgotten when the form field is empty, and the request for the exempt
    path is let through. *)
Example exempt_path_malformed_header_then_empty_form :
  let w := Fixtures.start (Fixtures.request "/douyin/test" "Basic abc") in
  locate Fixtures.mw_form (ctx w) (strings.Split (TokenLookup Fixtures.mw_form) ",") "" None
  = Ok ("", Some ErrEmptyPostFormToken) /\
  Fixtures.observe (middlewareImpl Fixtures.lib Fixtures.mw_form w)
  = Some (true, false, []).
Proof. vm_compute. split; reflexivity. Qed.

Lemma policy_gate_only_for_empty_postform_witness :
  let w := Fixtures.start (Fixtures.request "/douyin/x" "") in
  let w' := Fixtures.start (Fixtures.request "/douyin/test" "Bearer abc") in
  (filtered Fixtures.mw_form (gin.Path (gin.request (ctx w))) = false /\
   locate Fixtures.mw_form (ctx w) (strings.Split (TokenLookup Fixtures.mw_form) ",") "" None
   = Ok ("", Some ErrEmptyPostFormToken) /\
   middlewareImpl Fixtures.lib Fixtures.mw_form w
   = Ok (tt, refused Fixtures.mw_form default_HTTPStatusMessageFunc default_Unauthorized
               http.StatusUnauthorized ErrEmptyPostFormToken w) /\
   Fixtures.observe (middlewareImpl Fixtures.lib Fixtures.mw_form w)
   = Some (false, true,
           [(401, [("code", VInt 401);
                   ("message", VString "form post token is empty")])])) /\
  (filtered Fixtures.mw_form (gin.Path (gin.request (ctx w'))) = true /\
   GetClaimsFromJWT Fixtures.lib Fixtures.mw_form w' = Ok ((∅, Some Fixtures.malformed), w') /\
   middlewareImpl Fixtures.lib Fixtures.mw_form w'
   = Ok (tt, refused Fixtures.mw_form default_HTTPStatusMessageFunc default_Unauthorized
               http.StatusUnauthorized Fixtures.malformed w') /\
   Fixtures.observe (middlewareImpl Fixtures.lib Fixtures.mw_form w')
   = Some (false, true,
           [(401, [("code", VInt 401);
                   ("message",
                    VString "token contains an invalid number of segments")])])).
Proof.
  intros w w'.
  assert (Hfl : filtered Fixtures.mw_form (gin.Path (gin.request (ctx w))) = false)
    by (vm_compute; reflexivity).
  assert (Hloc : locate Fixtures.mw_form (ctx w)
                   (strings.Split (TokenLookup Fixtures.mw_form) ",") "" None
                 = Ok ("", Some ErrEmptyPostFormToken))
    by (vm_compute; reflexivity).
  assert (Hfl' : filtered Fixtures.mw_form (gin.Path (gin.request (ctx w'))) = true)
    by (vm_compute; reflexivity).
  assert (Hloc' : locate Fixtures.mw_form (ctx w')
                    (strings.Split (TokenLookup Fixtures.mw_form) ",") "" None
                  = Ok ("abc", None))
    by (vm_compute; reflexivity).
  assert (HG' : GetClaimsFromJWT Fixtures.lib Fixtures.mw_form w'
                = Ok ((∅, Some Fixtures.malformed), w'))
    by (vm_compute; reflexivity).
  split.
  - split; [exact Hfl|]. split; [exact Hloc|]. split; [|vm_compute; reflexivity].
    destruct (policy_gate_only_for_empty_postform Fixtures.lib Fixtures.mw_form w
                default_HTTPStatusMessageFunc default_Unauthorized eq_refl eq_refl)
      as [H _].
    destruct (H "" ErrEmptyPostFormToken Hloc) as [H1 _].
    destruct (H1 eq_refl) as [H2 _]. exact (H2 Hfl).
  - split; [exact Hfl'|]. split; [exact HG'|]. split; [|vm_compute; reflexivity].
    destruct (policy_gate_only_for_empty_postform Fixtures.lib Fixtures.mw_form w'
                default_HTTPStatusMessageFunc default_Unauthorized eq_refl eq_refl)
      as [_ H].
    destruct (H "abc" ∅ Fixtures.malformed w' Hloc' HG') as [H1 _].
    apply H1. discriminate.
Defined.

(** A verification failure that is not rejected: the [KeyFunc] refuses
    the token with an error that reads like the one of the empty form
    field, and the request for the exempt path is let through, without
    claims and with nothing written. *)
Lemma exempt_path_keyfunc_error_passes :
  let w := Fixtures.start (Fixtures.request "/douyin/test" "Bearer fresh") in
  filtered Cases.mw_keyfunc_refusing (gin.Path (gin.request (ctx w))) = true /\
  locate Cases.mw_keyfunc_refusing (ctx w)
    (strings.Split (TokenLookup Cases.mw_keyfunc_refusing) ",") "" None
  = Ok ("fresh", None) /\
  Fixtures.returned (ParseToken Fixtures.lib Cases.mw_keyfunc_refusing w)
  = Some (Some (Fixtures.parsed_token false), Some Cases.refusal) /\
  Cases.refusal <> ErrEmptyPostFormToken /\
  Fixtures.observe (middlewareImpl Fixtures.lib Cases.mw_keyfunc_refusing w)
  = Some (true, false, []).
Proof. vm_compute. repeat split; try reflexivity. discriminate. Qed.

Example non_exempt_path_empty_form_rejected :
  Fixtures.observe
    (middlewareImpl Fixtures.lib Fixtures.mw_form
       (Fixtures.start (Fixtures.request "/douyin/x" "")))
  = Some (false, true,
          [(401, [("code", VInt 401); ("message", VString "form post token is empty")])]).
Proof. vm_compute. reflexivity. Qed.

(** ** Verified credentials on the exempt path *)

Lemma exempt_path_verified_credential_witness :
  let req := Fixtures.request "/douyin/test" "Bearer fresh" in
  let w := Fixtures.start req in
  let claims := Fixtures.claims_fresh in
  let w1 := Fixtures.parsed req "fresh" claims in
  (GetClaimsFromJWT Fixtures.lib Fixtures.mw_strict w = Ok ((claims, None), w1) /\
   filtered Fixtures.mw_strict (gin.Path (gin.request (ctx w1))) = true /\
   index claims "exp" = VFloat 20 /\
   middlewareImpl Fixtures.lib Fixtures.mw_strict w
   = Ok (tt, passed_on Fixtures.mw_strict claims (VString "alice") (tick w1))) /\
  (GetClaimsFromJWT Fixtures.lib_late Fixtures.mw_late w = Ok ((claims, None), w1) /\
   filtered Fixtures.mw_late (gin.Path (gin.request (ctx w1))) = true /\
   middlewareImpl Fixtures.lib_late Fixtures.mw_late w
   = Ok (tt, refused Fixtures.mw_late default_HTTPStatusMessageFunc default_Unauthorized
               http.StatusUnauthorized ErrExpiredToken (tick w1)) /\
   Fixtures.observe (middlewareImpl Fixtures.lib_late Fixtures.mw_late w)
   = Some (false, true,
           [(401, [("code", VInt 401); ("message", VString "token is expired")])])).
Proof.
  intros req w claims w1.
  assert (Hexp : index claims "exp" = VFloat 20) by (vm_compute; reflexivity).
  split.
  - assert (HG : GetClaimsFromJWT Fixtures.lib Fixtures.mw_strict w = Ok ((claims, None), w1))
      by (vm_compute; reflexivity).
    assert (Hfl : filtered Fixtures.mw_strict (gin.Path (gin.request (ctx w1))) = true)
      by (vm_compute; reflexivity).
    split; [exact HG|]. split; [exact Hfl|]. split; [exact Hexp|].
    destruct (exempt_path_verified_credential Fixtures.lib Fixtures.mw_strict w w1 claims
                (default_IdentityHandler "identity") (fun _ _ => false)
                default_HTTPStatusMessageFunc default_Unauthorized
                HG Hfl eq_refl eq_refl eq_refl eq_refl) as (_ & _ & H).
    apply (H 20%Q (time_Now Fixtures.lib) (VString "alice") Hexp eq_refl).
    + vm_compute. discriminate.
    + vm_compute. reflexivity.
  - assert (HG : GetClaimsFromJWT Fixtures.lib_late Fixtures.mw_late w
                 = Ok ((claims, None), w1))
      by (vm_compute; reflexivity).
    assert (Hfl : filtered Fixtures.mw_late (gin.Path (gin.request (ctx w1))) = true)
      by (vm_compute; reflexivity).
    split; [exact HG|]. split; [exact Hfl|]. split; [|vm_compute; reflexivity].
    destruct (exempt_path_verified_credential Fixtures.lib_late Fixtures.mw_late w w1 claims
                (default_IdentityHandler "identity") default_Authorizator
                default_HTTPStatusMessageFunc default_Unauthorized
                HG Hfl eq_refl eq_refl eq_refl eq_refl) as (H & _ & _).
    apply (H 20%Q (time_Now Fixtures.lib_late) Hexp eq_refl).
    vm_compute. reflexivity.
Defined.

(** The comparison is in whole seconds: at 20.5 s a token whose [exp] is
    20 is not yet expired. *)
Example exp_in_the_current_second_passes :
  let w := Fixtures.start (Fixtures.request "/douyin/test" "Bearer fresh") in
  index Fixtures.claims_fresh "exp" = VFloat 20 /\
  time_Now Cases.lib_half 1 = 20500000000 /\
  Fixtures.observe (middlewareImpl Cases.lib_half Cases.mw_half w) = Some (true, false, []).
Proof. vm_compute. repeat split; reflexivity. Qed.

Example exempt_path_expired_rejected :
  Fixtures.observe
    (middlewareImpl Fixtures.lib_late Fixtures.mw_late
       (Fixtures.start (Fixtures.request "/douyin/test" "Bearer fresh")))
  = Some (false, true,
          [(401, [("code", VInt 401); ("message", VString "token is expired")])]).
Proof. vm_compute. reflexivity. Qed.

(** On the exempt path a verified token without [exp] is let through, and so
    is a verified token whose identity the [Authorizator] rejects. *)
Lemma exempt_path_missing_exp_passes :
  filtered Fixtures.mw_default "/douyin/test" = true /\
  Fixtures.observe
    (middlewareImpl Fixtures.lib Fixtures.mw_default
       (Fixtures.start (Fixtures.request "/douyin/test" "Bearer noexp")))
  = Some (true, false, []) /\
  Fixtures.observe
    (middlewareImpl Fixtures.lib Fixtures.mw_strict
       (Fixtures.start (Fixtures.request "/douyin/test" "Bearer fresh")))
  = Some (true, false, []).
Proof. vm_compute. repeat split; reflexivity. Qed.

(** An [exp] that is not a number does not pass the validation of the
    token library, which reports it as expired: the request is refused
    with 401 on either path, before the tests the middleware itself makes
    of [exp]. *)
Example text_exp_fails_validation :
  Fixtures.observe
    (middlewareImpl Fixtures.lib Fixtures.mw_default
       (Fixtures.start (Fixtures.request "/douyin/x" "Bearer textexp")))
  = Some (false, true,
          [(401, [("code", VInt 401); ("message", VString "Token is expired")])]) /\
  Fixtures.observe
    (middlewareImpl Fixtures.lib Fixtures.mw_default
       (Fixtures.start (Fixtures.request "/douyin/test" "Bearer textexp")))
  = Some (false, true,
          [(401, [("code", VInt 401); ("message", VString "Token is expired")])]).
Proof. vm_compute. split; reflexivity. Qed.

Example non_exempt_path_missing_exp_rejected :
  Fixtures.observe
    (middlewareImpl Fixtures.lib Fixtures.mw_default
       (Fixtures.start (Fixtures.request "/douyin/x" "Bearer noexp")))
  = Some (false, true,
          [(400, [("code", VInt 400); ("message", VString "missing exp field")])]).
Proof. vm_compute. reflexivity. Qed.

Example non_exempt_path_forbidden :
  Fixtures.observe
    (middlewareImpl Fixtures.lib Fixtures.mw_strict
       (Fixtures.start (Fixtures.request "/douyin/x" "Bearer fresh")))
  = Some (false, true,
          [(403, [("code", VInt 403);
                  ("message",
                   VString "you don't have permission to access this resource")])]).
Proof. vm_compute. reflexivity. Qed.

(** ** Refresh *)

Lemma RefreshToken_window_witness :
  let req := Fixtures.request "/douyin/x" "Bearer old" in
  let w := Fixtures.start req in
  let w1 := Fixtures.parsed req "old" Fixtures.claims_old in
  ParseToken Fixtures.lib Fixtures.mw_refresh w
  = Ok ((Some (Fixtures.parsed_token false), Some Fixtures.expired), w1) /\
  index Fixtures.claims_old "orig_iat" = VFloat 8 /\
  exists w',
    RefreshToken Fixtures.lib Fixtures.mw_refresh w
    = Ok (("signed.HS256",
           time.Add (time_Now Fixtures.lib 2) (Timeout Fixtures.mw_refresh), None), w').
Proof.
  intros req w w1.
  assert (HP : ParseToken Fixtures.lib Fixtures.mw_refresh w
               = Ok ((Some (Fixtures.parsed_token false), Some Fixtures.expired), w1))
    by (vm_compute; reflexivity).
  assert (Hf : index Fixtures.claims_old "orig_iat" = VFloat 8)
    by (vm_compute; reflexivity).
  split; [exact HP|]. split; [exact Hf|].
  destruct (RefreshToken_window Fixtures.lib Fixtures.mw_refresh w
              (Fixtures.parsed_token false) (Some Fixtures.expired) w1
              Fixtures.claims_old 8%Q (time_Now Fixtures.lib)
              HP eq_refl eq_refl Hf eq_refl) as [H _].
  destruct (H ltac:(vm_compute; discriminate) (jwt.Method "HS256") "signed.HS256"
              eq_refl eq_refl) as (w' & HR & _).
  exists w'. exact HR.
Defined.

(** The clock stands at 10 s, the token was issued at 8 s and the
    window is 1.5 s: two seconds have passed, and the refresh succeeds. *)
Lemma refresh_beyond_window_succeeds :
  let w := Fixtures.start (Fixtures.request "/douyin/x" "Bearer old") in
  MaxRefresh Fixtures.mw_refresh = 1500000000 /\
  (forall n, time_Now Fixtures.lib n = 10 * time.Second) /\
  index Fixtures.claims_old "orig_iat" = VFloat 8 /\
  10 * time.Second - 8 * time.Second > MaxRefresh Fixtures.mw_refresh /\
  Fixtures.returned (RefreshToken Fixtures.lib Fixtures.mw_refresh w)
  = Some ("signed.HS256", 3610 * time.Second, None).
Proof. vm_compute. repeat split; reflexivity. Qed.

Example refresh_outside_window_fails :
  Fixtures.returned
    (RefreshToken Fixtures.lib Fixtures.mw_default
       (Fixtures.start (Fixtures.request "/douyin/x" "Bearer old")))
  = Some ("", 10 * time.Second, Some ErrExpiredToken).
Proof. vm_compute. reflexivity. Qed.

(** An [orig_iat] of [1e30] is beyond the range of [int64]: it converts to
    the smallest [int64], and the refresh is refused. *)
Example refresh_orig_iat_out_of_range :
  index Cases.claims_far "orig_iat" = VFloat (10 ^ 30 # 1) /\
  int64_of_float64 (10 ^ 30 # 1) = math.MinInt64 /\
  Fixtures.returned
    (RefreshToken Cases.lib_far Fixtures.mw_refresh
       (Fixtures.start (Fixtures.request "/douyin/x" "Bearer far")))
  = Some ("", 10 * time.Second, Some ErrExpiredToken).
Proof. vm_compute. repeat split; reflexivity. Qed.

(** With a [KeyFunc] the token verifies, and the new token cannot be
    made for an algorithm name the library does not know. *)
Example refresh_unknown_algorithm_panics :
  Fixtures.returned
    (CheckIfTokenExpire Fixtures.lib Fixtures.mw_unknown_alg
       (Fixtures.start (Fixtures.request "/douyin/x" "Bearer fresh")))
  = Some (Some 1%positive, None) /\
  Fixtures.returned
    (RefreshToken Fixtures.lib Fixtures.mw_unknown_alg
       (Fixtures.start (Fixtures.request "/douyin/x" "Bearer fresh")))
  = None.
Proof. vm_compute. split; reflexivity. Qed.

Lemma CheckIfTokenExpire_tolerates_only_expired_witness :
  let w := Fixtures.start (Fixtures.request "/douyin/x" "Bearer abc") in
  let req := Fixtures.request "/douyin/x" "Bearer old" in
  let w' := Fixtures.start req in
  let w1 := Fixtures.parsed req "old" Fixtures.claims_old in
  (ParseToken Fixtures.lib Fixtures.mw_refresh w = Ok ((None, Some Fixtures.malformed), w) /\
   CheckIfTokenExpire Fixtures.lib Fixtures.mw_refresh w
   = Ok ((None, Some Fixtures.malformed), w) /\
   RefreshToken Fixtures.lib Fixtures.mw_refresh w
   = Ok (("", time_Now Fixtures.lib (ticks w), Some Fixtures.malformed), tick w)) /\
  (ParseToken Fixtures.lib Fixtures.mw_refresh w'
   = Ok ((Some (Fixtures.parsed_token false), Some Fixtures.expired), w1) /\
   CheckIfTokenExpire Fixtures.lib Fixtures.mw_refresh w'
   = Ok ((Some 1%positive, None), tick w1)).
Proof.
  intros w req w' w1. split.
  - assert (HP : ParseToken Fixtures.lib Fixtures.mw_refresh w
                 = Ok ((None, Some Fixtures.malformed), w))
      by (vm_compute; reflexivity).
    split; [exact HP|].
    destruct (CheckIfTokenExpire_tolerates_only_expired _ _ _ _ _ _ HP) as [H _].
    apply H. intros inner text. discriminate.
  - assert (HP : ParseToken Fixtures.lib Fixtures.mw_refresh w'
                 = Ok ((Some (Fixtures.parsed_token false), Some Fixtures.expired), w1))
      by (vm_compute; reflexivity).
    split; [exact HP|].
    destruct (CheckIfTokenExpire_tolerates_only_expired _ _ _ _ _ _ HP) as [_ H].
    rewrite (H None "Token is expired" (Fixtures.parsed_token false) Fixtures.claims_old
               8%Q (time_Now Fixtures.lib) eq_refl eq_refl eq_refl
               ltac:(vm_compute; reflexivity) eq_refl).
    vm_compute. reflexivity.
Defined.

Lemma RefreshToken_frame_witness :
  let req := Fixtures.request "/douyin/x" "Bearer old" in
  let w := Fixtures.start req in
  let s := "signed.HS256" in
  let expire := 3610 * time.Second in
  let w' := {| ctx := ctx (Fixtures.parsed req "old" Fixtures.claims_old);
               heap := <[2%positive := refreshed Fixtures.claims_old 3610 10]>
                         {[1%positive := Fixtures.claims_old]};
               ticks := 4 |} in
  RefreshToken Fixtures.lib Fixtures.mw_refresh w = Ok ((s, expire, None), w') /\
  exists t err w1 m l' m' clock method,
    ParseToken Fixtures.lib Fixtures.mw_refresh w = Ok ((Some t, err), w1) /\
    heap w1 !! jwt.Claims t = Some m /\
    heap w1 !! l' = None /\
    heap w' = <[l' := m']> (heap w1) /\
    (forall key, key <> "exp" -> key <> "orig_iat" -> m' !! key = m !! key) /\
    TimeFunc Fixtures.mw_refresh = Some clock /\
    expire = time.Add (clock (S (ticks w1))) (Timeout Fixtures.mw_refresh) /\
    m' !! "exp" = Some (VInt (time.Unix expire)) /\
    m' !! "orig_iat" = Some (VInt (time.Unix (clock (S (S (ticks w1)))))) /\
    heap w' !! jwt.Claims t = Some m /\
    sign Fixtures.lib method m' (signing_key Fixtures.mw_refresh) = inl s.
Proof.
  intros req w s expire w'.
  assert (H : RefreshToken Fixtures.lib Fixtures.mw_refresh w = Ok ((s, expire, None), w'))
    by (vm_compute; reflexivity).
  split; [exact H|].
  exact (RefreshToken_frame Fixtures.lib Fixtures.mw_refresh w s expire w' H).
Defined.

Lemma CheckIfTokenExpire_panics_without_orig_iat_witness :
  let req := Fixtures.request "/douyin/x" "Bearer noiat" in
  let w := Fixtures.start req in
  let w1 := Fixtures.parsed req "noiat" Fixtures.claims_noiat in
  ParseToken Fixtures.lib Fixtures.mw_refresh w
  = Ok ((Some (Fixtures.parsed_token true), None), w1) /\
  index Fixtures.claims_noiat "orig_iat" = VNil /\
  (exists reason,
     CheckIfTokenExpire Fixtures.lib Fixtures.mw_refresh w = Panicked reason) /\
  (exists reason, RefreshToken Fixtures.lib Fixtures.mw_refresh w = Panicked reason).
Proof.
  intros req w w1.
  assert (HP : ParseToken Fixtures.lib Fixtures.mw_refresh w
               = Ok ((Some (Fixtures.parsed_token true), None), w1))
    by (vm_compute; reflexivity).
  split; [exact HP|]. split; [vm_compute; reflexivity|].
  exact (CheckIfTokenExpire_panics_without_orig_iat
           Fixtures.lib Fixtures.mw_refresh w (Fixtures.parsed_token true) None w1
           Fixtures.claims_noiat HP eq_refl eq_refl eq_refl).
Defined.

(** ** The signing algorithm *)

Lemma ParseToken_signing_algorithm_witness :
  let w := Fixtures.start (Fixtures.request "/douyin/x" "Bearer rsa") in
  SigningAlgorithm Fixtures.mw_default = "HS256" /\
  decode Fixtures.lib "rsa" = inl Fixtures.decoded_rsa /\
  jwt.dMethod Fixtures.decoded_rsa = jwt.Method "RS256" /\
  exists t w',
    ParseToken Fixtures.lib Fixtures.mw_default w
    = Ok ((Some t, Some invalid_signing_algorithm), w') /\
    Error invalid_signing_algorithm = Error ErrInvalidSigningAlgorithm /\
    middlewareImpl Fixtures.lib Fixtures.mw_default w
    = reject Fixtures.mw_default http.StatusUnauthorized invalid_signing_algorithm w'.
Proof.
  intros w. split; [reflexivity|].
  assert (Hdec : decode Fixtures.lib "rsa" = inl Fixtures.decoded_rsa)
    by (vm_compute; reflexivity).
  split; [exact Hdec|]. split; [reflexivity|].
  destruct (ParseToken_signing_algorithm Fixtures.lib Fixtures.mw_default w "rsa"
              Fixtures.decoded_rsa ltac:(vm_compute; reflexivity) Hdec) as [H _].
  apply (H eq_refl). vm_compute. discriminate.
Defined.

(** With a [KeyFunc] the algorithm of the token is not compared with the
    configured one: a token signed with HS384 passes a middleware
    configured for HS256 whose [KeyFunc] hands out the secret, and is
    refused without the [KeyFunc]. *)
Example keyfunc_accepts_other_algorithm :
  SigningAlgorithm Fixtures.mw_keyfunc = "HS256" /\
  SigningAlgorithm Fixtures.mw_default = "HS256" /\
  Fixtures.observe
    (middlewareImpl Fixtures.lib Fixtures.mw_keyfunc
       (Fixtures.start (Fixtures.request "/douyin/x" "Bearer hs384")))
  = Some (true, false, []) /\
  Fixtures.observe
    (middlewareImpl Fixtures.lib Fixtures.mw_default
       (Fixtures.start (Fixtures.request "/douyin/x" "Bearer hs384")))
  = Some (false, true,
          [(401, [("code", VInt 401); ("message", VString "invalid signing algorithm")])]).
Proof. vm_compute. repeat split; reflexivity. Qed.

(** ** Initialisation *)

(** A configuration with a secret and no [Authenticator] initialises. *)
Lemma init_without_authenticator_succeeds :
  let m := Fixtures.config "" Fixtures.secret None 0 "" None in
  Authenticator m = None /\
  snd (MiddlewareInit Fixtures.lib m) = None /\
  snd (New Fixtures.lib m) = None /\
  Fixtures.observe
    (LoginHandler Fixtures.lib (fst (MiddlewareInit Fixtures.lib m))
       (Fixtures.start (Fixtures.request "/login" "")))
  = Some (false, true,
          [(500, [("code", VInt 500);
                  ("message",
                   VString "ginJWTMiddleware.Authenticator func is undefined")])]).
Proof. vm_compute. repeat split; reflexivity. Qed.

Example init_without_secret_fails :
  New Fixtures.lib (Fixtures.config "" None None 0 "" None)
  = (None, Some ErrMissingSecretKey).
Proof. reflexivity. Qed.

(** * Further properties *)

(** ** Credential location, continued *)

Lemma Split_no_separator s sep :
  strings.Index s sep = None -> strings.Split s sep = [s].
Proof.
  intros H. unfold strings.Split. destruct s as [|a s]; [reflexivity|].
  cbn [String.length strings.genSplit]. rewrite H.
  now destruct (S (S (String.length s)) <=? 1)%nat.
Qed.

Section Locator.
Variable mw : GinJWTMiddleware.

Lemma locate_cons cx method rest token err :
  locate mw cx (method :: rest) token err =
  if (0 <? String.length token)%nat then Ok (token, err)
  else match strings.Split (strings.TrimSpace method) ":" with
       | p0 :: p1 :: _ =>
           let '(token', err') :=
             source mw cx (strings.TrimSpace p0) (strings.TrimSpace p1) token err in
           locate mw cx rest token' err'
       | _ => Panicked "index out of range [1] with length 1"
       end.
Proof. reflexivity. Qed.

Lemma locate_found cx methods token err :
  token <> "" -> locate mw cx methods token err = Ok (token, err).
Proof.
  intros H. destruct methods as [|m ms]; [reflexivity|].
  rewrite locate_cons. destruct token; [contradiction|reflexivity].
Qed.

(** X1.  Credential location over a lookup list that is the concatenation
    of two lists is location over the first list followed by location over
    the second, from the token and the error the first one ended with; a
    panic in the first part is the panic of the whole. *)
Theorem locate_app cx ms1 ms2 token err :
  locate mw cx (ms1 ++ ms2) token err =
  match locate mw cx ms1 token err with
  | Ok (token', err') => locate mw cx ms2 token' err'
  | Panicked r => Panicked r
  end.
Proof.
  revert token err. induction ms1 as [|m ms1 IH]; intros token err; [reflexivity|].
  cbn [app]. rewrite !locate_cons.
  destruct (0 <? String.length token)%nat eqn:Hlen.
  - symmetry. apply locate_found. intros ->. discriminate.
  - destruct (strings.Split _ ":") as [|p0 [|p1 ps]]; try reflexivity.
    destruct (source _ _ _ _ _) as [t' e']. apply IH.
Qed.

Lemma source_invariant cx k v token err token' err' e :
  source mw cx k v token err = (token', err') ->
  (err = None \/ token = "") -> err' = Some e -> token' = "".
Proof.
  unfold source, jwtFromQuery, jwtFromCookie, jwtFromParam, jwtFromPostForm.
  intros H Hinv ->.
  repeat match type of H with
         | (if ?b then _ else _) = _ => destruct b
         end; try (injection H as <- ?; reflexivity || discriminate).
  - apply jwtFromHeader_err in H. tauto.
  - injection H as <- ->. destruct Hinv; [discriminate|assumption].
Qed.

(** X2.  When credential location ends with an error, the token it ends with
    is empty: the early return of [ParseToken] never drops a token that
    was found. *)
Theorem locate_error_empty_token cx methods tok e :
  locate mw cx methods "" None = Ok (tok, Some e) -> tok = "".
Proof.
  assert (G : forall token err,
             (err = None \/ token = "") ->
             locate mw cx methods token err = Ok (tok, Some e) -> tok = "").
  { induction methods as [|m ms IH]; intros token err Hinv.
    - cbn. intros [= <- ->]. destruct Hinv; [discriminate|assumption].
    - rewrite locate_cons. destruct (0 <? String.length token)%nat eqn:Hlen.
      + intros [= <- ->]. destruct Hinv as [Hn | Hn]; [discriminate|subst; discriminate].
      + destruct (strings.Split _ ":") as [|p0 [|p1 ps]]; try discriminate.
        destruct (source _ _ _ _ _) as [t' e'] eqn:Hs. apply IH.
        destruct e' as [e0|]; [right|now left].
        eapply source_invariant; eauto. }
  apply G. now left.
Qed.

(** X3.  A lookup entry without a colon makes the handler panic with an
    index out of range, but only when it is reached with no token found so
    far: the entries after a source that gave a token are not looked at. *)
Theorem locate_entry_without_colon cx ms bad rest :
  strings.Index (strings.TrimSpace bad) ":" = None ->
  locate mw cx (ms ++ bad :: rest) "" None =
  match locate mw cx ms "" None with
  | Ok ("", _) => Panicked "index out of range [1] with length 1"
  | Ok (tok, err) => Ok (tok, err)
  | Panicked r => Panicked r
  end.
Proof.
  intros H.
  cut (forall token err,
         locate mw cx (ms ++ bad :: rest) token err =
         match locate mw cx ms token err with
         | Ok ("", _) => Panicked "index out of range [1] with length 1"
         | Ok (tok, e) => Ok (tok, e)
         | Panicked r => Panicked r
         end).
  { intros G. apply G. }
  induction ms as [|m ms IH]; intros token err; cbn [app]; rewrite locate_cons.
  - cbn [locate]. destruct token as [|a token]; [|reflexivity].
    cbn [String.length Nat.ltb Nat.leb]. now rewrite (Split_no_separator _ _ H).
  - rewrite locate_cons. destruct token as [|a token]; [|reflexivity].
    cbn [String.length Nat.ltb Nat.leb].
    destruct (strings.Split _ ":") as [|p0 [|p1 ps]]; try reflexivity.
    destruct (source _ _ _ _ _ _) as [t' e']. apply IH.
Qed.

End Locator.

(** ** Parsing *)

Lemma jwtFromHeader_head_token mw cx key tok :
  (forall a b, TokenHeadName mw <> a ++ " " ++ b) ->
  gin.get (gin.Header (gin.request cx)) key = TokenHeadName mw ++ " " ++ tok ->
  jwtFromHeader mw cx key = (tok, None).
Proof.
  intros Hhead Hh. unfold jwtFromHeader. rewrite Hh.
  set (h := TokenHeadName mw ++ " " ++ tok).
  assert (Hcut : cut_at_first_space h (TokenHeadName mw) tok) by (split; auto).
  destruct (String.eqb_spec h "") as [E|_].
  { exfalso. unfold h in E. destruct (TokenHeadName mw); discriminate E. }
  rewrite SplitN_space_2. pose proof (Index_space_spec h) as Hs.
  destruct (strings.Index h " ") as [i|].
  - destruct (cut_at_first_space_unique _ _ _ _ _ Hs Hcut) as [-> ->].
    now rewrite String.eqb_refl.
  - exfalso. exact (Hs _ _ eq_refl).
Qed.

(** X4.  With a [TokenHeadName] that contains a space, [jwtFromHeader]
    accepts no header at all: the head is compared with the part before
    the first space of the header value. *)
Theorem jwtFromHeader_head_with_space mw cx key a b :
  TokenHeadName mw = a ++ " " ++ b ->
  exists e, jwtFromHeader mw cx key = ("", Some e) /\
            (e = ErrEmptyAuthHeader \/ e = ErrInvalidAuthHeader).
Proof.
  intros Hhead. unfold jwtFromHeader.
  set (h := gin.get _ _).
  destruct (String.eqb h ""); [eauto|].
  rewrite SplitN_space_2. pose proof (Index_space_spec h) as Hs.
  destruct (strings.Index h " ") as [i|]; [|eauto].
  destruct (String.eqb_spec (strings.take i h) (TokenHeadName mw)) as [E|]; [|eauto].
  exfalso. destruct Hs as [_ Hno]. apply (Hno a b). now rewrite E.
Qed.

Section Parsing.
Variable lib : Library.
Variable mw : GinJWTMiddleware.

(** X5.  When a token was located and decodes, [ParseToken] returns, the
    decoded claims are in a new claim map, and the context is changed in
    one case only: with a symmetric algorithm, no [KeyFunc] and a token of
    the configured algorithm the raw token is stored under [JWT_TOKEN],
    before the signature is checked and whatever the check says. *)
Theorem ParseToken_raw_token_in_context w tok d :
  locate mw (ctx w) (strings.Split (TokenLookup mw) ",") "" None = Ok (tok, None) ->
  decode lib tok = inl d ->
  exists r w',
    ParseToken lib mw w = Ok (r, w') /\
    heap w' = <[fresh (dom (heap w)) := jwt.dClaims d]> (heap w) /\
    ctx w' = raw_token_context lib mw tok d (ctx w).
Proof.
  intros Hloc Hd. destruct (ParseToken_decoded lib mw _ _ _ Hloc Hd) as (t & err & n & H & _).
  eauto.
Qed.

(** X6.  On the token [ParseToken] locates in the request,
    [ParseTokenString] returns the same token and the same error and
    leaves the same heap and clock; it never touches the context, while
    [ParseToken] may store the raw token under [JWT_TOKEN]. *)
Theorem ParseTokenString_agrees w tok :
  locate mw (ctx w) (strings.Split (TokenLookup mw) ",") "" None = Ok (tok, None) ->
  exists r w1 w2,
    ParseToken lib mw w = Ok (r, w1) /\
    ParseTokenString lib mw tok w = Ok (r, w2) /\
    heap w1 = heap w2 /\ ticks w1 = ticks w2 /\ ctx w2 = ctx w /\
    (ctx w1 = ctx w \/ ctx w1 = gin.Set_ "JWT_TOKEN" (gin.AString tok) (ctx w)).
Proof.
  intros Hloc. rewrite (ParseToken_located _ _ _ _ Hloc). unfold ParseTokenString.
  destruct (decode lib tok) as [d|e] eqn:Hd.
  - destruct (KeyFunc mw) as [f|].
    + rewrite (jwt_Parse_decoded lib _ _ _ _ Hd). cbn zeta. rewrite customKeyFunc_fresh.
      destruct (f _ _) as [key|[msg|inner errs text]].
      * destruct (verify _ _ _ _ _); do 3 eexists; repeat split; auto.
      * do 3 eexists; repeat split; auto.
      * do 3 eexists; repeat split; auto.
    + rewrite !(jwt_Parse_decoded lib _ _ _ _ Hd). cbn zeta. rewrite keyFunc_eq.
      cbn [jwt.Method_]. destruct (negb _).
      * run. do 3 eexists; repeat split; auto.
      * destruct (usingPublicKeyAlgo mw); run; cbn [ticks set_heap];
          destruct (verify _ _ _ _ _); do 3 eexists; repeat split; auto.
  - unfold jwt_Parse. rewrite Hd. destruct (KeyFunc mw); run;
      do 3 eexists; repeat split; auto.
Qed.

(** The claims of a token that verifies against the shared secret. *)
Lemma GetClaimsFromJWT_verified w tok d :
  KeyFunc mw = None -> usingPublicKeyAlgo mw = false ->
  locate mw (ctx w) (strings.Split (TokenLookup mw) ",") "" None = Ok (tok, None) ->
  decode lib tok = inl d ->
  GetSigningMethod lib (SigningAlgorithm mw) = Some (jwt.dMethod d) ->
  verify lib tok d (jwt.SecretKey (Key mw)) (time_Now lib (ticks w)) = None ->
  GetClaimsFromJWT lib mw w =
  Ok ((jwt.dClaims d, None),
      {| ctx := (if SendAuthorization mw
                 then gin.Header_ "Authorization" (TokenHeadName mw ++ " " ++ tok)
                        (gin.Set_ "JWT_TOKEN" (gin.AString tok) (ctx w))
                 else gin.Set_ "JWT_TOKEN" (gin.AString tok) (ctx w));
         heap := <[fresh (dom (heap w)) := jwt.dClaims d]> (heap w);
         ticks := S (ticks w) |}).
Proof.
  intros Hkf Hpub Hloc Hd Halg Hver.
  unfold GetClaimsFromJWT. rewrite bind_eq, (ParseToken_located _ _ _ _ Hloc), Hkf.
  rewrite (jwt_Parse_decoded lib _ _ _ _ Hd). cbn zeta. rewrite keyFunc_eq.
  cbn [jwt.Method_]. rewrite Halg, Hpub, bool_decide_eq_true_2 by reflexivity.
  cbn [negb ticks set_heap]. rewrite Hver. destruct (SendAuthorization mw); run.
  - cbn [tick ctx gin.Set_ gin.Keys]. rewrite lookup_insert_eq.
    cbn [gin.as_string]. run.
    unfold claims_at. cbn [heap jwt.Claims tick set_heap]. rewrite lookup_insert_eq.
    reflexivity.
  - unfold claims_at. cbn [heap jwt.Claims tick set_heap]. rewrite lookup_insert_eq.
    reflexivity.
Qed.

(** X7.  For a middleware that signs with a symmetric algorithm and has
    no [KeyFunc] (the one mode in which [ParseToken] keeps the raw token
    in the context): with [SendAuthorization], a verified token is echoed
    in the response header [Authorization] as the head name, one space
    and the raw token; when the head name has no space, [jwtFromHeader]
    reads the same token back from a request that carries this header
    value. *)
Theorem SendAuthorization_round_trip w tok d :
  KeyFunc mw = None -> usingPublicKeyAlgo mw = false -> SendAuthorization mw = true ->
  locate mw (ctx w) (strings.Split (TokenLookup mw) ",") "" None = Ok (tok, None) ->
  decode lib tok = inl d ->
  GetSigningMethod lib (SigningAlgorithm mw) = Some (jwt.dMethod d) ->
  verify lib tok d (jwt.SecretKey (Key mw)) (time_Now lib (ticks w)) = None ->
  (forall a b, TokenHeadName mw <> a ++ " " ++ b) ->
  exists w' h,
    GetClaimsFromJWT lib mw w = Ok ((jwt.dClaims d, None), w') /\
    gin.header (ctx w') !! "Authorization" = Some h /\
    forall cx key,
      gin.get (gin.Header (gin.request cx)) key = h ->
      jwtFromHeader mw cx key = (tok, None).
Proof.
  intros Hkf Hpub Hsend Hloc Hd Halg Hver Hhead.
  pose proof (GetClaimsFromJWT_verified _ _ _ Hkf Hpub Hloc Hd Halg Hver) as HG.
  rewrite Hsend in HG.
  do 2 eexists. split; [exact HG|]. cbn [ctx gin.Header_ gin.header].
  split; [apply lookup_insert_eq|].
  intros cx key H. now apply jwtFromHeader_head_token.
Qed.

(** X8.  [ExtractClaimsFromToken] on the token [ParseToken] returns gives
    the decoded claims whether or not verification succeeded; on the nil
    token it gives the empty map. *)
Theorem ExtractClaimsFromToken_unverified w tok d :
  locate mw (ctx w) (strings.Split (TokenLookup mw) ",") "" None = Ok (tok, None) ->
  decode lib tok = inl d ->
  exists t err w1,
    ParseToken lib mw w = Ok ((Some t, err), w1) /\
    ExtractClaimsFromToken (Some t) w1 = Ok (jwt.dClaims d, w1) /\
    ExtractClaimsFromToken None w1 = Ok (∅, w1).
Proof.
  intros Hloc Hd. destruct (ParseToken_decoded lib mw _ _ _ Hloc Hd) as (t & err & n & H & Hl).
  do 3 eexists. split; [exact H|]. split; [|reflexivity].
  unfold ExtractClaimsFromToken, claims_at. cbn [heap]. rewrite Hl.
  now rewrite lookup_insert_eq.
Qed.

End Parsing.

(** ** The request-interception decision, continued *)

Section Interception.
Variable lib : Library.
Variable mw : GinJWTMiddleware.

(** X9.  A rejection with the default [Unauthorized] callback: the message
    is computed from the context as it was, the header [WWW-Authenticate]
    carries the realm, the request is aborted unless [DisabledAbort] is
    set, one JSON body with the code and the message is written, and the
    next handler, the keys of the context, the claim maps and the clock
    are left alone. *)
Theorem reject_response code e w g :
  HTTPStatusMessageFunc mw = Some g ->
  Unauthorized mw = Some default_Unauthorized ->
  exists w',
    reject mw code e w = Ok (tt, w') /\
    gin.written (ctx w')
    = (code, [("code", VInt code); ("message", VString (g e (ctx w)))])
      :: gin.written (ctx w) /\
    gin.header (ctx w')
    = <["WWW-Authenticate" := "JWT realm=" ++ Realm mw]> (gin.header (ctx w)) /\
    gin.aborted (ctx w') = (negb (DisabledAbort mw) || gin.aborted (ctx w)) /\
    gin.next (ctx w') = gin.next (ctx w) /\
    gin.Keys (ctx w') = gin.Keys (ctx w) /\
    heap w' = heap w /\ ticks w' = ticks w.
Proof.
  intros Hg Hu. unfold reject, message, unauthorized. rewrite Hg, Hu. run.
  destruct (DisabledAbort mw); run; eexists; (split; [reflexivity|]);
    cbn; repeat split.
Qed.

(** X10.  The decision on a path that is not exempt, for a credential that
    verified: the request is refused with 400 and [ErrMissingExpField]
    without [exp], with 400 and [ErrWrongFormatOfExp] when [exp] is not a
    [float64], with 401 and [ErrExpiredToken] when [int64(exp)] is below
    the Unix second of the clock, with 403 and [ErrForbidden] when the
    [Authorizator] refuses (the claims and the identity are in the context
    by then); otherwise it is handed to the next handler.  A refusal is
    the state [refused] describes: challenge header, abort unless
    disabled, and the [Unauthorized] callback on that code and the message
    of that error. *)
Theorem non_exempt_path_decision w w1 claims g u :
  GetClaimsFromJWT lib mw w = Ok ((claims, None), w1) ->
  filtered mw (gin.Path (gin.request (ctx w1))) = false ->
  HTTPStatusMessageFunc mw = Some g ->
  Unauthorized mw = Some u ->
  match index claims "exp" with
  | VNil =>
      middlewareImpl lib mw w
      = Ok (tt, refused mw g u http.StatusBadRequest ErrMissingExpField w1)
  | VFloat f =>
      forall clock, TimeFunc mw = Some clock ->
      if (int64_of_float64 f <? time.Unix (clock (ticks w1)))%Z then
        middlewareImpl lib mw w
        = Ok (tt, refused mw g u http.StatusUnauthorized ErrExpiredToken (tick w1))
      else
        forall h a identity,
          IdentityHandler mw = Some h -> Authorizator mw = Some a ->
          h (gin.Set_ "JWT_PAYLOAD" (gin.AClaims claims) (ctx w1)) = Ok identity ->
          middlewareImpl lib mw w =
          if a identity (publish mw identity
                           (gin.Set_ "JWT_PAYLOAD" (gin.AClaims claims) (ctx w1)))
          then Ok (tt, passed_on mw claims identity (tick w1))
          else Ok (tt, refused mw g u http.StatusForbidden ErrForbidden
                         {| ctx := publish mw identity
                                     (gin.Set_ "JWT_PAYLOAD" (gin.AClaims claims)
                                        (ctx w1));
                            heap := heap w1; ticks := S (ticks w1) |})
  | _ =>
      middlewareImpl lib mw w
      = Ok (tt, refused mw g u http.StatusBadRequest ErrWrongFormatOfExp w1)
  end.
Proof.
  intros H Hfl Hg Hu. unfold middlewareImpl.
  rewrite (bind_Ok _ _ _ _ _ H). cbn beta iota. run. cbn beta iota zeta.
  rewrite Hfl. destruct (index claims "exp") as [|f| | |] eqn:Hexp; run;
    try (now apply reject_refused).
  intros clock Hc. unfold now. rewrite Hc. run.
  destruct (_ <? _)%Z; [now apply reject_refused|].
  intros h a identity Hh Ha Hid. rewrite Hh, Ha. run. rewrite Hid. run.
  unfold passed_on, publish, tick.
  destruct identity; run; destruct (a _ _); cbn [negb andb];
    (reflexivity || now apply reject_refused).
Qed.

(** X11.  With [DisabledAbort] unset and an [Unauthorized] callback that
    neither calls the next handler nor undoes the abort, the handlers
    after the middleware run for a request on a path that is not exempt
    only if its credential verified, carries a [float64] [exp] that has
    not passed, and its identity was accepted by the [Authorizator]. *)
Theorem non_exempt_path_admission w w' g u :
  gin.next (ctx w) = false ->
  DisabledAbort mw = false ->
  HTTPStatusMessageFunc mw = Some g ->
  Unauthorized mw = Some u ->
  (forall cx c msg,
     gin.next (u cx c msg) = gin.next cx /\ gin.aborted (u cx c msg) = gin.aborted cx) ->
  filtered mw (gin.Path (gin.request (ctx w))) = false ->
  middlewareImpl lib mw w = Ok (tt, w') ->
  reaches_next_handler (ctx w') = true ->
  exists claims w1 f clock h a identity,
    GetClaimsFromJWT lib mw w = Ok ((claims, None), w1) /\
    index claims "exp" = VFloat f /\
    TimeFunc mw = Some clock /\
    time.Unix (clock (ticks w1)) <= int64_of_float64 f /\
    IdentityHandler mw = Some h /\
    h (gin.Set_ "JWT_PAYLOAD" (gin.AClaims claims) (ctx w1)) = Ok identity /\
    Authorizator mw = Some a /\
    a identity (publish mw identity
                  (gin.Set_ "JWT_PAYLOAD" (gin.AClaims claims) (ctx w1))) = true /\
    w' = passed_on mw claims identity (tick w1).
Proof.
  intros Hnext Hda Hg Hu Hcb Hfl HM Hn'.
  destruct (GetClaimsFromJWT lib mw w) as [[[claims err] w1]|] eqn:HG;
    [|unfold middlewareImpl in HM; rewrite bind_eq, HG in HM; discriminate].
  destruct (GetClaimsFromJWT_context lib mw _ _ _ HG) as [Hreq Hn1].
  assert (Hfl1 : filtered mw (gin.Path (gin.request (ctx w1))) = false)
    by now rewrite Hreq.
  assert (Hrej : forall code e w2, gin.next (ctx w2) = false ->
                   reject mw code e w2 <> Ok (tt, w')).
  { intros code e w2 H2 Hr. rewrite (reject_refused _ _ _ _ _ _ Hg Hu) in Hr.
    injection Hr as <-. revert Hn'. unfold reaches_next_handler, refused.
    cbn [ctx]. rewrite Hda. destruct (Hcb (gin.Abort (gin.Header_ "WWW-Authenticate"
                                            ("JWT realm=" ++ Realm mw) (ctx w2)))
                                         code (g e (ctx w2))) as [-> ->].
    cbn [gin.Abort gin.Header_ gin.next gin.aborted]. rewrite H2. discriminate. }
  destruct err as [e|].
  { exfalso. rewrite (middlewareImpl_err lib mw _ _ _ _ HG) in HM.
    - eapply Hrej; [|exact HM]. congruence.
    - rewrite Hfl1. apply andb_false_r. }
  unfold middlewareImpl in HM. rewrite (bind_Ok _ _ _ _ _ HG) in HM.
  cbn beta iota in HM. rewrite bind_eq in HM. cbn [get_c] in HM.
  cbn beta iota zeta in HM. rewrite Hfl1 in HM.
  destruct (index claims "exp") as [|f| | |] eqn:Hexp; cbn [is_nil is_float64 negb andb] in HM;
    try (exfalso; eapply Hrej; [|exact HM]; congruence).
  unfold now in HM. destruct (TimeFunc mw) as [clock|] eqn:Hc; [|discriminate].
  revert HM. run. destruct (_ <? _)%Z eqn:Hlt.
  { intros HM. exfalso. eapply Hrej; [|exact HM]. cbn [ctx]. congruence. }
  destruct (IdentityHandler mw) as [h|] eqn:Hh; run; [|discriminate].
  destruct (h _) as [identity|] eqn:Hid; run; [|discriminate].
  destruct (Authorizator mw) as [a|] eqn:Ha; [|destruct identity; run; discriminate].
  intros HM. exists claims, w1, f, clock, h, a, identity.
  apply Z.ltb_ge in Hlt.
  assert (HM' : (if a identity (publish mw identity
                           (gin.Set_ "JWT_PAYLOAD" (gin.AClaims claims) (ctx w1)))
          then Ok (tt, passed_on mw claims identity (tick w1))
          else reject mw http.StatusForbidden ErrForbidden
                 {| ctx := publish mw identity
                             (gin.Set_ "JWT_PAYLOAD" (gin.AClaims claims) (ctx w1));
                    heap := heap w1; ticks := S (ticks w1) |}) = Ok (tt, w')).
  { rewrite <- HM. unfold passed_on, publish, tick.
    destruct identity; run; destruct (a _ _); reflexivity. }
  destruct (a identity _) eqn:Hac.
  - injection HM' as <-. repeat split; auto.
  - exfalso. eapply Hrej; [|exact HM']. cbn [ctx].
    unfold publish. destruct (negb _); cbn; congruence.
Qed.

End Interception.

(** ** Issuing a token *)

Lemma store_payload_eq payload dst w (d : gmap string Value) :
  heap w !! dst = Some d ->
  store_payload payload dst w = Ok (tt, set_heap w (<[dst := payload ∪ d]> (heap w))).
Proof.
  intros Hdst. unfold store_payload.
  apply (map_fold_weak_ind (fun (r : M unit) (keys : gmap string Value) =>
           r w = Ok (tt, set_heap w (<[dst := keys ∪ d]> (heap w))))).
  - rewrite (left_id_L ∅ (∪)), insert_id by exact Hdst. now rewrite set_heap_id.
  - intros i x keys' r Hi IH.
    rewrite (bind_Ok _ _ _ _ _ IH).
    erewrite store_claim_eq; cycle 1.
    { cbn. apply lookup_insert_eq. }
    unfold set_heap. cbn. rewrite insert_insert_eq.
    now rewrite insert_union_l.
Qed.

Lemma int64_of_inject_Z z :
  math.MinInt64 <= z <= math.MaxInt64 -> int64_of_float64 (inject_Z z) = z.
Proof.
  intros [H1 H2]. unfold int64_of_float64, inject_Z. cbn [Qnum Qden].
  rewrite Z.quot_1_r.
  destruct (Z.leb_spec math.MinInt64 z); [|lia].
  destruct (Z.leb_spec z math.MaxInt64); [reflexivity|lia].
Qed.

Section Issuing.
Variable lib : Library.
Variable mw : GinJWTMiddleware.

(** The run of [TokenGenerator] with a known algorithm and a clock. *)
Lemma TokenGenerator_eq data w method clock :
  GetSigningMethod lib (SigningAlgorithm mw) = Some method ->
  TimeFunc mw = Some clock ->
  let l := fresh (dom (heap w)) in
  let expire := time.Add (clock (ticks w)) (Timeout mw) in
  let m := refreshed (payload_of mw data) (time.Unix expire)
             (time.Unix (clock (S (ticks w)))) in
  let w' := {| ctx := ctx w; heap := <[l := m]> (heap w); ticks := S (S (ticks w)) |} in
  TokenGenerator lib mw data w =
  match sign lib method m (signing_key mw) with
  | inl s => Ok ((s, expire, None), w')
  | inr e => Ok (("", time.Zero, Some e), w')
  end.
Proof.
  intros Hm Hc l expire m w'. unfold TokenGenerator, jwt_New. rewrite Hm. run.
  cbn [jwt.Claims]. fold l.
  set (w1 := {| ctx := ctx w; heap := <[l := ∅]> (heap w); ticks := ticks w |}).
  assert (H1 : (match PayloadFunc mw with
                | Some f => store_payload (f data) l
                | None => mret tt
                end : M unit) w1
               = Ok (tt, set_heap w1 (<[l := payload_of mw data]> (heap w)))).
  { unfold payload_of. destruct (PayloadFunc mw) as [f|].
    - erewrite store_payload_eq by (cbn; apply lookup_insert_eq).
      cbn [w1 heap]. now rewrite insert_insert_eq, (right_id_L ∅ (∪)).
    - reflexivity. }
  rewrite H1. unfold now. rewrite Hc. run. cbn [set_heap w1 ctx heap ticks].
  erewrite store_claim_eq by (cbn; apply lookup_insert_eq). run.
  cbn [set_heap ctx heap ticks]. rewrite insert_insert_eq.
  erewrite store_claim_eq by (cbn; apply lookup_insert_eq). run.
  cbn [set_heap ctx heap ticks]. rewrite insert_insert_eq.
  unfold signedString. run. unfold claims_at. cbn [heap jwt.Claims set_heap ctx ticks].
  rewrite lookup_insert_eq. fold (signing_key mw). cbn [jwt.Method_].
  fold expire. fold (refreshed (payload_of mw data) (time.Unix expire)
                       (time.Unix (clock (S (ticks w))))). fold m.
  destruct (sign lib method m (signing_key mw)); reflexivity.
Qed.

(** X12.  The token [TokenGenerator] returns is the signature over a new
    claim map that holds the payload, with [exp] set to the second of the
    first clock reading plus [Timeout] and [orig_iat] to the second of
    the second reading, both written over what the payload had under
    these names; the time returned is that first reading plus [Timeout];
    the context and the other claim maps are left alone. *)
Theorem TokenGenerator_claims data w s expire w' :
  TokenGenerator lib mw data w = Ok ((s, expire, None), w') ->
  exists method clock m,
    GetSigningMethod lib (SigningAlgorithm mw) = Some method /\
    TimeFunc mw = Some clock /\
    heap w' !! fresh (dom (heap w)) = Some m /\
    sign lib method m (signing_key mw) = inl s /\
    expire = time.Add (clock (ticks w)) (Timeout mw) /\
    m !! "exp" = Some (VInt (time.Unix expire)) /\
    m !! "orig_iat" = Some (VInt (time.Unix (clock (S (ticks w))))) /\
    (forall k, k <> "exp" -> k <> "orig_iat" -> m !! k = payload_of mw data !! k) /\
    (forall l', l' <> fresh (dom (heap w)) -> heap w' !! l' = heap w !! l') /\
    ctx w' = ctx w.
Proof.
  intros H.
  destruct (GetSigningMethod lib (SigningAlgorithm mw)) as [method|] eqn:Hm;
    [|unfold TokenGenerator, jwt_New in H; rewrite Hm in H; discriminate].
  destruct (TimeFunc mw) as [clock|] eqn:Hc.
  - rewrite (TokenGenerator_eq _ _ _ _ Hm Hc) in H. cbn zeta in H.
    destruct (sign lib method _ _) as [s'|e] eqn:Hs; [|discriminate].
    injection H as <- <- <-. exists method, clock. eexists.
    split; [reflexivity|]. split; [reflexivity|]. cbn [heap ctx].
    split; [apply lookup_insert_eq|]. split; [exact Hs|]. split; [reflexivity|].
    unfold refreshed. split; [|split; [|split; [|split]]].
    + rewrite lookup_insert_ne by discriminate. apply lookup_insert_eq.
    + apply lookup_insert_eq.
    + intros k H1 H2. now rewrite !lookup_insert_ne by congruence.
    + intros l' Hl. now rewrite lookup_insert_ne by congruence.
    + reflexivity.
  - exfalso. revert H. unfold TokenGenerator, jwt_New. rewrite Hm. run.
    destruct ((match PayloadFunc mw with
               | Some f => store_payload (f data) _
               | None => mret tt
               end : M unit) _) as [[[] w2]|]; [|discriminate].
    unfold now. rewrite Hc. run. discriminate.
Qed.

(** X13.  After a successful [Authenticator], [LoginHandler] issues the
    token [TokenGenerator] issues for the same data; it then sets the
    cookie and calls [LoginResponse], and it answers a signing failure
    with 401 and [ErrFailedTokenCreation] in place of the signer's
    error. *)
Theorem LoginHandler_TokenGenerator w authenticator data :
  Authenticator mw = Some authenticator ->
  authenticator (ctx w) = (data, None) ->
  LoginHandler lib mw w =
  match TokenGenerator lib mw data w with
  | Ok ((tokenString, expire, None), w1) =>
      match TimeFunc mw, LoginResponse mw with
      | Some clock, Some f =>
          let w2 := login_response mw clock tokenString expire w1 in
          Ok (tt, {| ctx := f (ctx w2) http.StatusOK tokenString expire;
                     heap := heap w2; ticks := ticks w2 |})
      | _, _ => Panicked "invalid memory address or nil pointer dereference"
      end
  | Ok ((_, _, Some _), w1) =>
      reject mw http.StatusUnauthorized ErrFailedTokenCreation w1
  | Panicked r => Panicked r
  end.
Proof.
  intros Ha Hd. unfold LoginHandler. rewrite Ha. run. rewrite Hd.
  unfold TokenGenerator. rewrite !bind_eq.
  destruct (jwt_New _ w) as [[token w1]|]; [|reflexivity].
  cbn beta iota zeta. rewrite !bind_eq.
  destruct ((match PayloadFunc mw with
             | Some f => store_payload (f data) _
             | None => mret tt
             end : M unit) w1) as [[[] w2]|]; [|reflexivity].
  unfold now. destruct (TimeFunc mw) as [clock|] eqn:Hc; run; [|reflexivity].
  destruct (store_claim _ "exp" _ _) as [[[] w3]|]; [|reflexivity]. run.
  destruct (store_claim _ "orig_iat" _ _) as [[[] w4]|]; [|reflexivity].
  cbn beta iota. unfold signedString. rewrite !bind_eq.
  destruct (claims_at _ w4) as [[claims w5]|]; [|reflexivity]. cbn beta iota.
  destruct (sign lib _ _ _) as [s|e]; run; [|reflexivity].
  unfold login_response, send_cookie.
  destruct (SendCookie mw); run.
  - destruct (negb _); run; destruct (LoginResponse mw); reflexivity.
  - destruct (LoginResponse mw); reflexivity.
Qed.

(** A verified credential whose [exp] has not passed and whose identity
    the [Authorizator] accepts is let through, on every path. *)
Lemma middlewareImpl_passes w w1 claims f clock h a identity :
  GetClaimsFromJWT lib mw w = Ok ((claims, None), w1) ->
  index claims "exp" = VFloat f ->
  TimeFunc mw = Some clock ->
  time.Unix (clock (ticks w1)) <= int64_of_float64 f ->
  IdentityHandler mw = Some h ->
  h (gin.Set_ "JWT_PAYLOAD" (gin.AClaims claims) (ctx w1)) = Ok identity ->
  Authorizator mw = Some a ->
  a identity (publish mw identity
                (gin.Set_ "JWT_PAYLOAD" (gin.AClaims claims) (ctx w1))) = true ->
  middlewareImpl lib mw w = Ok (tt, passed_on mw claims identity (tick w1)).
Proof.
  intros H Hexp Hc Hle Hh Hid Ha Hacc. unfold middlewareImpl.
  rewrite (bind_Ok _ _ _ _ _ H). cbn beta iota. run. cbn beta iota zeta.
  rewrite Hexp. run. unfold now. rewrite Hc. run.
  assert (E : (int64_of_float64 f <? time.Unix (clock (ticks w1)))%Z = false)
    by (apply Z.ltb_ge; exact Hle).
  rewrite E, Hh, Ha. run. rewrite Hid. run.
  unfold passed_on, publish, tick in *.
  destruct identity; run; cbn [negb is_nil] in Hacc; rewrite Hacc; reflexivity.
Qed.

(** X14.  From issuing to interception, for a middleware that signs with
    a symmetric algorithm, has no [KeyFunc] and keeps the default
    [IdentityHandler].  When the token library decodes what it signed
    (every number as a [float64]) and its own checks pass, a request that
    presents a token issued by [TokenGenerator] no later than in the
    second of its [exp] reaches the next handler on every path, with the
    issued claims in the context, provided the [Authorizator] accepts the
    identity and the second of [exp] is a whole number a [float64] holds
    exactly (at most [2 ^ 53] in magnitude). *)
Theorem issued_token_passes data w0 s expire w0' w clock a method :
  KeyFunc mw = None -> usingPublicKeyAlgo mw = false ->
  GetSigningMethod lib (SigningAlgorithm mw) = Some method ->
  TimeFunc mw = Some clock ->
  IdentityHandler mw = Some (default_IdentityHandler (IdentityKey mw)) ->
  Authorizator mw = Some a ->
  (forall m, sign lib method m (signing_key mw) = inl s ->
     decode lib s = inl {| jwt.dMethod := method; jwt.dClaims := json_roundtrip <$> m |}) ->
  TokenGenerator lib mw data w0 = Ok ((s, expire, None), w0') ->
  let claims := json_roundtrip <$>
                  refreshed (payload_of mw data) (time.Unix expire)
                    (time.Unix (clock (S (ticks w0)))) in
  let d := {| jwt.dMethod := method; jwt.dClaims := claims |} in
  locate mw (ctx w) (strings.Split (TokenLookup mw) ",") "" None = Ok (s, None) ->
  verify lib s d (jwt.SecretKey (Key mw)) (time_Now lib (ticks w)) = None ->
  time.Unix (clock (S (ticks w))) <= time.Unix expire ->
  - 2 ^ 53 <= time.Unix expire <= 2 ^ 53 ->
  (forall cx, a (index claims (IdentityKey mw)) cx = true) ->
  exists w1,
    GetClaimsFromJWT lib mw w = Ok ((claims, None), w1) /\
    middlewareImpl lib mw w
    = Ok (tt, passed_on mw claims (index claims (IdentityKey mw)) (tick w1)).
Proof.
  intros Hkf Hpub Hm Hc Hh Ha Hlaw HT claims d Hloc Hver Hle Hrange Hacc.
  assert (Hd : decode lib s = inl d).
  { rewrite (TokenGenerator_eq _ _ _ _ Hm Hc) in HT. cbn zeta in HT.
    destruct (sign lib method _ _) as [s'|e] eqn:Hs; [|discriminate].
    injection HT as -> <- _. apply (Hlaw _ Hs). }
  pose proof (GetClaimsFromJWT_verified lib mw w s d Hkf Hpub Hloc Hd Hm Hver) as HG.
  eexists. split; [exact HG|].
  eapply middlewareImpl_passes with (f := inject_Z (time.Unix expire));
    [exact HG| |exact Hc| |exact Hh| |exact Ha|apply Hacc].
  - unfold index, claims, refreshed. rewrite lookup_fmap.
    rewrite lookup_insert_ne by discriminate. now rewrite lookup_insert_eq.
  - cbn [ticks]. rewrite int64_of_inject_Z; [exact Hle|].
    unfold math.MinInt64, math.MaxInt64. lia.
  - unfold default_IdentityHandler, ExtractClaims. cbn [gin.Set_ gin.Keys].
    now rewrite lookup_insert_eq.
Qed.

End Issuing.

(** ** Exempt paths *)

Lemma String_prefix_nil s : String.prefix "" s = true.
Proof. now destruct s. Qed.

Lemma String_prefix_app p s t : String.prefix p s = true -> String.prefix p (s ++ t) = true.
Proof.
  revert s. induction p as [|a p IH]; intros s; [intros _; apply String_prefix_nil|].
  destruct s as [|b s]; [discriminate|]. rewrite append_cons. cbn [String.prefix].
  destruct (ascii_dec a b); [apply IH|discriminate].
Qed.

(** X15.  Exemption is by prefix: every path that extends an exempt path is
    exempt. *)
Theorem filtered_extension mw path rest :
  filtered mw path = true -> filtered mw (path ++ rest) = true.
Proof.
  unfold filtered. rewrite !existsb_exists.
  intros (e & Hin & Hp). exists e. split; [exact Hin|].
  unfold strings.HasPrefix in *. now apply String_prefix_app.
Qed.

(** X16.  An entry of [FilteredURL] that is empty or blank, such as the one
    after a trailing comma, exempts every path. *)
Theorem filtered_blank_entry mw entry path :
  In entry (strings.Split (FilteredURL mw) ",") ->
  strings.TrimSpace entry = "" ->
  filtered mw path = true.
Proof.
  intros Hin Hb. unfold filtered. rewrite existsb_exists.
  exists entry. split; [exact Hin|]. rewrite Hb. apply String_prefix_nil.
Qed.

(** ** What the next handler reads *)

(** X17.  What the next handler reads back: [ExtractClaims] gives the claims
    of the token and [GetToken] the raw token, unless the identity is not
    nil and [IdentityKey] is the very key they are stored under, in which
    case the identity has replaced them: [ExtractClaims] then panics on
    its type assertion, and [GetToken] returns the identity when it is a
    string and panics on its type assertion when it is not. *)
Theorem passed_on_ExtractClaims mw claims identity w :
  ExtractClaims (ctx (passed_on mw claims identity w)) =
  (if negb (is_nil identity) && String.eqb (IdentityKey mw) "JWT_PAYLOAD"
   then Panicked "interface conversion: interface {} is not myjwt.MapClaims"
   else Ok claims) /\
  (forall tok,
     gin.Keys (ctx w) !! "JWT_TOKEN" = Some (gin.AString tok) ->
     GetToken (ctx (passed_on mw claims identity w)) =
     if negb (is_nil identity) && String.eqb (IdentityKey mw) "JWT_TOKEN"
     then match identity with
          | VString s => Ok s
          | _ => Panicked "interface conversion: interface {} is not string"
          end
     else Ok tok).
Proof.
  unfold passed_on, publish, ExtractClaims, GetToken. cbn [ctx gin.Next gin.Keys].
  destruct (negb (is_nil identity)); cbn [andb gin.Set_ gin.Keys]; split.
  - destruct (String.eqb_spec (IdentityKey mw) "JWT_PAYLOAD") as [->|Hne].
    + now rewrite lookup_insert_eq.
    + rewrite lookup_insert_ne by exact Hne. now rewrite lookup_insert_eq.
  - intros tok Ht. destruct (String.eqb_spec (IdentityKey mw) "JWT_TOKEN") as [->|Hne].
    + rewrite lookup_insert_eq. now destruct identity.
    + rewrite !lookup_insert_ne by (exact Hne || discriminate). now rewrite Ht.
  - now rewrite lookup_insert_eq.
  - intros tok Ht. rewrite lookup_insert_ne by discriminate. now rewrite Ht.
Qed.

(** ** Initialisation, continued *)

Lemma TrimLeft_leading_space_false s : leading_space s = false -> strings.TrimLeft s = s.
Proof.
  destruct s as [|a [|b [|c s3]]]; cbn [leading_space strings.TrimLeft]; intros H.
  - reflexivity.
  - apply orb_false_elim in H as [-> _]. reflexivity.
  - apply orb_false_elim in H as [-> H]. apply orb_false_elim in H as [-> _].
    reflexivity.
  - apply orb_false_elim in H as [-> H]. apply orb_false_elim in H as [-> ->].
    reflexivity.
Qed.

Lemma leading_space_TrimLeft s : leading_space (strings.TrimLeft s) = false.
Proof.
  assert (H : forall n s, (String.length s <= n)%nat -> leading_space (strings.TrimLeft s) = false).
  { clear s. induction n as [|n IH]; intros s Hn.
    - destruct s; [reflexivity|cbn in Hn; lia].
    - destruct s as [|a s1]; [reflexivity|]. cbn [String.length] in Hn.
      cbn [strings.TrimLeft]. destruct (strings.isSpace a) eqn:Ha; [apply IH; lia|].
      destruct s1 as [|b s2]; [cbn [leading_space]; now rewrite Ha|]. cbn [String.length] in Hn.
      destruct (strings.isSpace2 a b) eqn:Hb; [apply IH; lia|].
      destruct s2 as [|c s3]; [cbn [leading_space]; now rewrite Ha, Hb|].
      cbn [String.length] in Hn.
      destruct (strings.isSpace3 a b c) eqn:Hc; [apply IH; lia|].
      cbn [leading_space]. now rewrite Ha, Hb, Hc. }
  now apply (H (String.length s)).
Qed.

Lemma leading_space_app p r : leading_space p = true -> leading_space (p ++ r) = true.
Proof.
  destruct p as [|a [|b [|c p3]]]; rewrite ?append_cons, ?append_nil;
    cbn [leading_space]; intros H.
  - discriminate.
  - rewrite orb_false_r in H. now rewrite H.
  - rewrite orb_false_r in H. apply orb_true_iff in H as [->| ->]; [reflexivity|].
    rewrite orb_true_l. apply orb_true_r.
  - exact H.
Qed.

Lemma TrimRight_prefix s : exists r, s = strings.TrimRight s ++ r.
Proof.
  induction s as [|a s [r IH]]; [now exists ""|]. cbn [strings.TrimRight].
  destruct (strings.isSpaceRune _).
  - now exists (String a s).
  - exists r. rewrite append_cons. now rewrite <- IH.
Qed.

Lemma TrimRight_idem s :
  strings.TrimRight (strings.TrimRight s) = strings.TrimRight s.
Proof.
  induction s as [|a s IH]; [reflexivity|]. cbn [strings.TrimRight].
  destruct (strings.isSpaceRune (String a (strings.TrimRight s))) eqn:H; [reflexivity|].
  cbn [strings.TrimRight]. now rewrite IH, H.
Qed.

Lemma TrimSpace_idem s :
  strings.TrimSpace (strings.TrimSpace s) = strings.TrimSpace s.
Proof.
  unfold strings.TrimSpace.
  assert (H : leading_space (strings.TrimRight (strings.TrimLeft s)) = false).
  { destruct (leading_space (strings.TrimRight (strings.TrimLeft s))) eqn:E; [|reflexivity].
    destruct (TrimRight_prefix (strings.TrimLeft s)) as [r Hr].
    apply (leading_space_app _ r) in E. rewrite <- Hr, leading_space_TrimLeft in E. discriminate. }
  rewrite (TrimLeft_leading_space_false _ H). apply TrimRight_idem.
Qed.

Lemma or_string_idem s d : or_string (or_string s d) d = or_string s d.
Proof.
  unfold or_string. destruct (String.eqb_spec s "") as [->|Hs].
  - now destruct (String.eqb d "").
  - destruct (String.eqb_spec s ""); [contradiction|reflexivity].
Qed.

Lemma or_default_idem {A} (o : option A) d d' :
  or_default (or_default o d) d' = or_default o d.
Proof. now destruct o. Qed.

Section InitialisationDefaults.
Variable lib : Library.

Lemma with_keys_id mw : with_keys mw (privKey mw) (pubKey mw) = mw.
Proof. now destruct mw. Qed.

Lemma readKeys_with_keys mw :
  exists priv pub, fst (readKeys lib mw) = with_keys mw priv pub.
Proof.
  unfold readKeys, privateKey, publicKey.
  destruct (if String.eqb (PrivKeyFile mw) "" then _ else _) as [keyData|];
    [|exists (privKey mw), (pubKey mw); symmetry; apply with_keys_id].
  assert (H : forall (o : option jwt.rsa_PrivateKey),
            exists priv pub,
              fst (let (mw', o0) :=
                     match o with
                     | Some key => (with_keys mw (Some key) (pubKey mw), None)
                     | None => (mw, Some ErrInvalidPrivKey)
                     end in
                   match o0 with
                   | Some err => (mw', Some err)
                   | None =>
                       match (if String.eqb (PubKeyFile mw') "" then Some (PubKeyBytes mw')
                              else ReadFile lib (PubKeyFile mw')) with
                       | Some keyData0 =>
                           match ParseRSAPublicKeyFromPEM lib keyData0 with
                           | Some key => (with_keys mw' (privKey mw') (Some key), None)
                           | None => (mw', Some ErrInvalidPubKey)
                           end
                       | None => (mw', Some ErrNoPubKeyFile)
                       end
                   end) = with_keys mw priv pub).
  { intros [key|]; [|exists (privKey mw), (pubKey mw); symmetry; apply with_keys_id].
    cbn [with_keys PubKeyFile PubKeyBytes privKey].
    destruct (if String.eqb (PubKeyFile mw) "" then _ else _) as [kd|]; [|eauto].
    destruct (ParseRSAPublicKeyFromPEM lib kd); eauto. }
  destruct (negb _); apply H.
Qed.

(** X18.  After [MiddlewareInit], whether it reports an error or not, every
    field with a default has a value: the seven strings are not empty,
    the two durations are not zero and the eight callbacks are not
    nil. *)
Theorem MiddlewareInit_initialised mw :
  initialised (fst (MiddlewareInit lib mw)).
Proof.
  assert (Hd : initialised (defaults lib mw)).
  { unfold initialised, defaults, or_string, or_default.
    cbn -[String.eqb strings.TrimSpace].
    repeat split;
      try (match goal with
           | |- (if String.eqb ?s "" then _ else _) <> "" =>
               destruct (String.eqb_spec s ""); [discriminate|assumption]
           | |- is_Some (match ?o with Some _ => _ | None => _ end) =>
               destruct o; eauto
           end).
    - destruct (Z.eqb_spec (Timeout mw) 0); [discriminate|assumption].
    - destruct (Z.eqb_spec (CookieMaxAge mw) 0); [|assumption].
      destruct (Z.eqb_spec (Timeout mw) 0); [discriminate|assumption]. }
  assert (Hk : forall priv pub, initialised (with_keys (defaults lib mw) priv pub))
    by (intros; exact Hd).
  unfold MiddlewareInit. destruct (KeyFunc _); [exact Hd|].
  destruct (usingPublicKeyAlgo _).
  - destruct (readKeys_with_keys (defaults lib mw)) as (priv & pub & ->). apply Hk.
  - destruct (Key _); exact Hd.
Qed.

End InitialisationDefaults.

Section InitialisationTwice.
Variable lib : Library.

Lemma TokenHeadName_idem s :
  or_string (strings.TrimSpace (or_string (strings.TrimSpace s) "Bearer")) "Bearer"
  = or_string (strings.TrimSpace s) "Bearer".
Proof.
  unfold or_string at 2 3. destruct (String.eqb_spec (strings.TrimSpace s) "") as [E|E].
  - reflexivity.
  - rewrite TrimSpace_idem. unfold or_string.
    now destruct (String.eqb_spec (strings.TrimSpace s) "").
Qed.

Lemma Timeout_idem (t : Z) :
  (if ((if (t =? 0)%Z then time.Hour else t) =? 0)%Z then time.Hour
   else (if (t =? 0)%Z then time.Hour else t))
  = (if (t =? 0)%Z then time.Hour else t).
Proof. destruct (Z.eqb_spec t 0); [reflexivity|]. now destruct (Z.eqb_spec t 0). Qed.

Lemma CookieMaxAge_idem (c t : Z) :
  t <> 0 ->
  (if ((if (c =? 0)%Z then t else c) =? 0)%Z then t else (if (c =? 0)%Z then t else c))
  = (if (c =? 0)%Z then t else c).
Proof.
  intros Ht. destruct (Z.eqb_spec c 0).
  - now destruct (Z.eqb_spec t 0).
  - now destruct (Z.eqb_spec c 0).
Qed.

Lemma defaults_idem mw : defaults lib (defaults lib mw) = defaults lib mw.
Proof.
  unfold defaults at 1.
  cbn -[String.eqb strings.TrimSpace or_string or_default Z.eqb time.Hour
        default_IdentityHandler].
  rewrite !or_string_idem, !or_default_idem, TokenHeadName_idem, Timeout_idem.
  rewrite CookieMaxAge_idem.
  - reflexivity.
  - destruct (Z.eqb_spec (Timeout mw) 0); [discriminate|assumption].
Qed.

Lemma readKeys_idem mw : readKeys lib (fst (readKeys lib mw)) = readKeys lib mw.
Proof.
  unfold readKeys, privateKey, publicKey.
  destruct (if String.eqb (PrivKeyFile mw) "" then Some (PrivKeyBytes mw)
            else ReadFile lib (PrivKeyFile mw)) as [keyData|] eqn:Hdata;
    [|cbn [fst]; now rewrite Hdata].
  assert (H : forall o : option jwt.rsa_PrivateKey,
            (if negb (String.eqb (PrivateKeyPassphrase mw) "")
             then ParseRSAPrivateKeyFromPEMWithPassword lib keyData
                    (PrivateKeyPassphrase mw)
             else ParseRSAPrivateKeyFromPEM lib keyData) = o ->
            let r :=
              let (mw', o0) :=
                match o with
                | Some key => (with_keys mw (Some key) (pubKey mw), None)
                | None => (mw, Some ErrInvalidPrivKey)
                end in
              match o0 with
              | Some err => (mw', Some err)
              | None =>
                  match (if String.eqb (PubKeyFile mw') "" then Some (PubKeyBytes mw')
                         else ReadFile lib (PubKeyFile mw')) with
                  | Some keyData0 =>
                      match ParseRSAPublicKeyFromPEM lib keyData0 with
                      | Some key => (with_keys mw' (privKey mw') (Some key), None)
                      | None => (mw', Some ErrInvalidPubKey)
                      end
                  | None => (mw', Some ErrNoPubKeyFile)
                  end
              end in
            readKeys lib (fst r) = r).
  { intros o Ho r. subst r. unfold readKeys, privateKey, publicKey.
    destruct o as [key|].
    - cbn [with_keys PubKeyFile PubKeyBytes privKey].
      destruct (if String.eqb (PubKeyFile mw) "" then Some (PubKeyBytes mw)
                else ReadFile lib (PubKeyFile mw)) as [kd|] eqn:Hkd.
      + destruct (ParseRSAPublicKeyFromPEM lib kd) as [pk|] eqn:Hpk;
          cbn [fst with_keys PrivKeyFile PrivKeyBytes PrivateKeyPassphrase PubKeyFile
               PubKeyBytes privKey pubKey];
          rewrite Hdata; destruct (negb _); rewrite Ho;
          cbn [fst with_keys PrivKeyFile PrivKeyBytes PrivateKeyPassphrase PubKeyFile
               PubKeyBytes privKey pubKey];
          rewrite Hkd, Hpk; reflexivity.
      + cbn [fst with_keys PrivKeyFile PrivKeyBytes PrivateKeyPassphrase PubKeyFile
             PubKeyBytes privKey pubKey].
        rewrite Hdata; destruct (negb _); rewrite Ho;
          cbn [fst with_keys PrivKeyFile PrivKeyBytes PrivateKeyPassphrase PubKeyFile
               PubKeyBytes privKey pubKey];
          rewrite Hkd; reflexivity.
    - cbn [fst]. rewrite Hdata. destruct (negb _); now rewrite Ho. }
  specialize (H _ eq_refl). cbn zeta in H. unfold readKeys, privateKey, publicKey in H.
  destruct (negb (String.eqb (PrivateKeyPassphrase mw) "")); exact H.
Qed.

(** X19.  Initialising an initialised configuration changes nothing and
    reports the same error. *)
Theorem MiddlewareInit_idempotent mw :
  MiddlewareInit lib (fst (MiddlewareInit lib mw)) = MiddlewareInit lib mw.
Proof.
  unfold MiddlewareInit at 2 3.
  destruct (KeyFunc (defaults lib mw)) as [f|] eqn:Hkf.
  - cbn [fst]. unfold MiddlewareInit. now rewrite defaults_idem, Hkf.
  - destruct (usingPublicKeyAlgo (defaults lib mw)) eqn:Hpub.
    + destruct (readKeys_with_keys lib (defaults lib mw)) as (priv & pub & E).
      unfold MiddlewareInit.
      assert (Hd : defaults lib (fst (readKeys lib (defaults lib mw)))
                   = fst (readKeys lib (defaults lib mw))).
      { rewrite E.
        change (defaults lib (with_keys (defaults lib mw) priv pub))
          with (with_keys (defaults lib (defaults lib mw)) priv pub).
        now rewrite defaults_idem. }
      assert (Hkf' : KeyFunc (fst (readKeys lib (defaults lib mw))) = None)
        by (rewrite E; exact Hkf).
      assert (Hpub' : usingPublicKeyAlgo (fst (readKeys lib (defaults lib mw))) = true)
        by (rewrite E; exact Hpub).
      rewrite Hd, Hkf', Hpub'. apply readKeys_idem.
    + assert (E : fst (match Key (defaults lib mw) with
                       | Some _ => (defaults lib mw, None)
                       | None => (defaults lib mw, Some ErrMissingSecretKey)
                       end) = defaults lib mw) by now destruct (Key _).
      rewrite E. unfold MiddlewareInit. now rewrite defaults_idem, Hkf, Hpub.
Qed.

(** X20.  With an RSA algorithm and no [KeyFunc], an initialisation that
    succeeds has installed both keys and has otherwise only set the
    defaults; one that fails reports one of the four key errors (the
    secret is not asked for). *)
Theorem MiddlewareInit_public_key_mode mw :
  KeyFunc mw = None -> usingPublicKeyAlgo (defaults lib mw) = true ->
  match MiddlewareInit lib mw with
  | (mw', None) =>
      (exists priv pub, privKey mw' = Some priv /\ pubKey mw' = Some pub) /\
      mw' = with_keys (defaults lib mw) (privKey mw') (pubKey mw')
  | (_, Some e) =>
      In e [ErrNoPrivKeyFile; ErrInvalidPrivKey; ErrNoPubKeyFile; ErrInvalidPubKey]
  end.
Proof.
  intros Hkf Hpub. unfold MiddlewareInit.
  change (KeyFunc (defaults lib mw)) with (KeyFunc mw). rewrite Hkf, Hpub.
  set (D := defaults lib mw).
  unfold readKeys, privateKey.
  destruct (if String.eqb (PrivKeyFile D) "" then _ else _) as [keyData|];
    [|cbn; auto].
  assert (H : forall key,
            match publicKey lib (with_keys D (Some key) (pubKey D)) with
            | (mw', None) =>
                (exists priv pub, privKey mw' = Some priv /\ pubKey mw' = Some pub) /\
                mw' = with_keys D (privKey mw') (pubKey mw')
            | (_, Some e) =>
                In e [ErrNoPrivKeyFile; ErrInvalidPrivKey; ErrNoPubKeyFile;
                      ErrInvalidPubKey]
            end).
  { intros key. unfold publicKey. cbn [with_keys PubKeyFile PubKeyBytes privKey].
    destruct (if String.eqb (PubKeyFile D) "" then _ else _) as [kd|]; [|cbn; auto].
    destruct (ParseRSAPublicKeyFromPEM lib kd) as [pk|]; [|cbn; auto 6].
    split; [eauto|reflexivity]. }
  destruct (negb _).
  - destruct (ParseRSAPrivateKeyFromPEMWithPassword lib _ _); [apply H|cbn; auto].
  - destruct (ParseRSAPrivateKeyFromPEM lib _); [apply H|cbn; auto].
Qed.

End InitialisationTwice.

(** ** Panics of the middleware *)

Section Panics.
Variable lib : Library.
Variable mw : GinJWTMiddleware.

Lemma reject_returns code e w :
  initialised mw -> exists w', reject mw code e w = Ok (tt, w').
Proof.
  intros Hi. unfold initialised in Hi.
  destruct Hi as (_ & _ & _ & _ & _ & _ & _ & _ & _ & _ & [u Hu] & _ & _ & _ & _ & _ & [g Hg]).
  unfold reject, message, unauthorized. rewrite Hg, Hu. run.
  destruct (negb (DisabledAbort mw)); run; eauto.
Qed.

(** [ParseToken] returns when credential location does; without an
    error, the token it returns points to its claims. *)
Lemma ParseToken_returns w r :
  locate mw (ctx w) (strings.Split (TokenLookup mw) ",") "" None = Ok r ->
  exists t err w1,
    ParseToken lib mw w = Ok ((t, err), w1) /\
    (err = None -> exists tk m, t = Some tk /\ heap w1 !! jwt.Claims tk = Some m).
Proof.
  destruct r as [tok [e|]]; intros Hloc.
  - rewrite (ParseToken_locate_err _ _ _ _ _ Hloc). do 3 eexists.
    split; [reflexivity|discriminate].
  - destruct (decode lib tok) as [d|e] eqn:Hd.
    + destruct (ParseToken_decoded lib mw _ _ _ Hloc Hd) as (t & err & n & H & Hl).
      rewrite H. do 3 eexists. split; [reflexivity|].
      intros _. exists t, (jwt.dClaims d). split; [reflexivity|].
      cbn [heap]. rewrite Hl. apply lookup_insert_eq.
    + rewrite (ParseToken_located _ _ _ _ Hloc). unfold jwt_Parse. rewrite Hd.
      destruct (KeyFunc mw); do 3 eexists; (split; [reflexivity|discriminate]).
Qed.

Lemma GetClaimsFromJWT_returns w r :
  locate mw (ctx w) (strings.Split (TokenLookup mw) ",") "" None = Ok r ->
  gin.Keys (ctx w) !! "JWT_TOKEN" = None ->
  exists claims err w1,
    GetClaimsFromJWT lib mw w = Ok ((claims, err), w1) /\
    (err <> None -> claims = ∅).
Proof.
  intros Hloc Hk.
  destruct (ParseToken_returns _ _ Hloc) as (t & err & w1 & HP & Ht).
  destruct err as [e|].
  { rewrite (GetClaimsFromJWT_err _ _ _ _ _ _ HP). eauto 10. }
  destruct (Ht eq_refl) as (tk & m & -> & Hm).
  unfold GetClaimsFromJWT. rewrite (bind_Ok _ _ _ _ _ HP). cbn beta iota.
  assert (Hend : forall w2, heap w2 = heap w1 ->
            claims_at (jwt.Claims tk) w2 = Ok (m, w2)).
  { intros w2 Hh. unfold claims_at. now rewrite Hh, Hm. }
  destruct (SendAuthorization mw); run.
  - destruct (ParseToken_context _ _ _ _ _ HP) as [->|[tok ->]].
    + rewrite Hk. run. rewrite (Hend w1 eq_refl). run.
      do 3 eexists. split; [reflexivity|congruence].
    + cbn [gin.Set_ gin.Keys]. rewrite lookup_insert_eq. cbn [gin.as_string]. run.
      rewrite Hend by reflexivity. run.
      do 3 eexists. split; [reflexivity|congruence].
  - rewrite (Hend w1 eq_refl). run. do 3 eexists. split; [reflexivity|congruence].
Qed.

(** X21.  With an initialised configuration, the default identity handler
    and well-formed lookup entries, [middlewareImpl] on a fresh request
    returns, except in one case: on an exempt path, a verified token whose
    [exp] is present and not a [float64] makes the type assertion of the
    expiry test panic. *)
Theorem middlewareImpl_panics_only_on_exp w r :
  initialised mw ->
  IdentityHandler mw = Some (default_IdentityHandler (IdentityKey mw)) ->
  locate mw (ctx w) (strings.Split (TokenLookup mw) ",") "" None = Ok r ->
  gin.Keys (ctx w) !! "JWT_TOKEN" = None ->
  (exists w', middlewareImpl lib mw w = Ok (tt, w')) \/
  (filtered mw (gin.Path (gin.request (ctx w))) = true /\
   exists claims w1,
     GetClaimsFromJWT lib mw w = Ok ((claims, None), w1) /\
     is_nil (index claims "exp") = false /\
     is_float64 (index claims "exp") = false /\
     middlewareImpl lib mw w
     = Panicked "interface conversion: interface {} is not float64").
Proof.
  intros Hi Hh Hloc Hk.
  destruct (GetClaimsFromJWT_returns _ _ Hloc Hk) as (claims & err & w1 & HG & Hempty).
  destruct (GetClaimsFromJWT_context _ _ _ _ _ HG) as [Hreq _].
  pose proof Hi as Hi'. unfold initialised in Hi'.
  destruct Hi' as (_ & _ & _ & _ & _ & _ & _ & _ & _ & [a Ha] & _ & _ & _ & _ & _
                   & [clock Hc] & _).
  set (flag := filtered mw (gin.Path (gin.request (ctx w)))).
  assert (Htail : forall w2,
    exists w',
      (_ ← modify_c (gin.Set_ "JWT_PAYLOAD" (gin.AClaims claims));
       h ← call (IdentityHandler mw);
       cx ← get_c;
       identity ← lift (h cx);
       _ ← (if negb (is_nil identity)
            then modify_c (gin.Set_ (IdentityKey mw) (gin.AValue identity))
            else mret tt);
       a ← call (Authorizator mw);
       cx ← get_c;
       if negb (a identity cx) && negb flag then
         reject mw http.StatusForbidden ErrForbidden
       else
       modify_c gin.Next) w2 = Ok (tt, w')).
  { intros w2. rewrite Hh, Ha. run.
    unfold default_IdentityHandler, ExtractClaims. cbn [gin.Set_ gin.Keys].
    rewrite lookup_insert_eq. run.
    destruct (negb (is_nil _)); run;
      (destruct (negb (a _ _) && negb flag); [apply reject_returns, Hi|run; eauto]). }
  unfold middlewareImpl. rewrite (bind_Ok _ _ _ _ _ HG). cbn beta iota.
  rewrite bind_eq. cbn [get_c]. cbn beta iota zeta. rewrite Hreq. fold flag.
  destruct err as [e|].
  - left. assert (claims = ∅) as -> by (apply Hempty; discriminate).
    destruct (negb (String.eqb (Error e) _)); [apply reject_returns, Hi|].
    destruct flag; cbn [negb]; [|apply reject_returns, Hi].
    change (index ∅ "exp") with VNil. cbn [is_nil is_float64 negb andb].
    rewrite bind_eq. cbn [mret M_ret]. apply Htail.
  - destruct (index claims "exp") as [|f| | |] eqn:Hexp; cbn [is_nil is_float64 negb andb].
    + left. destruct flag; cbn [negb]; [|apply reject_returns, Hi].
      rewrite bind_eq. cbn [mret M_ret]. apply Htail.
    + left. unfold now. rewrite Hc. run.
      destruct (_ <? _)%Z; [apply reject_returns, Hi|apply Htail].
    + destruct flag; cbn [negb]; [|left; apply reject_returns, Hi].
      right. split; [reflexivity|]. exists claims, w1. rewrite Hexp.
      split; [exact HG|]. repeat split.
    + destruct flag; cbn [negb]; [|left; apply reject_returns, Hi].
      right. split; [reflexivity|]. exists claims, w1. rewrite Hexp.
      split; [exact HG|]. repeat split.
    + destruct flag; cbn [negb]; [|left; apply reject_returns, Hi].
      right. split; [reflexivity|]. exists claims, w1. rewrite Hexp.
      split; [exact HG|]. repeat split.
Qed.

End Panics.

(** ** The handlers of the API gateway *)

Section HandlerProperties.

Context {BaseResp Videos Users FileHeader : Type}.
Variable env : Collaborators BaseResp Videos Users FileHeader.

(** X22.  [FavoriteByUser] makes the remote call only for the user of the
    token: the request carries the id [vo.GetUserIdFromToken] gave, that
    id is not -1, the video id and the action type parsed without error,
    and a [user_id] in the query, if any, parsed to the same id. *)
Theorem FavoriteByUser_acts_for_token_owner c request :
  In (FavoriteByUser_called request) (handlers.FavoriteByUser env c) ->
  video.UserId request = vo_GetUserIdFromToken env c /\
  video.UserId request <> -1 /\
  strconv_ParseInt env (handlers.Query c "video_id") = (video.VideoId request, None) /\
  strconv_ParseInt env (handlers.Query c "action_type")
  = (video.ActionType request, None) /\
  (handlers.Query c "user_id" <> "" ->
   strconv_ParseInt env (handlers.Query c "user_id") = (video.UserId request, None)).
Proof.
  unfold handlers.FavoriteByUser.
  destruct (Z.eqb_spec (vo_GetUserIdFromToken env c) (-1)) as [|Hid];
    [cbn; intros [H|[]]; discriminate|].
  destruct (String.eqb (handlers.Query c "video_id") "");
    [cbn; intros [H|[]]; discriminate|].
  destruct (String.eqb (handlers.Query c "action_type") "");
    [cbn; intros [H|[]]; discriminate|].
  cbn [orb].
  assert (Huser :
    (if negb (String.eqb (handlers.Query c "user_id") "") then
       match strconv_ParseInt env (handlers.Query c "user_id") with
       | (_, Some err) => Some err
       | (userId, None) =>
           if negb (userId =? vo_GetUserIdFromToken env c)%Z
           then Some (errno_IdNotEqualErr env) else None
       end
     else None) = None ->
    handlers.Query c "user_id" <> "" ->
    strconv_ParseInt env (handlers.Query c "user_id")
    = (vo_GetUserIdFromToken env c, None)).
  { destruct (String.eqb_spec (handlers.Query c "user_id") "") as [|_];
      [contradiction|]. cbn [negb].
    destruct (strconv_ParseInt env (handlers.Query c "user_id")) as [u [e|]];
      [discriminate|].
    destruct (Z.eqb_spec u (vo_GetUserIdFromToken env c)) as [->|]; [|discriminate].
    reflexivity. }
  revert Huser.
  destruct (if negb (String.eqb (handlers.Query c "user_id") "") then _ else _);
    [cbn; intros _ [H|[]]; discriminate|].
  intros Huser. specialize (Huser eq_refl).
  destruct (strconv_ParseInt env (handlers.Query c "video_id")) as [v [e|]];
    [cbn; intros [H|[]]; discriminate|].
  destruct (strconv_ParseInt env (handlers.Query c "action_type")) as [a [e|]];
    [cbn; intros [H|[]]; discriminate|].
  cbn zeta.
  destruct (rpc_FavoriteByUser env _) as [resp [e|]]; cbn;
    (intros [H|[H|[]]]; [|discriminate]); injection H as <-; cbn;
    repeat split; auto.
Qed.

(** X23.  [FavoriteByUser], [GetMyPublishVideoList], [GetVideoFeed],
    [GetFollowList] and [GetFollowerList] send exactly one response, as
    the last thing they do. *)
Theorem handlers_one_response n c :
  (exists pre last, handlers.FavoriteByUser env c = (pre ++ [last])%list /\
     filter is_response pre = [] /\ is_response last = true) /\
  (exists pre last, handlers.GetMyPublishVideoList env c = (pre ++ [last])%list /\
     filter is_response pre = [] /\ is_response last = true) /\
  (exists pre last, handlers.GetVideoFeed env n c = (pre ++ [last])%list /\
     filter is_response pre = [] /\ is_response last = true) /\
  (exists pre last, handlers.GetFollowList env c = (pre ++ [last])%list /\
     filter is_response pre = [] /\ is_response last = true) /\
  (exists pre last, handlers.GetFollowerList env c = (pre ++ [last])%list /\
     filter is_response pre = [] /\ is_response last = true).
Proof.
  assert (H1 : forall (e1 e2 : Event BaseResp Videos Users FileHeader),
            is_response e1 = false -> is_response e2 = true ->
            exists pre last, [e1; e2] = (pre ++ [last])%list /\
              filter is_response pre = [] /\ is_response last = true).
  { intros e1 e2 H1 H2. exists [e1], e2. cbn. rewrite H1. auto. }
  assert (H0 : forall (e : Event BaseResp Videos Users FileHeader),
            is_response e = true ->
            exists pre last, [e] = (pre ++ [last])%list /\
              filter is_response pre = [] /\ is_response last = true).
  { intros e H. exists [], e. auto. }
  repeat split.
  - unfold handlers.FavoriteByUser.
    destruct (_ || _); [now apply H0|].
    destruct (if negb _ then _ else _); [now apply H0|].
    destruct (strconv_ParseInt env (handlers.Query c "video_id")) as [v [e|]];
      [now apply H0|].
    destruct (strconv_ParseInt env (handlers.Query c "action_type")) as [a [e|]];
      [now apply H0|].
    cbn zeta. destruct (rpc_FavoriteByUser env _) as [resp [e|]]; now apply H1.
  - unfold handlers.GetMyPublishVideoList.
    destruct (_ || _); [now apply H0|].
    destruct (strconv_ParseInt env _) as [u ?].
    destruct (rpc_GetPublishVideoList env u) as [videos [e|]]; now apply H1.
  - unfold handlers.GetVideoFeed. cbn zeta.
    destruct (if negb _ then _ else _) as [t|e]; [|now apply H0].
    destruct (rpc_GetVideosFeed env t) as [[videos next] [e|]]; now apply H1.
  - unfold handlers.GetFollowList, handlers.follow_list.
    destruct (strconv_ParseInt env _) as [u ?]. cbn zeta.
    destruct (rpc_MGetUser env _) as [users [e|]]; now apply H1.
  - unfold handlers.GetFollowerList, handlers.follow_list.
    destruct (strconv_ParseInt env _) as [u ?]. cbn zeta.
    destruct (rpc_MGetUser env _) as [users [e|]]; now apply H1.
Qed.

(** X24.  The upload handler sends two responses when the remote call
    fails, the error and then the success (the [return] after the first
    is missing), and one response in every other case. *)
Theorem PublishVideo_responses c trace :
  handlers.PublishVideo env c = Ok trace ->
  (forall v, In (CreateVideo_called v) trace ->
     match rpc_CreateVideo env v with
     | Some err =>
         filter is_response trace
         = [SendCreateVideoResponse err; SendCreateVideoResponse (errno_Success env)]
     | None =>
         filter is_response trace = [SendCreateVideoResponse (errno_Success env)]
     end) /\
  ((forall v, ~ In (CreateVideo_called v) trace) ->
   exists err, filter is_response trace = [SendCreateVideoResponse err]).
Proof.
  unfold handlers.PublishVideo.
  destruct (jwt_ExtractClaims env c) as [claims|]; [|discriminate].
  destruct (index claims _); try discriminate.
  destruct (String.eqb _ "").
  { intros [= <-]. split; [intros v [H|[]]; discriminate|]. cbn. eauto. }
  destruct (c_FormFile env c "data") as [data|e].
  2:{ intros [= <-]. split; [intros v [H|[]]; discriminate|]. cbn. eauto. }
  cbn zeta. destruct (c_SaveUploadedFile env data _).
  { intros [= <-]. split; [intros v [H|[H|[]]]; discriminate|]. cbn. eauto. }
  intros [= <-]. split.
  - intros v Hin.
    assert (Hv : v = {| video.Id := 0; video.AuthorId := int64_of_float64 f;
                        video.PlayUrl := constants_PlayURL env ++
                                         filepath_Base env (Filename env data);
                        video.CoverUrl := constants_CoverURL env;
                        video.FavoriteCount := 0; video.CommentCount := 0;
                        video.IsFavorite := false;
                        video.Title := handlers.Query c "title" |}).
    { cbn in Hin. destruct Hin as [H|[H|H]]; [discriminate|now injection H|].
      destruct (rpc_CreateVideo env _); cbn in H;
        repeat (destruct H as [H|H]; [discriminate|]); destruct H. }
    subst v. destruct (rpc_CreateVideo env _); reflexivity.
  - intros Hno. exfalso. eapply Hno. cbn. right. left. reflexivity.
Qed.

(** X25.  The upload handler panics when the identity claim is missing or
    not a [float64]; otherwise it returns, and the video it creates has
    as its author the [int64] conversion of the identity claim (the claim
    truncated towards zero when that is within the range of [int64], the
    smallest [int64] when it is not, as on amd64), no id and the title of
    the query, which is not empty. *)
Theorem PublishVideo_author c :
  match jwt_ExtractClaims env c with
  | Panicked r => handlers.PublishVideo env c = Panicked r
  | Ok claims =>
      match index claims (constants_IdentityKey env) with
      | VFloat f =>
          exists trace,
            handlers.PublishVideo env c = Ok trace /\
            forall v, In (CreateVideo_called v) trace ->
              video.AuthorId v = int64_of_float64 f /\
              video.Id v = 0 /\
              video.Title v = handlers.Query c "title" /\
              video.Title v <> ""
      | _ =>
          handlers.PublishVideo env c
          = Panicked "interface conversion: interface {} is not float64"
      end
  end.
Proof.
  unfold handlers.PublishVideo.
  destruct (jwt_ExtractClaims env c) as [claims|]; [|reflexivity].
  destruct (index claims _); try reflexivity.
  destruct (String.eqb_spec (handlers.Query c "title") "") as [|Ht].
  { eexists. split; [reflexivity|]. intros v [H|[]]; discriminate. }
  destruct (c_FormFile env c "data") as [data|e].
  2:{ eexists. split; [reflexivity|]. intros v [H|[]]; discriminate. }
  cbn zeta. destruct (c_SaveUploadedFile env data _).
  { eexists. split; [reflexivity|]. intros v [H|[H|[]]]; discriminate. }
  eexists. split; [reflexivity|]. intros v Hin.
  cbn in Hin. destruct Hin as [H|[H|H]]; [discriminate|injection H as <-; cbn; auto|].
  destruct (rpc_CreateVideo env _); cbn in H;
    repeat (destruct H as [H|H]; [discriminate|]); destruct H.
Qed.

(** X26.  The time [GetVideoFeed] asks the feed for is the current second
    when [latest_time] is absent or parses to 0, and the parsed value
    otherwise; a [latest_time] that does not parse reaches no remote
    call. *)
Theorem GetVideoFeed_last_time n c lastTime :
  In (GetVideosFeed_called lastTime) (handlers.GetVideoFeed env n c) ->
  let now := time.Unix (handlers_time_Now env n) in
  if String.eqb (handlers.Query c "latest_time") "" then lastTime = now
  else exists t,
    strconv_ParseInt env (handlers.Query c "latest_time") = (t, None) /\
    lastTime = (if (t =? 0)%Z then now else t).
Proof.
  unfold handlers.GetVideoFeed. cbn zeta.
  destruct (String.eqb (handlers.Query c "latest_time") ""); cbn [negb].
  - destruct (rpc_GetVideosFeed env _) as [[videos next] [e|]]; cbn;
      (intros [H|[H|[]]]; [|discriminate]); now injection H.
  - destruct (strconv_ParseInt env _) as [t [e|]].
    + cbn. intros [H|[]]. discriminate.
    + destruct (rpc_GetVideosFeed env _) as [[videos next] [e|]]; cbn;
        (intros [H|[H|[]]]; [|discriminate]); injection H as <-;
        exists t; (split; [reflexivity|]); now destruct (t =? 0)%Z.
Qed.

End HandlerProperties.

(** ** The video service and the user service *)

Section ServiceProperties.

Context {BaseResp Videos : Type}.
Variable layer : videoservice.Layer BaseResp Videos.

(** X27.  The three methods of the video service never return an error of
    their own and always fill the base response.  A video list, or a next
    time, is only in a reply for a non-negative argument on which the
    service layer succeeded, next to the success response; [PublishVideo]
    answers a preset id with [ParamErr] and hides the error of the
    service layer behind [ServiceErr]. *)
Theorem video_service_replies :
  (forall userId,
     let r := videoservice.GetPublishListByUser layer userId in
     snd r = None /\
     is_Some (videoservice.pl_BaseResp (fst r)) /\
     forall videos, videoservice.pl_VideoList (fst r) = Some videos ->
       0 <= userId /\
       videoservice.service_GetPublishList layer userId = (Some videos, None) /\
       videoservice.pl_BaseResp (fst r)
       = Some (videoservice.pack_BuildBaseResp layer (videoservice.Success layer))) /\
  (forall lastTime,
     let r := videoservice.GetVideosByLastTime layer lastTime in
     snd r = None /\
     is_Some (videoservice.vf_BaseResp (fst r)) /\
     forall next, videoservice.vf_NextTime (fst r) = Some next ->
       0 <= lastTime /\
       (exists t, videoservice.service_GetVideoFeed layer lastTime
                  = (videoservice.vf_VideoList (fst r), t, None) /\
                  next = time.Unix t) /\
       videoservice.vf_BaseResp (fst r)
       = Some (videoservice.pack_BuildBaseResp layer (videoservice.Success layer))) /\
  (forall v,
     let r := videoservice.PublishVideo layer v in
     snd r = None /\
     fst r = videoservice.pack_BuildBaseResp layer
               (if negb (video.Id v =? 0)%Z then videoservice.ParamErr layer
                else match videoservice.service_CreateVideo layer v with
                     | Some _ => videoservice.ServiceErr layer
                     | None => videoservice.Success layer
                     end)).
Proof.
  split; [|split].
  - intros userId. unfold videoservice.GetPublishListByUser.
    destruct (Z.ltb_spec userId 0); cbn; [split; [|split]; eauto; discriminate|].
    destruct (videoservice.service_GetPublishList layer userId) as [videos [e|]]; cbn;
      (split; [reflexivity|]); (split; [eauto|]); [discriminate|].
    intros v ->. auto.
  - intros lastTime. unfold videoservice.GetVideosByLastTime.
    destruct (Z.ltb_spec lastTime 0); cbn; [split; [|split]; eauto; discriminate|].
    destruct (videoservice.service_GetVideoFeed layer lastTime) as [[videos t] [e|]];
      cbn; (split; [reflexivity|]); (split; [eauto|]); [discriminate|].
    intros next [= <-]. eauto.
  - intros v. unfold videoservice.PublishVideo.
    destruct (negb _); [split; reflexivity|].
    destruct (videoservice.service_CreateVideo layer v); split; reflexivity.
Qed.

End ServiceProperties.

Section UserServiceProperties.

Context {DbUsers Users : Type}.
Variable db_MGetUsers : user.MGetUserRequest -> option DbUsers * option error.
Variable db_QueryFollowRelation : option DbUsers -> Z -> list bool * option error.
Variable pack_Users : option DbUsers -> list bool -> option Users.

(** X28.  [MGetUser] returns an error with no users, and the error is the
    one of the user query or, when that succeeded, of the relation query
    for the requesting user; without an error the users are the packed
    result of both queries. *)
Theorem MGetUser_users_or_error req :
  match userservice.MGetUser db_MGetUsers db_QueryFollowRelation pack_Users req with
  | (users, Some err) =>
      users = None /\
      (snd (db_MGetUsers req) = Some err \/
       snd (db_MGetUsers req) = None /\
       snd (db_QueryFollowRelation (fst (db_MGetUsers req)) (user.UserId req))
       = Some err)
  | (users, None) =>
      exists isFollowList,
        snd (db_MGetUsers req) = None /\
        db_QueryFollowRelation (fst (db_MGetUsers req)) (user.UserId req)
        = (isFollowList, None) /\
        users = pack_Users (fst (db_MGetUsers req)) isFollowList
  end.
Proof.
  unfold userservice.MGetUser.
  destruct (db_MGetUsers req) as [us [e|]]; cbn [fst snd]; [auto|].
  destruct (db_QueryFollowRelation us (user.UserId req)) as [l [e|]]; cbn [fst snd];
    [auto|eauto].
Qed.

End UserServiceProperties.

(** * The further properties on concrete requests *)

(** ** Credential location *)

Lemma locate_error_empty_token_witness :
  let cx := Cases.context (Fixtures.request "/douyin/x" "Basic abc") in
  let methods := strings.Split (TokenLookup Fixtures.mw_form) "," in
  locate Fixtures.mw_form cx methods "" None = Ok ("", Some ErrEmptyPostFormToken) /\
  "" = "".
Proof.
  intros cx methods.
  assert (H : locate Fixtures.mw_form cx methods "" None
              = Ok ("", Some ErrEmptyPostFormToken)) by (vm_compute; reflexivity).
  split; [exact H|].
  exact (locate_error_empty_token Fixtures.mw_form cx methods "" ErrEmptyPostFormToken H).
Defined.

Lemma locate_entry_without_colon_witness :
  let cx := Cases.context (Fixtures.request "/douyin/x" "") in
  strings.Index (strings.TrimSpace "cookie") ":" = None /\
  locate Fixtures.mw_default cx (["header:Authorization"] ++ "cookie" :: []) "" None =
  match locate Fixtures.mw_default cx ["header:Authorization"] "" None with
  | Ok ("", _) => Panicked "index out of range [1] with length 1"
  | Ok (tok, err) => Ok (tok, err)
  | Panicked r => Panicked r
  end.
Proof.
  intros cx.
  assert (H : strings.Index (strings.TrimSpace "cookie") ":" = None)
    by (vm_compute; reflexivity).
  split; [exact H|].
  exact (locate_entry_without_colon Fixtures.mw_default cx ["header:Authorization"]
           "cookie" [] H).
Defined.

(** A trailing comma in [TokenLookup]: the request without a header
    makes the handler panic, the request with a token does not. *)
Example locate_trailing_comma :
  locate Fixtures.mw_default (Cases.context (Fixtures.request "/douyin/x" ""))
    (strings.Split "header:Authorization," ",") "" None
  = Panicked "index out of range [1] with length 1" /\
  locate Fixtures.mw_default (Cases.context (Fixtures.request "/douyin/x" "Bearer fresh"))
    (strings.Split "header:Authorization," ",") "" None
  = Ok ("fresh", None).
Proof. vm_compute. split; reflexivity. Qed.

Lemma jwtFromHeader_head_with_space_witness :
  let cx := Cases.context (Fixtures.request "/douyin/x" "Bearer Token fresh") in
  TokenHeadName Cases.mw_spaced = "Bearer" ++ " " ++ "Token" /\
  exists e, jwtFromHeader Cases.mw_spaced cx "Authorization" = ("", Some e) /\
            (e = ErrEmptyAuthHeader \/ e = ErrInvalidAuthHeader).
Proof.
  intros cx.
  assert (H : TokenHeadName Cases.mw_spaced = "Bearer" ++ " " ++ "Token")
    by (vm_compute; reflexivity).
  split; [exact H|].
  exact (jwtFromHeader_head_with_space Cases.mw_spaced cx "Authorization"
           "Bearer" "Token" H).
Defined.

(** ** Parsing *)

Lemma ParseToken_raw_token_in_context_witness :
  let w := Fixtures.start (Fixtures.request "/douyin/x" "Bearer old") in
  let d := {| jwt.dMethod := jwt.Method "HS256"; jwt.dClaims := Fixtures.claims_old |} in
  locate Fixtures.mw_default (ctx w) (strings.Split (TokenLookup Fixtures.mw_default) ",")
    "" None = Ok ("old", None) /\
  decode Fixtures.lib "old" = inl d /\
  exists r w',
    ParseToken Fixtures.lib Fixtures.mw_default w = Ok (r, w') /\
    heap w' = <[fresh (dom (heap w)) := jwt.dClaims d]> (heap w) /\
    ctx w' = raw_token_context Fixtures.lib Fixtures.mw_default "old" d (ctx w).
Proof.
  intros w d.
  assert (Hloc : locate Fixtures.mw_default (ctx w)
                   (strings.Split (TokenLookup Fixtures.mw_default) ",") "" None
                 = Ok ("old", None)) by (vm_compute; reflexivity).
  assert (Hd : decode Fixtures.lib "old" = inl d) by (vm_compute; reflexivity).
  split; [exact Hloc|]. split; [exact Hd|].
  exact (ParseToken_raw_token_in_context Fixtures.lib Fixtures.mw_default w "old" d
           Hloc Hd).
Defined.

(** The token of the example is expired: the parse fails, and the raw
    token is in the context all the same. *)
Example expired_token_in_context :
  let w := Fixtures.start (Fixtures.request "/douyin/x" "Bearer old") in
  match ParseToken Fixtures.lib Fixtures.mw_default w with
  | Ok ((_, err), w') =>
      err = Some Fixtures.expired /\
      GetToken (ctx w') = Ok "old"
  | Panicked _ => False
  end.
Proof. vm_compute. split; reflexivity. Qed.

Lemma ParseTokenString_agrees_witness :
  let w := Fixtures.start (Fixtures.request "/douyin/x" "Bearer fresh") in
  locate Fixtures.mw_default (ctx w) (strings.Split (TokenLookup Fixtures.mw_default) ",")
    "" None = Ok ("fresh", None) /\
  exists r w1 w2,
    ParseToken Fixtures.lib Fixtures.mw_default w = Ok (r, w1) /\
    ParseTokenString Fixtures.lib Fixtures.mw_default "fresh" w = Ok (r, w2) /\
    heap w1 = heap w2 /\ ticks w1 = ticks w2 /\ ctx w2 = ctx w /\
    (ctx w1 = ctx w \/ ctx w1 = gin.Set_ "JWT_TOKEN" (gin.AString "fresh") (ctx w)).
Proof.
  intros w.
  assert (Hloc : locate Fixtures.mw_default (ctx w)
                   (strings.Split (TokenLookup Fixtures.mw_default) ",") "" None
                 = Ok ("fresh", None)) by (vm_compute; reflexivity).
  split; [exact Hloc|].
  exact (ParseTokenString_agrees Fixtures.lib Fixtures.mw_default w "fresh" Hloc).
Defined.

Lemma ExtractClaimsFromToken_unverified_witness :
  let w := Fixtures.start (Fixtures.request "/douyin/x" "Bearer old") in
  let d := {| jwt.dMethod := jwt.Method "HS256"; jwt.dClaims := Fixtures.claims_old |} in
  locate Fixtures.mw_default (ctx w) (strings.Split (TokenLookup Fixtures.mw_default) ",")
    "" None = Ok ("old", None) /\
  decode Fixtures.lib "old" = inl d /\
  exists t err w1,
    ParseToken Fixtures.lib Fixtures.mw_default w = Ok ((Some t, err), w1) /\
    ExtractClaimsFromToken (Some t) w1 = Ok (jwt.dClaims d, w1) /\
    ExtractClaimsFromToken None w1 = Ok (∅, w1).
Proof.
  intros w d.
  assert (Hloc : locate Fixtures.mw_default (ctx w)
                   (strings.Split (TokenLookup Fixtures.mw_default) ",") "" None
                 = Ok ("old", None)) by (vm_compute; reflexivity).
  assert (Hd : decode Fixtures.lib "old" = inl d) by (vm_compute; reflexivity).
  split; [exact Hloc|]. split; [exact Hd|].
  exact (ExtractClaimsFromToken_unverified Fixtures.lib Fixtures.mw_default w "old" d
           Hloc Hd).
Defined.

Lemma Bearer_has_no_space : forall a b : string, "Bearer" <> a ++ " " ++ b.
Proof. exact (Index_space_spec "Bearer"). Qed.

Lemma SendAuthorization_round_trip_witness :
  let w := Fixtures.start (Fixtures.request "/douyin/x" "Bearer fresh") in
  let d := {| jwt.dMethod := jwt.Method "HS256"; jwt.dClaims := Fixtures.claims_fresh |} in
  (KeyFunc Cases.mw_echo = None /\ usingPublicKeyAlgo Cases.mw_echo = false /\
   SendAuthorization Cases.mw_echo = true /\
   locate Cases.mw_echo (ctx w) (strings.Split (TokenLookup Cases.mw_echo) ",") "" None
   = Ok ("fresh", None) /\
   decode Fixtures.lib "fresh" = inl d /\
   GetSigningMethod Fixtures.lib (SigningAlgorithm Cases.mw_echo) = Some (jwt.dMethod d) /\
   verify Fixtures.lib "fresh" d (jwt.SecretKey (Key Cases.mw_echo))
     (time_Now Fixtures.lib (ticks w)) = None) /\
  exists w' h,
    GetClaimsFromJWT Fixtures.lib Cases.mw_echo w = Ok ((jwt.dClaims d, None), w') /\
    gin.header (ctx w') !! "Authorization" = Some h /\
    forall cx key,
      gin.get (gin.Header (gin.request cx)) key = h ->
      jwtFromHeader Cases.mw_echo cx key = ("fresh", None).
Proof.
  intros w d.
  assert (Hloc : locate Cases.mw_echo (ctx w)
                   (strings.Split (TokenLookup Cases.mw_echo) ",") "" None
                 = Ok ("fresh", None)) by (vm_compute; reflexivity).
  assert (Hd : decode Fixtures.lib "fresh" = inl d) by (vm_compute; reflexivity).
  assert (Halg : GetSigningMethod Fixtures.lib (SigningAlgorithm Cases.mw_echo)
                 = Some (jwt.dMethod d)) by (vm_compute; reflexivity).
  assert (Hver : verify Fixtures.lib "fresh" d (jwt.SecretKey (Key Cases.mw_echo))
                   (time_Now Fixtures.lib (ticks w)) = None) by (vm_compute; reflexivity).
  split; [repeat split; assumption|].
  exact (SendAuthorization_round_trip Fixtures.lib Cases.mw_echo w "fresh" d
           eq_refl eq_refl eq_refl Hloc Hd Halg Hver Bearer_has_no_space).
Defined.

(** With a [KeyFunc] the raw token is not kept in the context, and nothing
    is echoed. *)
Example keyfunc_mode_echoes_nothing :
  let w := Fixtures.start (Fixtures.request "/douyin/x" "Bearer fresh") in
  SendAuthorization Cases.mw_keyfunc_echo = true /\
  exists claims w',
    GetClaimsFromJWT Fixtures.lib Cases.mw_keyfunc_echo w = Ok ((claims, None), w') /\
    gin.header (ctx w') !! "Authorization" = None /\
    gin.Keys (ctx w') !! "JWT_TOKEN" = None.
Proof.
  vm_compute. split; [reflexivity|]. do 2 eexists.
  split; [reflexivity|]. split; reflexivity.
Qed.

(** ** The request-interception decision *)

Lemma non_exempt_path_decision_witness :
  let req := Fixtures.request "/douyin/x" "Bearer fresh" in
  let w := Fixtures.start req in
  let claims := Fixtures.claims_fresh in
  let w1 := Fixtures.parsed req "fresh" claims in
  GetClaimsFromJWT Fixtures.lib Fixtures.mw_strict w = Ok ((claims, None), w1) /\
  filtered Fixtures.mw_strict (gin.Path (gin.request (ctx w1))) = false /\
  index claims "exp" = VFloat 20 /\
  middlewareImpl Fixtures.lib Fixtures.mw_strict w
  = Ok (tt, refused Fixtures.mw_strict default_HTTPStatusMessageFunc default_Unauthorized
              http.StatusForbidden ErrForbidden
              {| ctx := publish Fixtures.mw_strict (VString "alice")
                          (gin.Set_ "JWT_PAYLOAD" (gin.AClaims claims) (ctx w1));
                 heap := heap w1; ticks := S (ticks w1) |}) /\
  Fixtures.observe (middlewareImpl Fixtures.lib Fixtures.mw_strict w)
  = Some (false, true,
          [(403, [("code", VInt 403);
                  ("message", VString "you don't have permission to access this resource")])]).
Proof.
  intros req w claims w1.
  assert (HG : GetClaimsFromJWT Fixtures.lib Fixtures.mw_strict w = Ok ((claims, None), w1))
    by (vm_compute; reflexivity).
  assert (Hfl : filtered Fixtures.mw_strict (gin.Path (gin.request (ctx w1))) = false)
    by (vm_compute; reflexivity).
  assert (Hexp : index claims "exp" = VFloat 20) by (vm_compute; reflexivity).
  split; [exact HG|]. split; [exact Hfl|]. split; [exact Hexp|].
  split; [|vm_compute; reflexivity].
  pose proof (non_exempt_path_decision Fixtures.lib Fixtures.mw_strict w w1 claims
                default_HTTPStatusMessageFunc default_Unauthorized HG Hfl eq_refl eq_refl)
    as T.
  rewrite Hexp in T. specialize (T (time_Now Fixtures.lib) eq_refl).
  assert (Hnow : (int64_of_float64 20 <? time.Unix (time_Now Fixtures.lib (ticks w1)))%Z
                 = false) by (vm_compute; reflexivity).
  rewrite Hnow in T.
  assert (Hid : default_IdentityHandler "identity"
                  (gin.Set_ "JWT_PAYLOAD" (gin.AClaims claims) (ctx w1))
                = Ok (VString "alice")) by (vm_compute; reflexivity).
  exact (T (default_IdentityHandler "identity") (fun _ _ => false) (VString "alice")
           eq_refl eq_refl Hid).
Defined.

Lemma non_exempt_path_admission_witness :
  let req := Fixtures.request "/douyin/x" "Bearer fresh" in
  let w := Fixtures.start req in
  let claims := Fixtures.claims_fresh in
  let w1 := Fixtures.parsed req "fresh" claims in
  let w' := passed_on Fixtures.mw_default claims (VString "alice") (tick w1) in
  (gin.next (ctx w) = false /\
   DisabledAbort Fixtures.mw_default = false /\
   filtered Fixtures.mw_default (gin.Path (gin.request (ctx w))) = false /\
   middlewareImpl Fixtures.lib Fixtures.mw_default w = Ok (tt, w') /\
   reaches_next_handler (ctx w') = true) /\
  exists claims w1 f clock h a identity,
    GetClaimsFromJWT Fixtures.lib Fixtures.mw_default w = Ok ((claims, None), w1) /\
    index claims "exp" = VFloat f /\
    TimeFunc Fixtures.mw_default = Some clock /\
    time.Unix (clock (ticks w1)) <= int64_of_float64 f /\
    IdentityHandler Fixtures.mw_default = Some h /\
    h (gin.Set_ "JWT_PAYLOAD" (gin.AClaims claims) (ctx w1)) = Ok identity /\
    Authorizator Fixtures.mw_default = Some a /\
    a identity (publish Fixtures.mw_default identity
                  (gin.Set_ "JWT_PAYLOAD" (gin.AClaims claims) (ctx w1))) = true /\
    w' = passed_on Fixtures.mw_default claims identity (tick w1).
Proof.
  intros req w claims w1 w'.
  assert (Hn : gin.next (ctx w) = false) by reflexivity.
  assert (Hda : DisabledAbort Fixtures.mw_default = false) by reflexivity.
  assert (Hfl : filtered Fixtures.mw_default (gin.Path (gin.request (ctx w))) = false)
    by (vm_compute; reflexivity).
  assert (HM : middlewareImpl Fixtures.lib Fixtures.mw_default w = Ok (tt, w'))
    by (vm_compute; reflexivity).
  assert (Hn' : reaches_next_handler (ctx w') = true) by reflexivity.
  split; [repeat split; assumption|].
  exact (non_exempt_path_admission Fixtures.lib Fixtures.mw_default w w'
           default_HTTPStatusMessageFunc default_Unauthorized
           Hn Hda eq_refl eq_refl (fun _ _ _ => conj eq_refl eq_refl) Hfl HM Hn').
Defined.

(** With [DisabledAbort] the refusal is written and the chain goes on:
    the handlers after the middleware run for a request without a
    credential. *)
Example refused_without_abort_reaches_next_handler :
  let w := Fixtures.start (Fixtures.request "/douyin/x" "") in
  DisabledAbort Cases.mw_no_abort = true /\
  filtered Cases.mw_no_abort (gin.Path (gin.request (ctx w))) = false /\
  Fixtures.observe (middlewareImpl Fixtures.lib Cases.mw_no_abort w)
  = Some (false, false,
          [(401, [("code", VInt 401); ("message", VString "auth header is empty")])]) /\
  exists w', middlewareImpl Fixtures.lib Cases.mw_no_abort w = Ok (tt, w') /\
             reaches_next_handler (ctx w') = true.
Proof.
  vm_compute. split; [reflexivity|]. split; [reflexivity|]. split; [reflexivity|].
  eexists. split; reflexivity.
Qed.

Lemma reject_response_witness :
  let w := Fixtures.start (Fixtures.request "/douyin/x" "") in
  exists w',
    reject Fixtures.mw_default http.StatusUnauthorized ErrEmptyAuthHeader w = Ok (tt, w') /\
    gin.written (ctx w')
    = (http.StatusUnauthorized,
       [("code", VInt http.StatusUnauthorized);
        ("message", VString (default_HTTPStatusMessageFunc ErrEmptyAuthHeader (ctx w)))])
      :: gin.written (ctx w) /\
    gin.header (ctx w')
    = <["WWW-Authenticate" := "JWT realm=" ++ Realm Fixtures.mw_default]>
        (gin.header (ctx w)) /\
    gin.aborted (ctx w')
    = (negb (DisabledAbort Fixtures.mw_default) || gin.aborted (ctx w)) /\
    gin.next (ctx w') = gin.next (ctx w) /\
    gin.Keys (ctx w') = gin.Keys (ctx w) /\
    heap w' = heap w /\ ticks w' = ticks w.
Proof.
  intros w.
  exact (reject_response Fixtures.mw_default http.StatusUnauthorized ErrEmptyAuthHeader w
           default_HTTPStatusMessageFunc eq_refl eq_refl).
Defined.

Lemma initialised_mw_default : initialised Fixtures.mw_default.
Proof.
  unfold initialised. repeat split.
  all: try (vm_compute; discriminate).
  all: eexists; reflexivity.
Qed.

Lemma middlewareImpl_panics_only_on_exp_witness :
  let w := Fixtures.start (Fixtures.request "/douyin/test" "Bearer textexp") in
  (initialised Fixtures.mw_default /\
   IdentityHandler Fixtures.mw_default
   = Some (default_IdentityHandler (IdentityKey Fixtures.mw_default)) /\
   locate Fixtures.mw_default (ctx w) (strings.Split (TokenLookup Fixtures.mw_default) ",")
     "" None = Ok ("textexp", None) /\
   gin.Keys (ctx w) !! "JWT_TOKEN" = None) /\
  ((exists w', middlewareImpl Fixtures.lib Fixtures.mw_default w = Ok (tt, w')) \/
   (filtered Fixtures.mw_default (gin.Path (gin.request (ctx w))) = true /\
    exists claims w1,
      GetClaimsFromJWT Fixtures.lib Fixtures.mw_default w = Ok ((claims, None), w1) /\
      is_nil (index claims "exp") = false /\
      is_float64 (index claims "exp") = false /\
      middlewareImpl Fixtures.lib Fixtures.mw_default w
      = Panicked "interface conversion: interface {} is not float64")).
Proof.
  intros w.
  assert (Hloc : locate Fixtures.mw_default (ctx w)
                   (strings.Split (TokenLookup Fixtures.mw_default) ",") "" None
                 = Ok ("textexp", None)) by (vm_compute; reflexivity).
  assert (Hk : gin.Keys (ctx w) !! "JWT_TOKEN" = None) by (vm_compute; reflexivity).
  split; [split; [exact initialised_mw_default|split; [reflexivity|split; assumption]]|].
  exact (middlewareImpl_panics_only_on_exp Fixtures.lib Fixtures.mw_default w
           ("textexp", None) initialised_mw_default eq_refl Hloc Hk).
Defined.

(** ** Issuing a token *)

Lemma TokenGenerator_claims_witness :
  let w := Fixtures.start (Fixtures.request "/douyin/user/login" "") in
  let w' := Cases.issued (Fixtures.request "/douyin/user/login" "") in
  let expire := 3610 * time.Second in
  TokenGenerator Cases.lib_issuing Cases.mw_login (VString "alice") w
  = Ok (("issued", expire, None), w') /\
  exists method clock m,
    GetSigningMethod Cases.lib_issuing (SigningAlgorithm Cases.mw_login) = Some method /\
    TimeFunc Cases.mw_login = Some clock /\
    heap w' !! fresh (dom (heap w)) = Some m /\
    sign Cases.lib_issuing method m (signing_key Cases.mw_login) = inl "issued" /\
    expire = time.Add (clock (ticks w)) (Timeout Cases.mw_login) /\
    m !! "exp" = Some (VInt (time.Unix expire)) /\
    m !! "orig_iat" = Some (VInt (time.Unix (clock (S (ticks w))))) /\
    (forall k, k <> "exp" -> k <> "orig_iat" ->
       m !! k = payload_of Cases.mw_login (VString "alice") !! k) /\
    (forall l', l' <> fresh (dom (heap w)) -> heap w' !! l' = heap w !! l') /\
    ctx w' = ctx w.
Proof.
  intros w w' expire.
  assert (H : TokenGenerator Cases.lib_issuing Cases.mw_login (VString "alice") w
              = Ok (("issued", expire, None), w')) by (vm_compute; reflexivity).
  split; [exact H|].
  exact (TokenGenerator_claims Cases.lib_issuing Cases.mw_login (VString "alice") w
           "issued" expire w' H).
Defined.

Lemma LoginHandler_TokenGenerator_witness :
  let w := Fixtures.start (Fixtures.request "/douyin/user/login" "") in
  (Authenticator Cases.mw_login = Some Cases.authenticator /\
   Cases.authenticator (ctx w) = (VString "alice", None)) /\
  LoginHandler Cases.lib_issuing Cases.mw_login w =
  match TokenGenerator Cases.lib_issuing Cases.mw_login (VString "alice") w with
  | Ok ((tokenString, expire, None), w1) =>
      match TimeFunc Cases.mw_login, LoginResponse Cases.mw_login with
      | Some clock, Some f =>
          let w2 := login_response Cases.mw_login clock tokenString expire w1 in
          Ok (tt, {| ctx := f (ctx w2) http.StatusOK tokenString expire;
                     heap := heap w2; ticks := ticks w2 |})
      | _, _ => Panicked "invalid memory address or nil pointer dereference"
      end
  | Ok ((_, _, Some _), w1) =>
      reject Cases.mw_login http.StatusUnauthorized ErrFailedTokenCreation w1
  | Panicked r => Panicked r
  end.
Proof.
  intros w. split; [split; reflexivity|].
  exact (LoginHandler_TokenGenerator Cases.lib_issuing Cases.mw_login w
           Cases.authenticator (VString "alice") eq_refl eq_refl).
Defined.

(** The login of the example: one cookie with the token, the response
    of [LoginResponse], and the request is not aborted. *)
Example login_sets_cookie :
  match LoginHandler Cases.lib_issuing Cases.mw_login
          (Fixtures.start (Fixtures.request "/douyin/user/login" "")) with
  | Ok (_, w) =>
      gin.ck_value <$> gin.cookies (ctx w) = ["issued"] /\
      gin.ck_maxAge <$> gin.cookies (ctx w) = [3600] /\
      fst <$> gin.written (ctx w) = [200] /\
      gin.aborted (ctx w) = false
  | Panicked _ => False
  end.
Proof. vm_compute. repeat split; reflexivity. Qed.

Lemma lib_issuing_law m :
  sign Cases.lib_issuing (jwt.Method "HS256") m (signing_key Cases.mw_login) = inl "issued" ->
  decode Cases.lib_issuing "issued"
  = inl {| jwt.dMethod := jwt.Method "HS256"; jwt.dClaims := json_roundtrip <$> m |}.
Proof.
  cbn [sign Cases.lib_issuing]. destruct (bool_decide_reflect (m = Cases.claims_issued)).
  - subst m. intros _. reflexivity.
  - discriminate.
Qed.

Lemma issued_token_passes_witness :
  let w0 := Fixtures.start (Fixtures.request "/douyin/user/login" "") in
  let w0' := Cases.issued (Fixtures.request "/douyin/user/login" "") in
  let expire := 3610 * time.Second in
  let w := Fixtures.start (Fixtures.request "/douyin/x" "Bearer issued") in
  let claims := json_roundtrip <$>
                  refreshed (payload_of Cases.mw_login (VString "alice"))
                    (time.Unix expire) (time.Unix (time_Now Fixtures.lib (S (ticks w0)))) in
  let d := {| jwt.dMethod := jwt.Method "HS256"; jwt.dClaims := claims |} in
  (TokenGenerator Cases.lib_issuing Cases.mw_login (VString "alice") w0
   = Ok (("issued", expire, None), w0') /\
   locate Cases.mw_login (ctx w) (strings.Split (TokenLookup Cases.mw_login) ",") "" None
   = Ok ("issued", None) /\
   verify Cases.lib_issuing "issued" d (jwt.SecretKey (Key Cases.mw_login))
     (time_Now Cases.lib_issuing (ticks w)) = None /\
   time.Unix (time_Now Fixtures.lib (S (ticks w))) <= time.Unix expire /\
   - 2 ^ 53 <= time.Unix expire <= 2 ^ 53) /\
  exists w1,
    GetClaimsFromJWT Cases.lib_issuing Cases.mw_login w = Ok ((claims, None), w1) /\
    middlewareImpl Cases.lib_issuing Cases.mw_login w
    = Ok (tt, passed_on Cases.mw_login claims (index claims (IdentityKey Cases.mw_login))
                (tick w1)).
Proof.
  intros w0 w0' expire w claims d.
  assert (HT : TokenGenerator Cases.lib_issuing Cases.mw_login (VString "alice") w0
               = Ok (("issued", expire, None), w0')) by (vm_compute; reflexivity).
  assert (Hloc : locate Cases.mw_login (ctx w)
                   (strings.Split (TokenLookup Cases.mw_login) ",") "" None
                 = Ok ("issued", None)) by (vm_compute; reflexivity).
  assert (Hver : verify Cases.lib_issuing "issued" d (jwt.SecretKey (Key Cases.mw_login))
                   (time_Now Cases.lib_issuing (ticks w)) = None)
    by (vm_compute; reflexivity).
  assert (Hle : time.Unix (time_Now Fixtures.lib (S (ticks w))) <= time.Unix expire)
    by (vm_compute; discriminate).
  assert (Hrange : - 2 ^ 53 <= time.Unix expire <= 2 ^ 53)
    by (vm_compute; split; discriminate).
  split; [repeat split; first [assumption | apply Hrange]|].
  exact (issued_token_passes Cases.lib_issuing Cases.mw_login (VString "alice")
           w0 "issued" expire w0' w (time_Now Fixtures.lib) default_Authorizator
           (jwt.Method "HS256") eq_refl eq_refl eq_refl eq_refl eq_refl eq_refl
           lib_issuing_law HT Hloc Hver Hle Hrange (fun _ => eq_refl)).
Defined.

(** ** Exempt paths *)

Lemma filtered_extension_witness :
  filtered Fixtures.mw_default "/douyin/test" = true /\
  filtered Fixtures.mw_default ("/douyin/test" ++ "ing/feed") = true.
Proof.
  assert (H : filtered Fixtures.mw_default "/douyin/test" = true)
    by (vm_compute; reflexivity).
  split; [exact H|].
  exact (filtered_extension Fixtures.mw_default "/douyin/test" "ing/feed" H).
Defined.

Lemma filtered_blank_entry_witness :
  (In "" (strings.Split (FilteredURL Cases.mw_blank) ",") /\ strings.TrimSpace "" = "") /\
  filtered Cases.mw_blank "/douyin/favorite/action" = true.
Proof.
  assert (Hin : In "" (strings.Split (FilteredURL Cases.mw_blank) ","))
    by (vm_compute; right; left; reflexivity).
  assert (Hb : strings.TrimSpace "" = "") by reflexivity.
  split; [split; assumption|].
  exact (filtered_blank_entry Cases.mw_blank "" "/douyin/favorite/action" Hin Hb).
Defined.

(** ** Initialisation *)

Lemma MiddlewareInit_public_key_mode_witness :
  (KeyFunc Cases.mw_rsa = None /\
   usingPublicKeyAlgo (defaults Fixtures.lib Cases.mw_rsa) = true) /\
  match MiddlewareInit Fixtures.lib Cases.mw_rsa with
  | (mw', None) =>
      (exists priv pub, privKey mw' = Some priv /\ pubKey mw' = Some pub) /\
      mw' = with_keys (defaults Fixtures.lib Cases.mw_rsa) (privKey mw') (pubKey mw')
  | (_, Some e) =>
      In e [ErrNoPrivKeyFile; ErrInvalidPrivKey; ErrNoPubKeyFile; ErrInvalidPubKey]
  end.
Proof.
  split; [split; reflexivity|].
  exact (MiddlewareInit_public_key_mode Fixtures.lib Cases.mw_rsa eq_refl eq_refl).
Defined.

(** The RSA configuration initialises and verifies a token signed with
    RS256; without key bytes the private key cannot be parsed. *)
Example rsa_initialises :
  snd (MiddlewareInit Fixtures.lib Cases.mw_rsa) = None /\
  Fixtures.observe
    (middlewareImpl Fixtures.lib (fst (MiddlewareInit Fixtures.lib Cases.mw_rsa))
       (Fixtures.start (Fixtures.request "/douyin/x" "Bearer rsa")))
  = Some (true, false, []) /\
  snd (MiddlewareInit Fixtures.lib Cases.mw_rsa_without_keys) = Some ErrInvalidPrivKey.
Proof. vm_compute. repeat split; reflexivity. Qed.

(** ** The handlers *)

Lemma FavoriteByUser_acts_for_token_owner_witness :
  let env := Cases.env 42 ∅ None in
  let c := Cases.context (Cases.query_request "/douyin/favorite/action"
             [("user_id", "42"); ("video_id", "7"); ("action_type", "1")]) in
  let request := {| video.UserId := 42; video.VideoId := 7; video.ActionType := 1 |} in
  In (FavoriteByUser_called request) (handlers.FavoriteByUser env c) /\
  video.UserId request = vo_GetUserIdFromToken env c /\
  video.UserId request <> -1 /\
  strconv_ParseInt env (handlers.Query c "video_id") = (video.VideoId request, None) /\
  strconv_ParseInt env (handlers.Query c "action_type")
  = (video.ActionType request, None) /\
  (handlers.Query c "user_id" <> "" ->
   strconv_ParseInt env (handlers.Query c "user_id") = (video.UserId request, None)).
Proof.
  intros env c request.
  assert (H : In (FavoriteByUser_called request) (handlers.FavoriteByUser env c))
    by (vm_compute; left; reflexivity).
  split; [exact H|].
  exact (FavoriteByUser_acts_for_token_owner env c request H).
Defined.

(** Another user's id in the query: the request is refused and no
    remote call is made. *)
Example FavoriteByUser_other_user :
  handlers.FavoriteByUser (Cases.env 42 ∅ None)
    (Cases.context (Cases.query_request "/douyin/favorite/action"
       [("user_id", "43"); ("video_id", "7"); ("action_type", "1")]))
  = [SendResponse (errors_New "id is not equal") None].
Proof. vm_compute. reflexivity. Qed.

Lemma PublishVideo_responses_witness :
  let failure := errors_New "connection refused" in
  let env := Cases.env 42 {["id" := VFloat 42]} (Some failure) in
  let c := Cases.context (Cases.query_request "/douyin/publish/action"
             [("title", "clip")]) in
  let v := {| video.Id := 0; video.AuthorId := 42;
              video.PlayUrl := "http://localhost/static/videos/clip.mp4";
              video.CoverUrl := "http://localhost/static/cover.png";
              video.FavoriteCount := 0; video.CommentCount := 0;
              video.IsFavorite := false; video.Title := "clip" |} in
  let trace := [SaveUploadedFile_called "clip.mp4" "./cmd/api/static/videos/clip.mp4";
                CreateVideo_called v;
                SendCreateVideoResponse failure;
                SendCreateVideoResponse (errno_Success env)] in
  handlers.PublishVideo env c = Ok trace /\
  (forall v, In (CreateVideo_called v) trace ->
     match rpc_CreateVideo env v with
     | Some err =>
         filter is_response trace
         = [SendCreateVideoResponse err; SendCreateVideoResponse (errno_Success env)]
     | None =>
         filter is_response trace = [SendCreateVideoResponse (errno_Success env)]
     end) /\
  ((forall v, ~ In (CreateVideo_called v) trace) ->
   exists err, filter is_response trace = [SendCreateVideoResponse err]).
Proof.
  intros failure env c v trace.
  assert (H : handlers.PublishVideo env c = Ok trace) by (vm_compute; reflexivity).
  split; [exact H|].
  exact (PublishVideo_responses env c trace H).
Defined.

Lemma GetVideoFeed_last_time_witness :
  let env := Cases.env 42 ∅ None in
  let c := Cases.context (Cases.query_request "/douyin/feed" [("latest_time", "0")]) in
  In (GetVideosFeed_called 10) (handlers.GetVideoFeed env 0 c) /\
  (let now := time.Unix (handlers_time_Now env 0) in
   if String.eqb (handlers.Query c "latest_time") "" then 10 = now
   else exists t,
     strconv_ParseInt env (handlers.Query c "latest_time") = (t, None) /\
     10 = (if (t =? 0)%Z then now else t)).
Proof.
  intros env c.
  assert (H : In (GetVideosFeed_called 10) (handlers.GetVideoFeed env 0 c))
    by (vm_compute; left; reflexivity).
  split; [exact H|].
  exact (GetVideoFeed_last_time env 0 c 10 H).
Defined.
